(** * Household expense ledger: record store, section manager, import
      validation and analytics of [Project.py]

    The development embeds the record-management core of the program
    (classes [Expense], [FileStorage], [SectionManager] and [Analyzer]) and
    proves the properties stated for it; it then embeds the per-user files
    ([MultiFileStorage]), the accounts ([AuthManager]) and the check of the
    entry form ([ExpenseApp._validate_form]) and proves further properties
    of the whole.

    Conventions of the embedding.
    - Python [str] is [string]; [int] is [Z]; [float] is an IEEE-754
      binary64 value, [SpecFloat.spec_float] at precision 53 and maximal
      exponent 1024, with the arithmetic of [SpecFloat].
    - A function that may raise returns a [result]; [try]/[except] is
      [try_except].
    - A [dict] with string keys is a [gmap string _]; a [set] of strings is
      a [gset string]; a [dict] whose iteration order matters is an
      association list in insertion order.
    - The backing csv file is the list of rows that [csv.reader] yields and
      [csv.writer] is given; the text layer of the [csv] module is outside
      the embedding, and a file that cannot be read through is kept with
      the exception that its reading raises. *)

From Stdlib Require Import ZArith String Ascii Lia SpecFloat.
From stdpp Require Import gmap strings list sorting.

(** ** Exceptions and results *)

Inductive exn : Type :=
  | ValueError (msg : string)
  | TypeError (msg : string)
  | KeyError (msg : string)
  | AttributeError (msg : string)
  | IndexError (msg : string)
  | OverflowError (msg : string)
  | ZeroDivisionError (msg : string)
  | FileNotFoundError (msg : string)
  | PermissionError (msg : string)
  | UnicodeDecodeError (msg : string)
  | CsvError (msg : string).

(** [str(e)] *)
Definition exn_str (e : exn) : string :=
  match e with
  | ValueError m | TypeError m | KeyError m | AttributeError m
  | IndexError m | OverflowError m | ZeroDivisionError m
  | FileNotFoundError m | PermissionError m | UnicodeDecodeError m
  | CsvError m => m
  end.

(** [isinstance(e, ValueError)]: [UnicodeDecodeError] is a subclass of
    [ValueError]. *)
Definition is_ValueError (e : exn) : bool :=
  match e with ValueError _ | UnicodeDecodeError _ => true | _ => false end.

Definition is_FileNotFoundError (e : exn) : bool :=
  match e with FileNotFoundError _ => true | _ => false end.

Inductive result (A : Type) : Type :=
  | Ok (a : A)
  | Raise (e : exn).
Arguments Ok {A} a.
Arguments Raise {A} e.

Global Instance result_ret : MRet result := fun A a => Ok a.
Global Instance result_bind : MBind result := fun A B k c =>
  match c with
  | Ok a => k a
  | Raise e => Raise e
  end.

(** [try: c except <handles>: handler] *)
Definition try_except {A} (c : result A) (handles : exn -> bool)
    (handler : exn -> result A) : result A :=
  match c with
  | Ok a => Ok a
  | Raise e => if handles e then handler e else Raise e
  end.

Definition is_Ok {A} (c : result A) : bool :=
  match c with Ok _ => true | Raise _ => false end.

(** ** Python built-ins used by the program *)

Module Py.

Local Open Scope Z_scope.

Definition code (c : ascii) : Z := Z.of_N (N_of_ascii c).

(** Characters removed by [str.strip()]: the ASCII characters for which
    [str.isspace] holds. *)
Definition is_space (c : ascii) : bool :=
  ((9 <=? code c) && (code c <=? 13)) || ((28 <=? code c) && (code c <=? 32)).

(** Characters skipped around a numeric literal by [int()] and [float()]. *)
Definition is_num_space (c : ascii) : bool :=
  ((9 <=? code c) && (code c <=? 13)) || (code c =? 32).

Fixpoint lstrip_with (sp : ascii -> bool) (s : string) : string :=
  match s with
  | EmptyString => EmptyString
  | String c s' => if sp c then lstrip_with sp s' else s
  end.

Fixpoint rstrip_with (sp : ascii -> bool) (s : string) : string :=
  match s with
  | EmptyString => EmptyString
  | String c s' =>
      match rstrip_with sp s' with
      | EmptyString => if sp c then EmptyString else String c EmptyString
      | r => String c r
      end
  end.

Definition strip_with (sp : ascii -> bool) (s : string) : string :=
  rstrip_with sp (lstrip_with sp s).

(** [s.strip()] *)
Definition strip (s : string) : string := strip_with is_space s.

(** *** Decimal digits *)

Definition digit_of_ascii (c : ascii) : option Z :=
  if (48 <=? code c) && (code c <=? 57) then Some (code c - 48) else None.

Definition ascii_of_digit (d : Z) : ascii := ascii_of_N (Z.to_N (48 + d)).

(** A run of digits with single underscores allowed between digits, as
    accepted in numeric literals by [int()] and [float()].  Returns the
    digits read and the rest of the string; the run may be empty. *)
Fixpoint digit_run (s : string) : list Z * string :=
  match s with
  | String c s' =>
      match digit_of_ascii c with
      | None => ([], s)
      | Some d =>
          match s' with
          | String "_" s'' =>
              match digit_run s'' with
              | ([], _) => ([d], s')
              | (ds, r) => (d :: ds, r)
              end
          | _ => let '(ds, r) := digit_run s' in (d :: ds, r)
          end
      end
  | EmptyString => ([], s)
  end.

(** Value of a digit sequence, most significant digit first. *)
Definition digits_value (ds : list Z) : Z :=
  fold_left (fun acc d => 10 * acc + d) ds 0.

(** Decimal digits of a non-negative integer, most significant first. *)
Fixpoint digits_go (fuel : nat) (n : Z) (acc : list Z) : list Z :=
  match fuel with
  | O => acc
  | S fuel' =>
      if n <? 10 then n :: acc
      else digits_go fuel' (n / 10) (n mod 10 :: acc)
  end.

Definition digits_of (n : Z) : list Z :=
  digits_go (S (Z.to_nat (Z.log2 n))) n [].

Definition string_of_digits (ds : list Z) : string :=
  fold_right (fun d s => String (ascii_of_digit d) s) EmptyString ds.

(** [str(n)] for an [int] *)
Definition str_of_int (n : Z) : string :=
  if n <? 0 then String "-" (string_of_digits (digits_of (- n)))
  else string_of_digits (digits_of n).

(** An optional sign: [(negative, rest)]. *)
Definition read_sign (s : string) : bool * string :=
  match s with
  | String "-" s' => (true, s')
  | String "+" s' => (false, s')
  | _ => (false, s)
  end.

Definition repr_str (s : string) : string := "'" +:+ s +:+ "'".

(** [int(s)] for a [str], base 10. *)
Definition int_of_str (s : string) : result Z :=
  let '(neg, body) := read_sign (strip_with is_num_space s) in
  match digit_run body with
  | (d :: ds, EmptyString) =>
      let v := digits_value (d :: ds) in Ok (if neg then - v else v)
  | _ => Raise (ValueError ("invalid literal for int() with base 10: " +:+ repr_str s))
  end.

(** *** [float]: IEEE-754 binary64 *)

Definition float : Type := spec_float.

Definition prec : Z := 53.
Definition emax : Z := 1024.

Definition fzero : float := S754_zero false.
Definition fadd : float -> float -> float := SFadd prec emax.
Definition fdiv : float -> float -> float := SFdiv prec emax.
Definition fleb : float -> float -> bool := SFleb.
Definition fltb : float -> float -> bool := SFltb.

Definition is_nan (a : float) : bool :=
  match a with S754_nan => true | _ => false end.


(** Quotient [n / d] rounded to the nearest integer, ties to even
    ([0 <= n], [0 < d]). *)
Definition div_rne (n d : Z) : Z :=
  let q := n / d in
  match 2 * (n mod d) ?= d with
  | Lt => q
  | Eq => if Z.even q then q else q + 1
  | Gt => q + 1
  end.

(** [num / (den * 2^e)] rounded to the nearest integer, ties to even. *)
Definition scaled_rne (num den e : Z) : Z :=
  if 0 <=? e then div_rne num (den * 2 ^ e) else div_rne (num * 2 ^ (- e)) den.

(** Whether [2^52 <= num / (den * 2^e)]. *)
Definition reaches_52 (num den e : Z) : bool :=
  if 0 <=? e then 2 ^ 52 * (den * 2 ^ e) <=? num
  else 2 ^ 52 * den <=? num * 2 ^ (- e).

(** The exponent [e] of the binade of the rational [num / den] ([0 < num],
    [0 < den]): [2^52 <= num / (den * 2^e) < 2^53]. *)
Definition binade_exponent (num den : Z) : Z :=
  let e0 := Z.log2 num - Z.log2 den - 52 in
  if reaches_52 num den e0 then e0 else e0 - 1.

(** The binary64 value nearest to the rational [num / den] ([0 <= num],
    [0 < den]), ties to even, with sign [s]: the exponent is chosen so that
    the significand has 53 bits, but not below the subnormal exponent. *)
Definition round_ratio (s : bool) (num den : Z) : float :=
  if num =? 0 then S754_zero s
  else
    let e := Z.max (binade_exponent num den) (-1074) in
    let m := scaled_rne num den e in
    let '(m, e) := if m =? 2 ^ 53 then (2 ^ 52, e + 1) else (m, e) in
    if m =? 0 then S754_zero s
    else if emax - prec <? e then S754_infinity s
    else S754_finite s (Z.to_pos m) e.

Definition is_zero (a : float) : bool :=
  match a with S754_zero _ => true | _ => false end.

(** [float(n)] for an [int] *)
Definition float_of_int (n : Z) : result float :=
  match round_ratio (n <? 0) (Z.abs n) 1 with
  | S754_infinity _ => Raise (OverflowError "int too large to convert to float")
  | a => Ok a
  end.

(** [a / n] for a [float] and an [int] *)
Definition truediv_int (a : float) (n : Z) : result float :=
  b ← float_of_int n;
  if is_zero b then Raise (ZeroDivisionError "float division by zero")
  else mret (fdiv a b).

Definition lower (c : ascii) : ascii :=
  if (65 <=? code c) && (code c <=? 90) then ascii_of_N (Z.to_N (code c + 32)) else c.

Fixpoint lower_str (s : string) : string :=
  match s with
  | EmptyString => EmptyString
  | String c s' => String (lower c) (lower_str s')
  end.

(** The exponent part of a decimal literal: empty, or [e]/[E], an optional
    sign and a non-empty digit run that ends the literal. *)
Definition read_exponent (s : string) : option Z :=
  match s with
  | EmptyString => Some 0
  | String c s' =>
      if (c =? "e")%char || (c =? "E")%char then
        let '(neg, body) := read_sign s' in
        match digit_run body with
        | (d :: ds, EmptyString) =>
            let v := digits_value (d :: ds) in Some (if neg then - v else v)
        | _ => None
        end
      else None
  end.

(** A decimal literal without sign: [(N, k)] stands for [N * 10^k]. *)
Definition read_decimal (s : string) : option (Z * Z) :=
  let '(ints, r1) := digit_run s in
  let '(fracs, r2) :=
    match r1 with
    | String "." r => digit_run r
    | _ => ([], r1)
    end in
  match ints ++ fracs with
  | [] => None
  | ds =>
      match read_exponent r2 with
      | Some x => Some (digits_value ds, x - Z.of_nat (length fracs))
      | None => None
      end
  end.

Definition float_of_decimal (s : bool) (N k : Z) : float :=
  if 0 <=? k then round_ratio s (N * 10 ^ k) 1 else round_ratio s N (10 ^ (- k)).

(** [float(s)] for a [str] *)
Definition float_of_str (s : string) : result float :=
  let '(neg, body) := read_sign (strip_with is_num_space s) in
  let low := lower_str body in
  if (low =? "inf")%string || (low =? "infinity")%string then Ok (S754_infinity neg)
  else if (low =? "nan")%string then Ok S754_nan
  else
    match read_decimal body with
    | Some (N, k) => Ok (float_of_decimal neg N k)
    | None => Raise (ValueError ("could not convert string to float: " +:+ repr_str s))
    end.

(** Two fractional digits: the decimal rendering of [n / 100]. *)
Definition fixed2 (n : Z) : string :=
  string_of_digits (digits_of (n / 100)) +:+ "." +:+
  string_of_digits [n mod 100 / 10; n mod 10].

Definition sign_str (s : bool) : string := if s then "-" else "".

(** Hundredths nearest to the magnitude [m * 2^e], ties to even. *)
Definition hundredths (m : positive) (e : Z) : Z :=
  if 0 <=? e then 100 * Z.pos m * 2 ^ e else div_rne (100 * Z.pos m) (2 ^ (- e)).

(** [f"{a:.2f}"] *)
Definition format_2f (a : float) : string :=
  match a with
  | S754_nan => "nan"
  | S754_infinity s => sign_str s +:+ "inf"
  | S754_zero s => sign_str s +:+ "0.00"
  | S754_finite s m e => sign_str s +:+ fixed2 (hundredths m e)
  end.

(** *** [datetime.date] *)

Record date : Type := Date { year : Z; month : Z; day : Z }.

Definition is_leap (y : Z) : bool :=
  (y mod 4 =? 0) && (negb (y mod 100 =? 0) || (y mod 400 =? 0)).

Definition days_in_month (y m : Z) : Z :=
  if m =? 2 then (if is_leap y then 29 else 28)
  else if (m =? 4) || (m =? 6) || (m =? 9) || (m =? 11) then 30
  else 31.

(** The class invariant of [datetime.date]. *)
Definition valid_date (d : date) : bool :=
  (1 <=? year d) && (year d <=? 9999) &&
  (1 <=? month d) && (month d <=? 12) &&
  (1 <=? day d) && (day d <=? days_in_month (year d) (month d)).

(** [datetime.date(y, m, d)] *)
Definition date_new (y m d : Z) : result date :=
  if negb ((1 <=? y) && (y <=? 9999)) then
    Raise (ValueError ("year " +:+ str_of_int y +:+ " is out of range"))
  else if negb ((1 <=? m) && (m <=? 12)) then
    Raise (ValueError "month must be in 1..12")
  else if negb ((1 <=? d) && (d <=? days_in_month y m)) then
    Raise (ValueError "day is out of range for month")
  else Ok (Date y m d).

Definition digits_opt (cs : list ascii) : option Z :=
  digits_value <$> mapM digit_of_ascii cs.

(** [datetime.date.fromisoformat(s)] for a [str], in the calendar form
    [YYYY-MM-DD] (the one form accepted by every interpreter version that
    has the method). *)
Definition date_fromisoformat (s : string) : result date :=
  let bad := Raise (ValueError ("Invalid isoformat string: " +:+ repr_str s)) in
  match s with
  | String y1 (String y2 (String y3 (String y4 (String "-"
      (String m1 (String m2 (String "-" (String d1 (String d2 EmptyString))))))))) =>
      match digits_opt [y1; y2; y3; y4], digits_opt [m1; m2], digits_opt [d1; d2] with
      | Some y, Some m, Some d => date_new y m d
      | _, _, _ => bad
      end
  | _ => bad
  end.

(** Decimal rendering padded with zeros to at least [w] digits. *)
Definition zero_pad (w : nat) (n : Z) : string :=
  let ds := digits_of n in
  string_of_digits (replicate (w - length ds) 0 ++ ds).

(** [d.isoformat()] *)
Definition date_isoformat (d : date) : string :=
  zero_pad 4 (year d) +:+ "-" +:+ zero_pad 2 (month d) +:+ "-" +:+ zero_pad 2 (day d).

Global Instance date_eq_dec : EqDecision date.
Proof. solve_decision. Defined.

Global Instance date_countable : Countable date :=
  inj_countable' (fun d => (year d, month d, day d))
    (fun p => Date p.1.1 p.1.2 p.2) (fun d => match d with Date _ _ _ => eq_refl end).

(** [a < b] and [a <= b] for dates: the comparison of the triples
    [(year, month, day)]. *)
Definition date_lt (a b : date) : Prop :=
  year a < year b ∨
  (year a = year b ∧ (month a < month b ∨ (month a = month b ∧ day a < day b))).

Definition date_le (a b : date) : Prop :=
  year a < year b ∨
  (year a = year b ∧ (month a < month b ∨ (month a = month b ∧ day a ≤ day b))).

Global Instance date_lt_dec (a b : date) : Decision (date_lt a b).
Proof. unfold date_lt. apply _. Defined.

Global Instance date_le_dec (a b : date) : Decision (date_le a b).
Proof. unfold date_le. apply _. Defined.

(** *** Loosely typed values *)

Inductive pyval : Type :=
  | PNone
  | PBool (b : bool)
  | PInt (n : Z)
  | PFloat (a : float)
  | PStr (s : string).

Definition type_name (v : pyval) : string :=
  match v with
  | PNone => "NoneType"
  | PBool _ => "bool"
  | PInt _ => "int"
  | PFloat _ => "float"
  | PStr _ => "str"
  end.

(** [float(v)] *)
Definition float_of (v : pyval) : result float :=
  match v with
  | PFloat a => Ok a
  | PInt n => float_of_int n
  | PBool b => float_of_int (if b then 1 else 0)
  | PStr s => float_of_str s
  | PNone => Raise (TypeError
      "float() argument must be a string or a real number, not 'NoneType'")
  end.

(** [datetime.date.fromisoformat(v)] *)
Definition date_fromisoformat_of (v : pyval) : result date :=
  match v with
  | PStr s => date_fromisoformat s
  | _ => Raise (TypeError "fromisoformat: argument must be str")
  end.

(** [v.strip()] *)
Definition strip_of (v : pyval) : result string :=
  match v with
  | PStr s => Ok (strip s)
  | _ => Raise (AttributeError
      (repr_str (type_name v) +:+ " object has no attribute 'strip'"))
  end.

(** [d[k]] for a [dict] *)
Definition getitem (d : gmap string pyval) (k : string) : result pyval :=
  match d !! k with
  | Some v => Ok v
  | None => Raise (KeyError (repr_str k))
  end.

End Py.


(** ** Domain model: [Expense] *)

Module Expense.

Record t : Type := Build {
  id : Z;
  date : Py.date;
  category : string;
  description : string;
  amount : Py.float;
}.

Definition to_row (self : t) : list string :=
  [ Py.str_of_int (id self); Py.date_isoformat (date self); category self;
    description self; Py.format_2f (amount self) ].

(** [row[i]] *)
Definition item (row : list string) (i : nat) : result string :=
  match row !! i with
  | Some s => Ok s
  | None => Raise (IndexError "list index out of range")
  end.

Definition from_row (row : list string) : result t :=
  id ← item row 0 ≫= Py.int_of_str;
  date ← item row 1 ≫= Py.date_fromisoformat;
  category ← item row 2;
  description ← item row 3;
  amount ← item row 4 ≫= Py.float_of_str;
  mret (Build id date category description amount).

End Expense.

Abbreviation Expense := Expense.t.

(** ** Storage layer: [FileStorage] *)

Module FileStorage.

(** The file at [self.filepath]: absent; the rows of its csv content; or
    a file that is there but cannot be read through, because opening it,
    decoding it as UTF-8 or splitting it into rows raises [e]
    ([PermissionError], [UnicodeDecodeError], [csv.Error], ...). *)
Inductive file : Type :=
  | Absent
  | Present (rows : list (list string))
  | Unreadable (e : exn).

(** [contents] is the file at [self.filepath]; [writes] counts the calls of
    [save_all] that rewrote it. *)
Record t : Type := Build {
  contents : file;
  writes : nat;
}.

Definition headers : list string :=
  ["id"; "date"; "category"; "description"; "amount"].

Definition _ensure_file (f : file) : file :=
  match f with
  | Absent => Present [headers]
  | Present rows => Present rows
  | Unreadable e => Unreadable e
  end.

(** [FileStorage(filepath)], for the file found at [filepath]. *)
Definition init (f : file) : t := Build (_ensure_file f) 0.

(** [open(self.filepath, "r", encoding="utf-8")] followed by [csv.reader]
    and the iteration over its rows: the rows, or the exception that the
    opening or the reading raises. *)
Definition open_read (f : file) : result (list (list string)) :=
  match f with
  | Absent => Raise (FileNotFoundError "No such file or directory")
  | Present rows => Ok rows
  | Unreadable e => Raise e
  end.

(** The loop [for row in reader] of [load_all]. *)
Fixpoint load_rows (rows : list (list string)) (expenses : list Expense) : list Expense :=
  match rows with
  | [] => expenses
  | row :: rest =>
      if decide (length row = 5) then
        match Expense.from_row row with
        | Ok e => load_rows rest (expenses ++ [e])
        | Raise _ => load_rows rest expenses
        end
      else load_rows rest expenses
  end.

Definition load_all (self : t) : result (list Expense) :=
  try_except
    (rows ← open_read (contents self);
     (* next(reader, None) skips the header *)
     mret (load_rows (drop 1 rows) []))
    is_FileNotFoundError
    (fun _ => Ok []).

(** [open(self.filepath, "w")] truncates the file whatever it held; the
    writing itself is taken to succeed. *)
Definition save_all (self : t) (expenses : list Expense) : t :=
  Build (Present (headers :: (Expense.to_row <$> expenses))) (S (writes self)).

End FileStorage.

(** ** Business logic: [SectionManager] *)

Module SectionManager.

Record t : Type := Build {
  storage : FileStorage.t;
  expenses : list Expense;
  next_id : Z;
  categories : gset string;
}.

Definition default_categories : gset string :=
  {[ "Food"; "Transport"; "Rent"; "Utilities"; "Entertainment"; "Misc" ]}.

(** [max(xs, default=d)] *)
Definition max_default (xs : list Z) (d : Z) : Z :=
  match xs with
  | [] => d
  | x :: xs' => fold_left Z.max xs' x
  end.

Definition _compute_next_id (expenses : list Expense) : Z :=
  (max_default (Expense.id <$> expenses) 0 + 1)%Z.

(** [SectionManager(storage, section, username)], where [storage] is the
    [FileStorage] of the section. *)
Definition init (storage : FileStorage.t) : result t :=
  expenses ← FileStorage.load_all storage;
  let seen : gset string := list_to_set (Expense.category <$> expenses) in
  mret (Build storage expenses (_compute_next_id expenses)
          (if decide (seen = ∅) then default_categories else seen)).

Definition add_expense (self : t) (date : Py.date) (category description : string)
    (amount : Py.float) : t * Expense :=
  let exp := Expense.Build (next_id self) date category description amount in
  let expenses' := expenses self ++ [exp] in
  (Build (FileStorage.save_all (storage self) expenses') expenses'
     (next_id self + 1)%Z ({[ category ]} ∪ categories self),
   exp).

(** The conversions at the head of the [try] block of [bulk_add_expenses]. *)
Definition coerce (expense_data : gmap string Py.pyval)
    : result (Py.date * string * string * Py.float) :=
  date ← Py.getitem expense_data "date" ≫= Py.date_fromisoformat_of;
  category ← Py.getitem expense_data "category" ≫= Py.strip_of;
  description ← Py.getitem expense_data "description" ≫= Py.strip_of;
  amount ← Py.getitem expense_data "amount" ≫= Py.float_of;
  mret (date, category, description, amount).

(** The loop of [bulk_add_expenses]; the state is [self] and the two
    counters. *)
Fixpoint bulk_loop (expenses_data : list (gmap string Py.pyval)) (self : t)
    (success_count skipped_count : nat) : t * nat * nat :=
  match expenses_data with
  | [] => (self, success_count, skipped_count)
  | expense_data :: rest =>
      match coerce expense_data with
      | Ok (date, category, description, amount) =>
          let exp := Expense.Build (next_id self) date category description amount in
          bulk_loop rest
            (Build (storage self) (expenses self ++ [exp]) (next_id self + 1)%Z
               ({[ category ]} ∪ categories self))
            (S success_count) skipped_count
      | Raise _ => bulk_loop rest self success_count (S skipped_count)
      end
  end.

Definition bulk_add_expenses (self : t) (expenses_data : list (gmap string Py.pyval))
    : t * (nat * nat) :=
  let '(self', success_count, skipped_count) := bulk_loop expenses_data self 0 0 in
  let self'' :=
    if decide (0 < success_count) then
      Build (FileStorage.save_all (storage self') (expenses self')) (expenses self')
        (next_id self') (categories self')
    else self' in
  (self'', (success_count, skipped_count)).

(** Index of the first record whose id is [expense_id]. *)
Fixpoint find_id (expenses : list Expense) (expense_id : Z) : option nat :=
  match expenses with
  | [] => None
  | e :: rest =>
      if decide (Expense.id e = expense_id) then Some 0
      else S <$> find_id rest expense_id
  end.

Definition update_expense (self : t) (expense_id : Z) (date : Py.date)
    (category description : string) (amount : Py.float) : t * bool :=
  match find_id (expenses self) expense_id with
  | Some i =>
      let expenses' :=
        <[ i := Expense.Build expense_id date category description amount ]>
          (expenses self) in
      (Build (FileStorage.save_all (storage self) expenses') expenses'
         (next_id self) ({[ category ]} ∪ categories self),
       true)
  | None => (self, false)
  end.

Definition delete_expense (self : t) (expense_id : Z) : t * bool :=
  let before := length (expenses self) in
  let expenses' := filter (fun e => Expense.id e ≠ expense_id) (expenses self) in
  let after := length expenses' in
  if decide (after < before) then
    (Build (FileStorage.save_all (storage self) expenses') expenses'
       (next_id self) (categories self),
     true)
  else (Build (storage self) expenses' (next_id self) (categories self), false).

Definition filter_by_month (self : t) (year month : Z) : list Expense :=
  filter (fun e => Py.year (Expense.date e) = year ∧ Py.month (Expense.date e) = month)
    (expenses self).

Definition get_all (self : t) : list Expense := expenses self.

Definition add_category (self : t) (category : string) : t :=
  Build (storage self) (expenses self) (next_id self) ({[ category ]} ∪ categories self).

(** [sorted(self.categories)] *)
Definition get_categories (self : t) : list string :=
  merge_sort String.le (elements (categories self)).

End SectionManager.

(** ** Bulk import: parsing and validation (static methods of
       [SectionManager]) *)

Module BulkImport.

(** A row of the data frame ([pandas.Series]) and an expense dictionary. *)
Abbreviation Series := (gmap string Py.pyval).
Abbreviation Dict := (gmap string Py.pyval).

(** [row.get(key, default)] *)
Definition get (row : Series) (key : string) (default : Py.pyval) : Py.pyval :=
  match row !! key with
  | Some v => v
  | None => default
  end.

(** The body of the loop of [parse_csv_file]. *)
Definition parse_row (row : Series) : result Dict :=
  let date := get row "date" (Py.PStr "") in
  let category := get row "category" (get row "Category" (Py.PStr "")) in
  let description :=
    get row "item" (get row "Item" (get row "description" (Py.PStr ""))) in
  amount ← Py.float_of (get row "cost" (get row "Cost" (get row "amount" (Py.PInt 0))));
  mret (<[ "date" := date ]> (<[ "category" := category ]>
         (<[ "description" := description ]> ({[ "amount" := Py.PFloat amount ]})))).

(** [parse_csv_file(filepath)], where [read_csv] is the outcome of
    [pd.read_csv(filepath)]: the rows of the data frame, or the exception
    raised when the file cannot be read or parsed. *)
Definition parse_csv_file (read_csv : result (list Series)) : result (list Dict) :=
  try_except
    (df ← read_csv; mapM parse_row df)
    (fun _ => true)
    (fun e => Raise (ValueError ("CSV parsing error: " +:+ exn_str e))).

Definition row_label (i : nat) : string :=
  "Row " +:+ Py.str_of_int (Z.of_nat i) +:+ ": ".

(** The [try] block of [validate_expenses] for row [i]: [None] when the row
    reaches [valid_expenses.append], [Some msg] when a check appends [msg]
    to [errors] and continues. *)
Definition check_row (i : nat) (expense : Dict) : result (option string) :=
  _ ← Py.getitem expense "date" ≫= Py.date_fromisoformat_of;
  amount ← Py.getitem expense "amount" ≫= Py.float_of;
  if Py.fleb amount Py.fzero then
    mret (Some (row_label i +:+ "Amount must be positive"))
  else
    category ← Py.getitem expense "category" ≫= Py.strip_of;
    if decide (category = "") then
      mret (Some (row_label i +:+ "Category cannot be empty"))
    else
      description ← Py.getitem expense "description" ≫= Py.strip_of;
      if decide (description = "") then
        mret (Some (row_label i +:+ "Item/Description cannot be empty"))
      else mret None.

(** The loop of [validate_expenses] from row number [i] on. *)
Fixpoint validate_loop (i : nat) (expenses : list Dict)
    (valid_expenses : list Dict) (errors : list string) : list Dict * list string :=
  match expenses with
  | [] => (valid_expenses, errors)
  | expense :: rest =>
      match check_row i expense with
      | Ok None => validate_loop (S i) rest (valid_expenses ++ [expense]) errors
      | Ok (Some msg) => validate_loop (S i) rest valid_expenses (errors ++ [msg])
      | Raise e =>
          if is_ValueError e then
            validate_loop (S i) rest valid_expenses
              (errors ++ [row_label i +:+ "Invalid date format - " +:+ exn_str e])
          else
            validate_loop (S i) rest valid_expenses
              (errors ++ [row_label i +:+ exn_str e])
      end
  end.

Definition validate_expenses (expenses : list Dict) : list Dict * list string :=
  validate_loop 1 expenses [] [].

End BulkImport.

(** ** Analytics: [Analyzer] *)

Module Analyzer.

Record summary : Type := Summary {
  total : Py.float;
  avg_per_day : Py.float;
  top_category_amount : Py.float;
  top_category : string;
}.

(** [d[k] += a] for a [defaultdict(float)], kept in insertion order. *)
Fixpoint add_to (d : list (string * Py.float)) (k : string) (a : Py.float)
    : list (string * Py.float) :=
  match d with
  | [] => [(k, Py.fadd Py.fzero a)]
  | (k', v) :: rest =>
      if decide (k' = k) then (k', Py.fadd v a) :: rest
      else (k', v) :: add_to rest k a
  end.

(** The aggregation loop shared by [monthly_summary] and
    [category_breakdown]. *)
Definition category_breakdown (expenses : list Expense) : list (string * Py.float) :=
  fold_left (fun d e => add_to d (Expense.category e) (Expense.amount e)) expenses [].

(** [sum(e.amount for e in expenses)]; the [int] 0 of the empty sum is
    the float zero. *)
Definition sum_amounts (expenses : list Expense) : Py.float :=
  fold_left (fun acc e => Py.fadd acc (Expense.amount e)) expenses Py.fzero.

(** [max(items, key=lambda x: x[1])] on a non-empty sequence whose first
    item is [first]: a later item replaces the best one only when its value
    is strictly greater. *)
Definition max_by_value (first : string * Py.float) (rest : list (string * Py.float))
    : string * Py.float :=
  fold_left (fun best it => if Py.fltb best.2 it.2 then it else best) rest first.

Definition monthly_summary (expenses : list Expense) : result summary :=
  let total := sum_amounts expenses in
  let by_category := category_breakdown expenses in
  let seen : gset Py.date := list_to_set (Expense.date <$> expenses) in
  let days := if decide (size seen = 0) then 1 else size seen in
  avg_per_day ← Py.truediv_int total (Z.of_nat days);
  let '(top_category, top_amount) :=
    match by_category with
    | [] => (None, Py.fzero)
    | first :: rest => let best := max_by_value first rest in (Some best.1, best.2)
    end in
  mret (Summary total avg_per_day top_amount
          (match top_category with
           | Some c => if decide (c = "") then "N/A" else c
           | None => "N/A"
           end)).

(** [by_day[k] += a] for a [defaultdict(float)], kept in insertion order. *)
Fixpoint add_to_day (d : list (Py.date * Py.float)) (k : Py.date) (a : Py.float)
    : list (Py.date * Py.float) :=
  match d with
  | [] => [(k, Py.fadd Py.fzero a)]
  | (k', v) :: rest =>
      if decide (k' = k) then (k', Py.fadd v a) :: rest
      else (k', v) :: add_to_day rest k a
  end.

(** The aggregation loop of [daily_trend]. *)
Definition by_day (expenses : list Expense) : list (Py.date * Py.float) :=
  fold_left (fun d e => add_to_day d (Expense.date e) (Expense.amount e)) expenses [].

(** [sorted(by_day.items(), key=lambda x: x[0])] *)
Definition daily_trend (expenses : list Expense) : list (Py.date * Py.float) :=
  merge_sort (fun x y => Py.date_le x.1 y.1) (by_day expenses).

End Analyzer.

(** ** Sequences of calls on one [SectionManager] *)

Module Session.

Inductive call : Type :=
  | AddExpense (date : Py.date) (category description : string) (amount : Py.float)
  | BulkAddExpenses (expenses_data : list (gmap string Py.pyval))
  | UpdateExpense (expense_id : Z) (date : Py.date) (category description : string)
      (amount : Py.float)
  | DeleteExpense (expense_id : Z)
  | AddCategory (category : string).

(** The manager after one call. *)
Definition step (self : SectionManager.t) (c : call) : SectionManager.t :=
  match c with
  | AddExpense date category description amount =>
      (SectionManager.add_expense self date category description amount).1
  | BulkAddExpenses expenses_data =>
      (SectionManager.bulk_add_expenses self expenses_data).1
  | UpdateExpense expense_id date category description amount =>
      (SectionManager.update_expense self expense_id date category description amount).1
  | DeleteExpense expense_id => (SectionManager.delete_expense self expense_id).1
  | AddCategory category => SectionManager.add_category self category
  end.

Definition run (self : SectionManager.t) (calls : list call) : SectionManager.t :=
  fold_left step calls self.

(** The ids given to new records by one call: the id of the record that
    [add_expense] returns, the ids of the records that [bulk_add_expenses]
    appends. *)
Definition assigned_by (self : SectionManager.t) (c : call) : list Z :=
  match c with
  | AddExpense date category description amount =>
      [Expense.id (SectionManager.add_expense self date category description amount).2]
  | BulkAddExpenses expenses_data =>
      Expense.id <$>
        drop (length (SectionManager.expenses self))
          (SectionManager.expenses
             (SectionManager.bulk_add_expenses self expenses_data).1)
  | _ => []
  end.

(** The ids assigned along a sequence of calls, in order. *)
Fixpoint assigned (self : SectionManager.t) (calls : list call) : list Z :=
  match calls with
  | [] => []
  | c :: rest => assigned_by self c ++ assigned (step self c) rest
  end.

(** The number of [delete_expense] calls that return [True]. *)
Fixpoint deleted (self : SectionManager.t) (calls : list call) : nat :=
  match calls with
  | [] => 0
  | c :: rest =>
      match c with
      | DeleteExpense expense_id =>
          if (SectionManager.delete_expense self expense_id).2 then 1 else 0
      | _ => 0
      end + deleted (step self c) rest
  end.

End Session.

(** ** Per-user files: [MultiFileStorage] *)

Module MultiFileStorage.

Record section_info : Type := SectionInfo {
  filename : string;
  emoji : string;
  color : string;
  label : string;
}.

(** The class attribute [SECTIONS], a [dict] in insertion order. *)
Definition SECTIONS : list (string * section_info) :=
  [ ("personal", SectionInfo "personal_expenses" "👤" "#e74c3c" "Personal");
    ("family", SectionInfo "family_expenses" "👨‍👩‍👧" "#3498db" "Family");
    ("business", SectionInfo "business_expenses" "💼" "#2ecc71" "Business") ].

(** [d.get(k)] for a [dict] kept as an association list. *)
Fixpoint get {A} (d : list (string * A)) (k : string) : option A :=
  match d with
  | [] => None
  | (k', v) :: rest => if decide (k' = k) then Some v else get rest k
  end.

(** [d[k]] *)
Definition getitem {A} (d : list (string * A)) (k : string) : result A :=
  match get d k with
  | Some v => Ok v
  | None => Raise (KeyError (Py.repr_str k))
  end.

(** The directory of the program: the rows of each csv file, by path. *)
Abbreviation files := (gmap string (list (list string))).

(** The file that a [FileStorage] finds at [filepath]. *)
Definition file_at (fs : files) (filepath : string) : FileStorage.file :=
  match fs !! filepath with
  | Some rows => FileStorage.Present rows
  | None => FileStorage.Absent
  end.

(** [username] and the cache [storages]; a cached [FileStorage] is
    recorded by its [filepath], the one attribute that tells two of them
    apart. *)
Record t : Type := Build {
  username : string;
  storages : gmap string string;
}.

Definition _get_user_filepath (self : t) (base_filename : string) : string :=
  base_filename +:+ "_" +:+ username self +:+ ".csv".

(** The block [if not os.path.exists(filepath): ... writer.writerow(...)]
    of [_init_all_files], which is also [FileStorage._ensure_file]. *)
Definition create_if_missing (fs : files) (filepath : string) : files :=
  match fs !! filepath with
  | Some _ => fs
  | None => <[ filepath := [["id"; "date"; "category"; "description"; "amount"]] ]> fs
  end.

Definition _init_all_files (self : t) (fs : files) : files :=
  fold_left
    (fun fs item => create_if_missing fs (_get_user_filepath self (filename item.2)))
    SECTIONS fs.

(** [MultiFileStorage(username)] *)
Definition init (username : string) (fs : files) : t * files :=
  let self := Build username ∅ in
  (self, _init_all_files self fs).

(** [get_storage(section)]: the object after the call, the directory after
    it and the [filepath] of the [FileStorage] returned. *)
Definition get_storage (self : t) (section : string) (fs : files)
    : result (t * files * string) :=
  match storages self !! section with
  | Some filepath => Ok (self, fs, filepath)
  | None =>
      info ← getitem SECTIONS section;
      let filepath := _get_user_filepath self (filename info) in
      mret (Build (username self) (<[ section := filepath ]> (storages self)),
            create_if_missing fs filepath, filepath)
  end.

Definition get_section_info (section : string) : result section_info :=
  fallback ← getitem SECTIONS "personal";
  mret (default fallback (get SECTIONS section)).

(** The head of [SectionManager.__init__]: [storage.get_storage(section)],
    [storage.get_section_info(section)], then the load of the records of
    the file; the manager comes with the object and the directory after the
    call and its [section_info]. *)
Definition section_manager (self : t) (section : string) (fs : files)
    : result (t * files * section_info * SectionManager.t) :=
  '(self', fs', filepath) ← get_storage self section fs;
  info ← get_section_info section;
  manager ← SectionManager.init (FileStorage.Build (file_at fs' filepath) 0);
  mret (self', fs', info, manager).

End MultiFileStorage.

(** ** Accounts: [AuthManager] *)

Module AuthManager.

(** A value of the per-user dictionaries that [_load_users] builds:
    [None] is the [restval] of [csv.DictReader] for a short row. *)
Record user : Type := User {
  password_hash : option string;
  full_name : option string;
  created_at : option string;
}.

(** [users_file] is the file [users.csv]; [current_user] holds the
    [username] and [full_name] of the logged-in user; [session_file] is what
    [_save_session] last dumped to [session.json], if it did. *)
Record t : Type := Build {
  users_file : FileStorage.file;
  current_user : option (string * option string);
  session_file : option (string * option string);
}.

Definition users_header : list string :=
  ["username"; "password_hash"; "full_name"; "created_at"].

(** A row as [csv.DictReader] returns it: [dict(zip(fieldnames, row))],
    then [restval] for the field names beyond the row.  The entry under
    [restkey] for a long row has the key [None] and is never read. *)
Definition dict_row (fieldnames row : list string) : gmap string (option string) :=
  let d := fold_left (fun d kv => <[ kv.1 := Some kv.2 ]> d) (zip fieldnames row) ∅ in
  fold_left (fun d key => <[ key := None ]> d) (drop (length row) fieldnames) d.

(** [row[k]] *)
Definition getitem (row : gmap string (option string)) (k : string)
    : result (option string) :=
  match row !! k with
  | Some v => Ok v
  | None => Raise (KeyError (Py.repr_str k))
  end.

(** The loop [for row in reader] of [_load_users]; the reader skips empty
    rows, and the value is built before the key is looked up. *)
Fixpoint load_loop (fieldnames : list string) (rows : list (list string))
    (users : gmap (option string) user) : result (gmap (option string) user) :=
  match rows with
  | [] => Ok users
  | row :: rest =>
      if decide (row = []) then load_loop fieldnames rest users
      else
        let d := dict_row fieldnames row in
        password_hash ← getitem d "password_hash";
        full_name ← getitem d "full_name";
        created_at ← getitem d "created_at";
        username ← getitem d "username";
        load_loop fieldnames rest
          (<[ username := User password_hash full_name created_at ]> users)
  end.

Definition _load_users (self : t) : result (gmap (option string) user) :=
  match users_file self with
  | FileStorage.Absent => Ok ∅
  | FileStorage.Present [] => Ok ∅
  | FileStorage.Present (fieldnames :: rows) => load_loop fieldnames rows ∅
  | FileStorage.Unreadable e => if is_FileNotFoundError e then Ok ∅ else Raise e
  end.

(** [open(self.users_file, "a")] and one [writer.writerow(row)]; a file
    that cannot be read is no more readable with a row added. *)
Definition append_row (f : FileStorage.file) (row : list string) : FileStorage.file :=
  match f with
  | FileStorage.Absent => FileStorage.Present [row]
  | FileStorage.Present rows => FileStorage.Present (rows ++ [row])
  | FileStorage.Unreadable e => FileStorage.Unreadable e
  end.

Section Hash.

(** [hashlib.sha256(password.encode()).hexdigest()] *)
Variable sha256_hexdigest : string → string.

Definition _hash_password (password : string) : string := sha256_hexdigest password.

(** [_init_users_file], run at the time [now]
    ([dt.datetime.now().isoformat()]). *)
Definition _init_users_file (f : FileStorage.file) (now : string) : FileStorage.file :=
  match f with
  | FileStorage.Absent =>
      FileStorage.Present
        [ users_header;
          ["admin"; _hash_password "admin123"; "Administrator"; now] ]
  | FileStorage.Present rows => FileStorage.Present rows
  | FileStorage.Unreadable e => FileStorage.Unreadable e
  end.

(** [AuthManager()] *)
Definition init (f : FileStorage.file) (now : string) : t :=
  Build (_init_users_file f now) None None.

Definition register_user (self : t) (username password full_name now : string)
    : result (t * (bool * string)) :=
  if decide (username = "" ∨ password = "" ∨ full_name = "") then
    mret (self, (false, "All fields are required"))
  else if decide (String.length username < 3) then
    mret (self, (false, "Username must be at least 3 characters"))
  else if decide (String.length password < 6) then
    mret (self, (false, "Password must be at least 6 characters"))
  else
    users ← _load_users self;
    if decide (is_Some (users !! Some username)) then
      mret (self, (false, "Username already exists"))
    else
      let password_hash := _hash_password password in
      mret (Build (append_row (users_file self) [username; password_hash; full_name; now])
              (current_user self) (session_file self),
            (true, "Registration successful")).

Definition authenticate (self : t) (username password : string)
    : result (t * (bool * string)) :=
  if decide (username = "" ∨ password = "") then
    mret (self, (false, "Username and password required"))
  else
    users ← _load_users self;
    match users !! Some username with
    | None => mret (self, (false, "Invalid username or password"))
    | Some u =>
        let password_hash := _hash_password password in
        if decide (AuthManager.password_hash u ≠ Some password_hash) then
          mret (self, (false, "Invalid username or password"))
        else
          let current_user := (username, AuthManager.full_name u) in
          mret (Build (users_file self) (Some current_user) (Some current_user),
                (true, "Login successful"))
    end.

End Hash.

Definition get_current_user (self : t) : option (string * option string) :=
  current_user self.

End AuthManager.

(** ** The entry form of [ExpenseApp] *)

Module ExpenseApp.

(** [_validate_form] on the texts of the four variables of the form: the
    payload returned, or the title and the text of the error box that is
    shown before [None] is returned. *)
Definition _validate_form (date_var category_var desc_var amount_var : string)
    : result (Py.date * string * string * Py.float + string * string) :=
  parsed ← try_except
    (date ← Py.date_fromisoformat (Py.strip date_var); mret (Some date))
    is_ValueError (fun _ => Ok None);
  match parsed with
  | None => mret (inr ("❌ Invalid Date", "Use YYYY-MM-DD format."))
  | Some date =>
      let category := Py.strip category_var in
      if decide (category = "") then
        mret (inr ("❌ Empty Category", "Category cannot be empty."))
      else
        let desc := Py.strip desc_var in
        if decide (desc = "") then
          mret (inr ("❌ Empty Description", "Description cannot be empty."))
        else
          converted ← try_except
            (amount ← Py.float_of_str (Py.strip amount_var);
             if Py.fleb amount Py.fzero then Raise (ValueError "")
             else mret (Some amount))
            is_ValueError (fun _ => Ok None);
          match converted with
          | None => mret (inr ("❌ Invalid Amount", "Amount must be positive number."))
          | Some amount => mret (inl (date, category, desc, amount))
          end
  end.

End ExpenseApp.

(** ** Notions used in the statements *)

(** The invariant of a manager: ids are pairwise distinct and below the
    next id. *)
Definition ids_fresh (self : SectionManager.t) : Prop :=
  NoDup (Expense.id <$> SectionManager.expenses self) ∧
  Forall (λ i, (i < SectionManager.next_id self)%Z) (Expense.id <$> SectionManager.expenses self).

(** The records appended by the loop of [bulk_add_expenses]. *)
Fixpoint bulk_records (expenses_data : list (gmap string Py.pyval)) (next_id : Z)
    : list Expense :=
  match expenses_data with
  | [] => []
  | expense_data :: rest =>
      match SectionManager.coerce expense_data with
      | Ok (date, category, description, amount) =>
          Expense.Build next_id date category description amount
            :: bulk_records rest (next_id + 1)%Z
      | Raise _ => bulk_records rest next_id
      end
  end.

(** What [load_all] returns when it returns: the records of the file. *)
Definition loaded (storage : FileStorage.t) : list Expense :=
  match FileStorage.contents storage with
  | FileStorage.Absent => []
  | FileStorage.Present rows => FileStorage.load_rows (drop 1 rows) []
  | FileStorage.Unreadable _ => []
  end.

(** The file can be read through, or fails in the one way that [load_all]
    handles. *)
Definition readable (f : FileStorage.file) : bool :=
  match f with
  | FileStorage.Unreadable e => is_FileNotFoundError e
  | _ => true
  end.

(** A file whose first byte is not UTF-8. *)
Definition undecodable : FileStorage.t :=
  FileStorage.Build
    (FileStorage.Unreadable
       (UnicodeDecodeError
          "'utf-8' codec can't decode byte 0xff in position 0: invalid start byte"))
    0.

(** The four fields that [bulk_add_expenses] derives from a row. *)
Definition record_fields (e : Expense) : Py.date * string * string * Py.float :=
  (Expense.date e, Expense.category e, Expense.description e, Expense.amount e).

Definition coerced (row : gmap string Py.pyval)
    : option (Py.date * string * string * Py.float) :=
  match SectionManager.coerce row with
  | Ok x => Some x
  | Raise _ => None
  end.

(** What it takes for a row to be added: a [str] date that parses, [str]
    category and description (kept stripped), and an amount that [float()]
    accepts. *)
Definition row_coerces_to (row : gmap string Py.pyval) (date : Py.date)
    (category description : string) (amount : Py.float) : Prop :=
  ∃ (date_s category_s description_s : string) (amount_v : Py.pyval),
    row !! "date" = Some (Py.PStr date_s) ∧
    Py.date_fromisoformat date_s = Ok date ∧
    row !! "category" = Some (Py.PStr category_s) ∧
    category = Py.strip category_s ∧
    row !! "description" = Some (Py.PStr description_s) ∧
    description = Py.strip description_s ∧
    row !! "amount" = Some amount_v ∧
    Py.float_of amount_v = Ok amount.

(** The message, if any, that [validate_expenses] appends to [errors] for
    row number [i]. *)
Definition row_error (i : nat) (expense : gmap string Py.pyval) : option string :=
  match BulkImport.check_row i expense with
  | Ok None => None
  | Ok (Some msg) => Some msg
  | Raise e =>
      if is_ValueError e then
        Some (BulkImport.row_label i +:+ "Invalid date format - " +:+ exn_str e)
      else Some (BulkImport.row_label i +:+ exn_str e)
  end.

(** Whether a row reaches [valid_expenses.append]. *)
Definition row_ok (expense : gmap string Py.pyval) : bool :=
  match BulkImport.check_row 0 expense with
  | Ok None => true
  | _ => false
  end.

(** The four checks of [validate_expenses], as the code performs them: the
    amount check is [not (amount <= 0)]. *)
Definition row_passes (expense : gmap string Py.pyval) : Prop :=
  ∃ (date_s category_s description_s : string) (amount_v : Py.pyval) (amount : Py.float),
    expense !! "date" = Some (Py.PStr date_s) ∧
    is_Ok (Py.date_fromisoformat date_s) = true ∧
    expense !! "amount" = Some amount_v ∧
    Py.float_of amount_v = Ok amount ∧
    Py.fleb amount Py.fzero = false ∧
    expense !! "category" = Some (Py.PStr category_s) ∧
    Py.strip category_s ≠ "" ∧
    expense !! "description" = Some (Py.PStr description_s) ∧
    Py.strip description_s ≠ "".

(** The cell that [parse_csv_file] converts with [float()]. *)
Definition amount_cell (row : gmap string Py.pyval) : Py.pyval :=
  BulkImport.get row "cost" (BulkImport.get row "Cost"
    (BulkImport.get row "amount" (Py.PInt 0))).

(** The record that [load_all] reads from a row of the file, if any. *)
Definition well_formed (row : list string) : option Expense :=
  if decide (length row = 5) then
    match Expense.from_row row with
    | Ok e => Some e
    | Raise _ => None
    end
  else None.

(** A decimal digit. *)
Definition is_digit (d : Z) : Prop := (0 ≤ d ≤ 9)%Z.

(** A text that a digit run stops at: the end, or a character that is
    neither a digit nor an underscore. *)
Definition stops_run (rest : string) : Prop :=
  match rest with
  | EmptyString => True
  | String c _ => Py.digit_of_ascii c = None ∧ c ≠ "_"%char
  end.

(** No character of the text is stripped by [sp]. *)
Fixpoint no_space (sp : ascii → bool) (s : string) : Prop :=
  match s with
  | EmptyString => True
  | String c s' => sp c = false ∧ no_space sp s'
  end.

(** The float read back from the two-decimal text of [a]:
    [float(f"{a:.2f}")]. *)
Definition two_decimals (a : Py.float) : Py.float :=
  match a with
  | S754_finite s m e => Py.round_ratio s (Py.hundredths m e) 100
  | _ => a
  end.

(** The record read back from the row written for [e]. *)
Definition reloaded (e : Expense) : Expense :=
  Expense.Build (Expense.id e) (Expense.date e) (Expense.category e)
    (Expense.description e) (two_decimals (Expense.amount e)).

(** The digits of [n], when it has at most four: thousands, hundreds, tens
    and units. *)
Definition four_digits (n : Z) : list Z :=
  [n / 1000; (n / 100) mod 10; (n / 10) mod 10; n mod 10]%Z.

Definition two_digits (n : Z) : list Z := [n / 10; n mod 10]%Z.

Definition all_digits (ds : list Z) : bool :=
  forallb (λ d, (0 <=? d)%Z && (d <=? 9)%Z) ds.

(** The test that [zero_pad w n] writes the digits [ds] of [n]. *)
Definition pads_to (w : nat) (ds : list Z) (n : Z) : bool :=
  (Py.zero_pad w n =? Py.string_of_digits ds)%string && all_digits ds &&
  (Py.digits_value ds =? n)%Z.

(** The amounts of the records of category [c], summed in list order from
    the float zero. *)
Definition category_total (c : string) (expenses : list Expense) : Py.float :=
  fold_left Py.fadd
    (Expense.amount <$> filter (λ e, Expense.category e = c) expenses) Py.fzero.

(** The value held for key [k] in an aggregation, the float zero when the
    key is absent. *)
Fixpoint total_in (d : list (string * Py.float)) (k : string) : Py.float :=
  match d with
  | [] => Py.fzero
  | (k', v) :: rest => if decide (k' = k) then v else total_in rest k
  end.

(** The number of distinct dates, 1 for no date at all: [len(set(...)) or 1]. *)
Definition days_or_one (expenses : list Expense) : nat :=
  match length (remove_dups (Expense.date <$> expenses)) with
  | O => 1
  | n => n
  end.

(** ** Sample data *)

(** A store with two records, used below. *)
Definition two_records : FileStorage.t :=
  FileStorage.Build
    (FileStorage.Present
       [ FileStorage.headers;
         ["1"; "2024-01-01"; "Food"; "Lunch"; "12.50"];
         ["2"; "2024-01-02"; "Rent"; "May"; "800.00"] ])
    0.

(** The same store after a hand edit that gave both records the id 1. *)
Definition two_records_same_id : FileStorage.t :=
  FileStorage.Build
    (FileStorage.Present
       [ FileStorage.headers;
         ["1"; "2024-01-01"; "Food"; "Lunch"; "12.50"];
         ["1"; "2024-01-02"; "Rent"; "May"; "800.00"] ])
    0.

(** The records of [two_records]. *)
Definition sample_records : list Expense :=
  Eval vm_compute in loaded two_records.

Definition sample_row (date category description amount : Py.pyval)
    : gmap string Py.pyval :=
  <[ "date" := date ]> (<[ "category" := category ]>
    (<[ "description" := description ]> ({[ "amount" := amount ]}))).

Definition one : Py.float := S754_finite false 4503599627370496 (-52).

(** An add, a delete of a loaded record, a bulk import of two rows of which
    the second has no parsable date, and another add. *)
Definition sample_calls : list Session.call :=
  [ Session.AddExpense (Py.Date 2024 1 3) "Food" "Dinner" one;
    Session.DeleteExpense 1;
    Session.BulkAddExpenses
      [ sample_row (Py.PStr "2024-01-04") (Py.PStr "Misc") (Py.PStr "Gift") (Py.PFloat one);
        sample_row (Py.PStr "2024-13-40") (Py.PStr "Food") (Py.PStr "x") (Py.PStr "10") ];
    Session.AddExpense (Py.Date 2024 1 5) "Transport" "Bus" one ].

(** A row with an empty category and a blank description. *)
Definition row_without_category : gmap string Py.pyval :=
  sample_row (Py.PStr "2024-01-01") (Py.PStr "") (Py.PStr "   ") (Py.PFloat one).

Definition good_row (description : string) : gmap string Py.pyval :=
  sample_row (Py.PStr "2024-02-01") (Py.PStr "Food") (Py.PStr description) (Py.PFloat one).

(** Ten rows; the third has no parsable date, the sixth a category that is
    not a string, the ninth an amount that is not a number. *)
Definition ten_rows : list (gmap string Py.pyval) :=
  [ good_row "a"; good_row "b";
    sample_row (Py.PStr "2024-13-40") (Py.PStr "Food") (Py.PStr "c") (Py.PFloat one);
    good_row "d"; good_row "e";
    sample_row (Py.PStr "2024-02-01") (Py.PFloat S754_nan) (Py.PStr "f") (Py.PFloat one);
    good_row "g"; good_row "h";
    sample_row (Py.PStr "2024-02-01") (Py.PStr "Food") (Py.PStr "i") (Py.PStr "abc");
    good_row "j" ].

(** A row as [parse_csv_file] builds it from a line whose cost cell is
    blank: the amount is NaN. *)
Definition row_with_nan_amount : gmap string Py.pyval :=
  sample_row (Py.PStr "2024-01-01") (Py.PStr "Food") (Py.PStr "Lunch") (Py.PFloat S754_nan).

(** The row of the specification's example, with an impossible date. *)
Definition row_with_bad_date : gmap string Py.pyval :=
  sample_row (Py.PStr "2024-13-40") (Py.PStr "Food") (Py.PStr "x") (Py.PStr "10").




(** A store whose one record has no category, and that record. *)
Definition store_without_category : FileStorage.t :=
  FileStorage.Build
    (FileStorage.Present
       [ FileStorage.headers;
         ["1"; "2024-01-01"; ""; "Lunch"; "12.50"] ])
    0.

Definition twelve_and_a_half : Py.float := S754_finite false 7036874417766400 (-49).

Definition record_without_category : Expense :=
  Expense.Build 1 (Py.Date 2024 1 1) "" "Lunch" twelve_and_a_half.

(** A record of the category [Food] with the amount 1. *)
Definition record_of_food : Expense :=
  Expense.Build 2 (Py.Date 2024 1 2) "Food" "Tea" one.


(** ** Further notions *)

(** The file holds exactly the rows that [save_all] writes for the list in
    memory. *)
Definition synced (self : SectionManager.t) : Prop :=
  FileStorage.contents (SectionManager.storage self) =
  FileStorage.Present
    (FileStorage.headers :: (Expense.to_row <$> SectionManager.expenses self)).

(** The amounts of the records dated [d], summed in list order from the
    float zero. *)
Definition day_total (d : Py.date) (expenses : list Expense) : Py.float :=
  fold_left Py.fadd
    (Expense.amount <$> filter (λ e, Expense.date e = d) expenses) Py.fzero.

(** The value held for the date [k] in an aggregation by day, the float
    zero when the date is absent. *)
Fixpoint total_on (d : list (Py.date * Py.float)) (k : Py.date) : Py.float :=
  match d with
  | [] => Py.fzero
  | (k', v) :: rest => if decide (k' = k) then v else total_on rest k
  end.

(** The distinct elements of a list in the order of their first
    occurrence: the order in which a [dict] holds its keys. *)
Definition first_occurrences {A} `{EqDecision A} (l : list A) : list A :=
  reverse (remove_dups (reverse l)).

(** The three file paths of a user. *)
Definition user_paths (username : string) : list string :=
  (λ item, MultiFileStorage._get_user_filepath
             (MultiFileStorage.Build username ∅)
             (MultiFileStorage.filename item.2)) <$> MultiFileStorage.SECTIONS.

(** The users file as [_init_users_file] creates it and [register_user]
    extends it: the header row, then rows of four cells. *)
Definition users_file_ok (f : FileStorage.file) : Prop :=
  ∃ rows, f = FileStorage.Present (AuthManager.users_header :: rows) ∧
          Forall (λ row, length row = 4) rows.

(** The outcome of a call that returns a flag and a message. *)
Definition outcome {A} (r : result (A * (bool * string))) : option (bool * string) :=
  match r with
  | Ok (_, out) => Some out
  | Raise _ => None
  end.

(** A stand-in for the digest in the examples. *)
Definition sample_digest (password : string) : string := "#" +:+ password.

(** A data frame of two lines with the column names of the bank export. *)
Definition sample_frame : list (gmap string Py.pyval) :=
  [ <[ "date" := Py.PStr "2024-01-01" ]> (<[ "Category" := Py.PStr "Food" ]>
      (<[ "Item" := Py.PStr "Lunch" ]> ({[ "Cost" := Py.PStr "12.5" ]})));
    <[ "date" := Py.PStr "2024-01-02" ]> (<[ "Category" := Py.PStr "Food" ]>
      (<[ "Item" := Py.PStr "Dinner" ]> ({[ "Cost" := Py.PInt 20 ]}))) ].

(** The dictionaries that [parse_csv_file] returns for [sample_frame]. *)
Definition sample_parsed : list (gmap string Py.pyval) :=
  [ sample_row (Py.PStr "2024-01-01") (Py.PStr "Food") (Py.PStr "Lunch")
      (Py.PFloat (S754_finite false 7036874417766400 (-49)));
    sample_row (Py.PStr "2024-01-02") (Py.PStr "Food") (Py.PStr "Dinner")
      (Py.PFloat (S754_finite false 5629499534213120 (-48))) ].

(** The accounts of a first start, and the same after the registration of
    one user. *)
Definition sample_accounts : AuthManager.t :=
  AuthManager.init sample_digest FileStorage.Absent "2024-01-01T09:00:00".

Definition sample_registered : AuthManager.t :=
  AuthManager.Build
    (AuthManager.append_row (AuthManager.users_file sample_accounts)
       ["asha"; sample_digest "secret1"; "Asha"; "2024-01-02T10:00:00"])
    None None.

(** ** Deleting and updating records *)

Section delete_update.
Implicit Types (self : SectionManager.t) (e : Expense) (expense_id : Z).

Lemma filter_length_lt_iff {A} (P : A → Prop) `{!∀ x, Decision (P x)} (l : list A) :
  length (filter P l) < length l ↔ ∃ x, x ∈ l ∧ ¬ P x.
Proof.
  induction l as [|a l IH]; simpl.
  - split; [lia | intros (x & Hx & _); by apply elem_of_nil in Hx].
  - rewrite filter_cons. pose proof (length_filter P l) as Hle.
    destruct (decide (P a)) as [Ha|Ha]; simpl.
    + rewrite <- Nat.succ_lt_mono, IH. split.
      * intros (x & Hx & Hn). exists x. split; [by right | done].
      * intros (x & Hx & Hn). apply elem_of_cons in Hx as [->|Hx]; [done|].
        by exists x.
    + split; [|lia]. intros _. exists a. split; [by left | done].
Qed.

Lemma find_id_Some expenses expense_id i :
  SectionManager.find_id expenses expense_id = Some i →
  (∃ e, expenses !! i = Some e ∧ Expense.id e = expense_id) ∧
  (∀ j e, (j < i)%nat → expenses !! j = Some e → Expense.id e ≠ expense_id).
Proof.
  revert i. induction expenses as [|e0 l IH]; intros i; simpl; [done|].
  destruct (decide (Expense.id e0 = expense_id)) as [He|He].
  - intros [= <-]. split; [by exists e0 | intros; lia].
  - destruct (SectionManager.find_id l expense_id) as [k|] eqn:Hk; simpl; [|done].
    intros [= <-]. destruct (IH k eq_refl) as [Hat Hbefore]. split; [done|].
    intros [|j] e Hj; simpl; [by intros [= <-] | intros; eapply Hbefore; [|done]; lia].
Qed.

Lemma find_id_None expenses expense_id :
  SectionManager.find_id expenses expense_id = None ↔
  ∀ e, e ∈ expenses → Expense.id e ≠ expense_id.
Proof.
  induction expenses as [|e0 l IH]; simpl.
  - split; [intros _ e He; by apply elem_of_nil in He | done].
  - destruct (decide (Expense.id e0 = expense_id)) as [He|He].
    + split; [done|]. intros H. exfalso. apply (H e0); [by left | done].
    + destruct (SectionManager.find_id l expense_id) as [k|] eqn:Hk; simpl.
      * split; [done|]. intros H. exfalso.
        assert (Some k = None) as Hfalse; [|done].
        apply IH. intros e Hin. apply H. by right.
      * split; [|done]. intros _ e [->|Hin]%elem_of_cons; [done|]. by apply IH.
Qed.

Lemma delete_expense_expenses self expense_id :
  SectionManager.expenses (SectionManager.delete_expense self expense_id).1 =
  filter (λ e, Expense.id e ≠ expense_id) (SectionManager.expenses self).
Proof. unfold SectionManager.delete_expense. by case_decide. Qed.

Lemma delete_expense_result self expense_id :
  (SectionManager.delete_expense self expense_id).2 = true ↔
  length (filter (λ e, Expense.id e ≠ expense_id) (SectionManager.expenses self))
    < length (SectionManager.expenses self).
Proof. unfold SectionManager.delete_expense. case_decide; simpl; split; (done || lia). Qed.

End delete_update.

Section claims_update_delete.
Implicit Types (self : SectionManager.t) (e : Expense) (expense_id : Z).

(** C10.  [delete_expense] removes every record whose id equals the
    argument and keeps all other records in their relative order; it returns
    [True] exactly when the list became shorter, that is exactly when some
    record had that id.  Nothing is assumed about the uniqueness of ids. *)
Theorem delete_expense_removes_every_match self expense_id :
  let self' := (SectionManager.delete_expense self expense_id).1 in
  let removed := (SectionManager.delete_expense self expense_id).2 in
  SectionManager.expenses self' =
    filter (λ e, Expense.id e ≠ expense_id) (SectionManager.expenses self) ∧
  SectionManager.expenses self' `sublist_of` SectionManager.expenses self ∧
  (∀ e, e ∈ SectionManager.expenses self' ↔
        e ∈ SectionManager.expenses self ∧ Expense.id e ≠ expense_id) ∧
  (removed = true ↔
     length (SectionManager.expenses self') < length (SectionManager.expenses self)) ∧
  (removed = true ↔
     ∃ e, e ∈ SectionManager.expenses self ∧ Expense.id e = expense_id).
Proof.
  intros self' removed. subst self' removed.
  rewrite delete_expense_expenses, delete_expense_result.
  set (P := λ e, Expense.id e ≠ expense_id).
  split; [done|]. split; [apply sublist_filter|].
  split; [intros e; rewrite list_elem_of_filter; unfold P; tauto|].
  split; [done|]. rewrite filter_length_lt_iff.
  unfold P. split; intros (x & Hx & Hn); exists x; (split; [done|]).
  - by destruct (decide (Expense.id x = expense_id)).
  - by intros ?.
Qed.

(** C5.  [update_expense] replaces the first record with the given id in
    place (same position, same length, every other position untouched) and
    returns [True]; when no record has the id it returns [False] and leaves
    the manager as it is; after a [delete_expense] of an id that returned
    [True], [update_expense] of that id returns [False] and changes
    nothing. *)
Theorem update_expense_in_place self expense_id date category description amount :
  let new := Expense.Build expense_id date category description amount in
  let r := SectionManager.update_expense self expense_id date category description amount in
  ((∃ e, e ∈ SectionManager.expenses self ∧ Expense.id e = expense_id) →
   r.2 = true ∧
   ∃ i old,
     SectionManager.expenses self !! i = Some old ∧ Expense.id old = expense_id ∧
     (∀ j e, (j < i)%nat → SectionManager.expenses self !! j = Some e →
             Expense.id e ≠ expense_id) ∧
     SectionManager.expenses r.1 = <[ i := new ]> (SectionManager.expenses self) ∧
     length (SectionManager.expenses r.1) = length (SectionManager.expenses self) ∧
     SectionManager.expenses r.1 !! i = Some new ∧
     (∀ j, j ≠ i →
           SectionManager.expenses r.1 !! j = SectionManager.expenses self !! j)) ∧
  ((∀ e, e ∈ SectionManager.expenses self → Expense.id e ≠ expense_id) →
   r = (self, false)) ∧
  (let d := SectionManager.delete_expense self expense_id in
   d.2 = true →
   SectionManager.update_expense d.1 expense_id date category description amount
     = (d.1, false)).
Proof.
  intros new r. subst r. unfold SectionManager.update_expense.
  split; [|split].
  - intros (e & Hin & Hid).
    destruct (SectionManager.find_id _ _) as [i|] eqn:Hfind;
      [|exfalso; by eapply find_id_None].
    destruct (find_id_Some _ _ _ Hfind) as [(old & Hold & Hold_id) Hfirst].
    split; [done|]. exists i, old. simpl.
    split; [done|]. split; [done|]. split; [done|]. split; [done|].
    split; [apply length_insert|].
    split; [apply list_lookup_insert_eq; by eapply lookup_lt_Some|].
    intros j Hj. by apply list_lookup_insert_ne.
  - intros Hno. apply find_id_None in Hno. by rewrite Hno.
  - cbv zeta. intros _.
    assert (SectionManager.find_id
              (SectionManager.expenses (SectionManager.delete_expense self expense_id).1)
              expense_id = None) as ->; [|done].
    apply find_id_None. intros e. rewrite delete_expense_expenses.
    rewrite list_elem_of_filter. tauto.
Qed.

End claims_update_delete.

(** ** Identifier assignment *)

Section identifiers.
Implicit Types (self : SectionManager.t) (e : Expense) (expense_id : Z).
Local Open Scope Z_scope.

Lemma fold_left_max_ge (xs : list Z) (x : Z) :
  x ≤ fold_left Z.max xs x ∧ ∀ y, y ∈ xs → y ≤ fold_left Z.max xs x.
Proof.
  revert x. induction xs as [|a xs IH]; intros x; simpl.
  - split; [lia | intros y Hy; by apply elem_of_nil in Hy].
  - destruct (IH (Z.max x a)) as [H1 H2]. split; [lia|].
    intros y [->|Hy]%elem_of_cons; [lia | by apply H2].
Qed.

Lemma max_default_ge (xs : list Z) (d y : Z) :
  y ∈ xs → y ≤ SectionManager.max_default xs d.
Proof.
  destruct xs as [|x xs]; simpl; [intros Hy; by apply elem_of_nil in Hy|].
  destruct (fold_left_max_ge xs x) as [H1 H2].
  intros [->|Hy]%elem_of_cons; [done | by apply H2].
Qed.

Lemma max_default_elem (xs : list Z) (d : Z) :
  xs ≠ [] → SectionManager.max_default xs d ∈ xs.
Proof.
  destruct xs as [|x xs]; [done|]. intros _. simpl.
  revert x. induction xs as [|a xs IH]; intros x; simpl; [by left|].
  pose proof (IH (Z.max x a)) as H. apply elem_of_cons in H as [Heq|Hin].
  - rewrite Heq. destruct (Z.max_spec x a) as [[_ ->]|[_ ->]]; [right; by left | by left].
  - right. by right.
Qed.



Lemma bulk_records_ids expenses_data next_id :
  Expense.id <$> (bulk_records expenses_data next_id) =
  seqZ next_id (Z.of_nat (length (bulk_records expenses_data next_id))).
Proof.
  revert next_id. induction expenses_data as [|r rest IH]; intros next_id; simpl; [done|].
  destruct (SectionManager.coerce r) as [[[[d c] ds] a]|]; [|done].
  simpl length. rewrite Nat2Z.inj_succ, seqZ_cons by lia.
  simpl. f_equal. rewrite IH. f_equal; lia.
Qed.

Lemma bulk_loop_spec expenses_data self success_count skipped_count :
  let news := bulk_records expenses_data (SectionManager.next_id self) in
  SectionManager.bulk_loop expenses_data self success_count skipped_count =
  (SectionManager.Build (SectionManager.storage self)
     (SectionManager.expenses self ++ news)
     (SectionManager.next_id self + Z.of_nat (length news))
     (list_to_set (Expense.category <$> news) ∪ SectionManager.categories self),
   (success_count + length news)%nat,
   (skipped_count + (length expenses_data - length news))%nat).
Proof.
  revert self success_count skipped_count.
  induction expenses_data as [|r rest IH]; intros self s k; simpl.
  - destruct self; simpl. rewrite app_nil_r, Z.add_0_r, !Nat.add_0_r.
    by rewrite (left_id_L ∅ (∪)).
  - assert (Hle : ∀ n, (length (bulk_records rest n) ≤ length rest)%nat).
    { clear. induction rest as [|r rest IH]; intros n; simpl; [done|].
      destruct (SectionManager.coerce r) as [[[[d c] ds] a]|]; simpl.
      - specialize (IH (n + 1)). lia.
      - specialize (IH n). lia. }
    destruct (SectionManager.coerce r) as [[[[d c] ds] a]|].
    + rewrite IH. simpl. rewrite <- app_assoc. simpl.
      specialize (Hle (SectionManager.next_id self + 1)).
      f_equal; try lia. f_equal; try lia. f_equal; try lia.
      by rewrite (assoc_L (∪)), (comm_L (∪) _ {[c]}).
    + rewrite IH. specialize (Hle (SectionManager.next_id self)). f_equal; lia.
Qed.

Lemma bulk_add_expenses_spec self expenses_data :
  let news := bulk_records expenses_data (SectionManager.next_id self) in
  SectionManager.expenses (SectionManager.bulk_add_expenses self expenses_data).1 =
    SectionManager.expenses self ++ news ∧
  SectionManager.next_id (SectionManager.bulk_add_expenses self expenses_data).1 =
    SectionManager.next_id self + Z.of_nat (length news) ∧
  SectionManager.categories (SectionManager.bulk_add_expenses self expenses_data).1 =
    list_to_set (Expense.category <$> news) ∪ SectionManager.categories self ∧
  (SectionManager.bulk_add_expenses self expenses_data).2 =
    (length news, (length expenses_data - length news)%nat).
Proof.
  intros news. unfold SectionManager.bulk_add_expenses.
  rewrite bulk_loop_spec. fold news. simpl. by case_decide.
Qed.

Lemma filter_ids (l : list Expense) expense_id :
  Expense.id <$> filter (λ e, Expense.id e ≠ expense_id) l =
  filter (λ i, i ≠ expense_id) (Expense.id <$> l).
Proof.
  induction l as [|e l IH]; [done|]. rewrite fmap_cons, !filter_cons.
  destruct (decide (Expense.id e ≠ expense_id)); [rewrite fmap_cons|]; by rewrite IH.
Qed.

Lemma length_filter_NoDup (ids : list Z) (x : Z) :
  NoDup ids →
  (length (filter (λ i, i ≠ x) ids) + (if decide (x ∈ ids) then 1 else 0)
   = length ids)%nat.
Proof.
  induction 1 as [|a ids Ha Hnd IH]; [done|].
  rewrite filter_cons. destruct (decide (a ≠ x)) as [Hax|Hax]; simpl.
  - destruct (decide (x ∈ ids)) as [Hin|Hin].
    + rewrite decide_True by (by right). lia.
    + rewrite decide_False; [lia|]. intros [->|?]%elem_of_cons; done.
  - assert (a = x) as -> by (by destruct (decide (a = x))).
    rewrite decide_True by (by left). rewrite decide_False in IH by done.
    lia.
Qed.

Lemma step_next_id self c :
  SectionManager.next_id (Session.step self c) =
    SectionManager.next_id self + Z.of_nat (length (Session.assigned_by self c)) ∧
  Session.assigned_by self c =
    seqZ (SectionManager.next_id self) (Z.of_nat (length (Session.assigned_by self c))).
Proof.
  destruct c as [d c ds a|rows|x d c ds a|x|c]; simpl.
  - split; [lia | done].
  - destruct (bulk_add_expenses_spec self rows) as (-> & -> & _ & _).
    rewrite drop_app_length, bulk_records_ids, length_seqZ, Nat2Z.id.
    done.
  - unfold SectionManager.update_expense.
    destruct (SectionManager.find_id _ _); simpl; (split; [lia | done]).
  - unfold SectionManager.delete_expense. case_decide; simpl; (split; [lia | done]).
  - split; [lia | done].
Qed.

Lemma step_ids_fresh self c : ids_fresh self → ids_fresh (Session.step self c).
Proof.
  intros [Hnd Hlt]. unfold ids_fresh.
  destruct c as [d c ds a|rows|x d c ds a|x|c]; simpl.
  - rewrite fmap_app. simpl. split.
    + apply NoDup_app. split; [done|]. split; [|apply NoDup_singleton].
      intros i Hi ->%list_elem_of_singleton.
      rewrite Forall_forall in Hlt. specialize (Hlt _ Hi). lia.
    + apply Forall_app. split; [|apply Forall_singleton; lia].
      eapply Forall_impl; [done|]. intros; simpl in *; lia.
  - destruct (bulk_add_expenses_spec self rows) as (-> & -> & _ & _).
    rewrite fmap_app, bulk_records_ids. split.
    + apply NoDup_app. split; [done|]. split; [|apply NoDup_seqZ].
      intros i Hi Hi2%elem_of_seqZ.
      rewrite Forall_forall in Hlt. specialize (Hlt _ Hi). lia.
    + apply Forall_app. split.
      * eapply Forall_impl; [done|]. intros; simpl in *; lia.
      * apply Forall_forall. intros i Hi%elem_of_seqZ. lia.
  - unfold SectionManager.update_expense.
    destruct (SectionManager.find_id _ _) as [i|] eqn:Hfind; simpl; [|done].
    destruct (find_id_Some _ _ _ Hfind) as [(old & Hold & Hid) _].
    rewrite list_fmap_insert. simpl. rewrite list_insert_id; [done|].
    by rewrite list_lookup_fmap, Hold, <- Hid.
  - assert (SectionManager.next_id (SectionManager.delete_expense self x).1
            = SectionManager.next_id self) as ->.
    { unfold SectionManager.delete_expense. by case_decide. }
    rewrite delete_expense_expenses, filter_ids. split.
    + by apply NoDup_filter.
    + apply Forall_forall. intros i [_ Hi]%list_elem_of_filter.
      rewrite Forall_forall in Hlt. by apply Hlt.
  - done.
Qed.

Lemma step_length self c :
  ids_fresh self →
  (length (SectionManager.expenses (Session.step self c)) + Session.deleted self [c]
   = length (SectionManager.expenses self) + length (Session.assigned_by self c))%nat.
Proof.
  intros [Hnd _].
  destruct c as [d c ds a|rows|x d c ds a|x|c]; simpl.
  - rewrite length_app. simpl. lia.
  - destruct (bulk_add_expenses_spec self rows) as (-> & _ & _ & _).
    rewrite drop_app_length, length_fmap, length_app. lia.
  - unfold SectionManager.update_expense.
    destruct (SectionManager.find_id _ _); simpl; [rewrite length_insert|]; lia.
  - rewrite delete_expense_expenses.
    pose proof (length_filter_NoDup _ x Hnd) as Hlen.
    rewrite <- filter_ids, !length_fmap in Hlen.
    pose proof (delete_expense_result self x) as Hres.
    destruct (SectionManager.delete_expense self x).2.
    + destruct Hres as [Hres _]. specialize (Hres eq_refl).
      destruct (decide _); lia.
    + destruct (decide (x ∈ _)) as [Hin|Hin]; [|lia].
      destruct Hres as [_ Hres]. enough (false = true) by done. apply Hres. lia.
  - lia.
Qed.

Lemma run_ids self calls :
  ids_fresh self →
  ids_fresh (Session.run self calls) ∧
  SectionManager.next_id (Session.run self calls) =
    SectionManager.next_id self + Z.of_nat (length (Session.assigned self calls)) ∧
  Session.assigned self calls =
    seqZ (SectionManager.next_id self) (Z.of_nat (length (Session.assigned self calls))) ∧
  (length (SectionManager.expenses (Session.run self calls)) + Session.deleted self calls
   = length (SectionManager.expenses self) + length (Session.assigned self calls))%nat.
Proof.
  revert self. induction calls as [|c calls IH]; intros self Hfresh.
  - simpl. repeat split; (apply Hfresh || lia || done).
  - change (Session.run self (c :: calls))
      with (Session.run (Session.step self c) calls).
    cbn [Session.assigned Session.deleted].
    destruct (IH _ (step_ids_fresh self c Hfresh)) as (Hf & Hnext & Hseq & Hlen).
    destruct (step_next_id self c) as [Hn1 Hs1].
    pose proof (step_length self c Hfresh) as Hl1. simpl in Hl1.
    split; [done|]. rewrite length_app, Nat2Z.inj_add.
    split; [clear -Hnext Hn1; lia|]. split.
    2:{ revert Hl1 Hlen. generalize (Session.deleted (Session.step self c) calls).
        generalize (match c with
                    | Session.DeleteExpense expense_id =>
                        if (SectionManager.delete_expense self expense_id).2 then 1 else 0
                    | _ => 0
                    end)%nat.
        clear. intros; lia. }
    rewrite seqZ_app by lia. by rewrite <- Hs1, <- Hn1, <- Hseq.
Qed.

Lemma StronglySorted_seqZ (m : Z) (n : nat) :
  StronglySorted Z.lt (seqZ m (Z.of_nat n)).
Proof.
  revert m. induction n as [|n IH]; intros m; [constructor|].
  rewrite Nat2Z.inj_succ, seqZ_cons by lia.
  replace (Z.pred (Z.succ (Z.of_nat n))) with (Z.of_nat n) by lia.
  constructor; [apply IH|]. apply Forall_forall. intros k Hk%elem_of_seqZ. lia.
Qed.


Lemma load_all_unfold storage :
  FileStorage.load_all storage =
  match FileStorage.contents storage with
  | FileStorage.Unreadable e => if is_FileNotFoundError e then Ok [] else Raise e
  | _ => Ok (loaded storage)
  end.
Proof.
  unfold FileStorage.load_all, loaded, try_except.
  destruct (FileStorage.contents storage) as [|rows|e]; simpl; try done.
Qed.

Lemma load_all_loaded storage :
  readable (FileStorage.contents storage) = true →
  FileStorage.load_all storage = Ok (loaded storage).
Proof.
  rewrite load_all_unfold. unfold readable, loaded.
  destruct (FileStorage.contents storage) as [|rows|e]; try done. by intros ->.
Qed.

Lemma load_all_Ok storage records :
  FileStorage.load_all storage = Ok records →
  records = loaded storage ∧ readable (FileStorage.contents storage) = true.
Proof.
  rewrite load_all_unfold. unfold readable, loaded.
  destruct (FileStorage.contents storage) as [|rows|e]; try (by intros [= <-]).
  destruct (is_FileNotFoundError e); [by intros [= <-]|done].
Qed.

Lemma init_Ok storage self :
  SectionManager.init storage = Ok self →
  readable (FileStorage.contents storage) = true ∧
  self = SectionManager.Build storage (loaded storage)
           (SectionManager._compute_next_id (loaded storage))
           (if decide ((list_to_set (Expense.category <$> loaded storage) : gset string) = ∅)
            then SectionManager.default_categories
            else list_to_set (Expense.category <$> loaded storage)).
Proof.
  unfold SectionManager.init.
  destruct (FileStorage.load_all storage) as [records|e] eqn:Hload; [|done].
  apply load_all_Ok in Hload as [-> Hread]. simpl. by intros [= <-].
Qed.

Lemma init_ids_below storage self :
  SectionManager.init storage = Ok self →
  Forall (λ i, i < SectionManager.next_id self)
    (Expense.id <$> SectionManager.expenses self).
Proof.
  intros [_ ->]%init_Ok. simpl.
  apply Forall_forall. intros i Hi.
  unfold SectionManager._compute_next_id.
  pose proof (max_default_ge _ 0 i Hi). lia.
Qed.

Lemma init_ids_fresh storage self :
  SectionManager.init storage = Ok self →
  NoDup (Expense.id <$> SectionManager.expenses self) →
  ids_fresh self.
Proof.
  intros Hinit Hnd. split; [done|]. by eapply init_ids_below.
Qed.

Lemma step_ids_below self c :
  Forall (λ i, i < SectionManager.next_id self)
    (Expense.id <$> SectionManager.expenses self) →
  Forall (λ i, i < SectionManager.next_id (Session.step self c))
    (Expense.id <$> SectionManager.expenses (Session.step self c)).
Proof.
  intros Hlt.
  destruct c as [d c ds a|rows|x d c ds a|x|c]; simpl.
  - rewrite fmap_app. simpl.
    apply Forall_app. split; [|apply Forall_singleton; lia].
    eapply Forall_impl; [done|]. intros; simpl in *; lia.
  - destruct (bulk_add_expenses_spec self rows) as (-> & -> & _ & _).
    rewrite fmap_app, bulk_records_ids.
    apply Forall_app. split.
    + eapply Forall_impl; [done|]. intros; simpl in *; lia.
    + apply Forall_forall. intros i Hi%elem_of_seqZ. lia.
  - unfold SectionManager.update_expense.
    destruct (SectionManager.find_id _ _) as [i|] eqn:Hfind; simpl; [|done].
    destruct (find_id_Some _ _ _ Hfind) as [(old & Hold & Hid) _].
    rewrite list_fmap_insert. simpl. rewrite list_insert_id; [done|].
    by rewrite list_lookup_fmap, Hold, <- Hid.
  - assert (SectionManager.next_id (SectionManager.delete_expense self x).1
            = SectionManager.next_id self) as ->.
    { unfold SectionManager.delete_expense. by case_decide. }
    rewrite delete_expense_expenses, filter_ids.
    apply Forall_forall. intros i [_ Hi]%list_elem_of_filter.
    rewrite Forall_forall in Hlt. by apply Hlt.
  - done.
Qed.

Lemma run_ids_below calls self :
  Forall (λ i, i < SectionManager.next_id self)
    (Expense.id <$> SectionManager.expenses self) →
  Forall (λ i, i < SectionManager.next_id (Session.run self calls))
    (Expense.id <$> SectionManager.expenses (Session.run self calls)).
Proof.
  revert self. induction calls as [|c calls IH]; intros self Hlt; [done|].
  change (Session.run self (c :: calls))
    with (Session.run (Session.step self c) calls).
  by apply IH, step_ids_below.
Qed.

Lemma run_next_id calls self :
  SectionManager.next_id (Session.run self calls) =
    SectionManager.next_id self + Z.of_nat (length (Session.assigned self calls)) ∧
  Session.assigned self calls =
    seqZ (SectionManager.next_id self) (Z.of_nat (length (Session.assigned self calls))).
Proof.
  revert self. induction calls as [|c calls IH]; intros self.
  - simpl. split; [lia|done].
  - change (Session.run self (c :: calls))
      with (Session.run (Session.step self c) calls).
    cbn [Session.assigned].
    destruct (IH (Session.step self c)) as (Hnext & Hseq).
    destruct (step_next_id self c) as [Hn1 Hs1].
    rewrite length_app, Nat2Z.inj_add.
    split; [clear -Hnext Hn1; lia|].
    rewrite seqZ_app by lia. by rewrite <- Hs1, <- Hn1, <- Hseq.
Qed.

End identifiers.

Section claim_identifiers.
Local Open Scope Z_scope.

(** C1 (amended).  On every store the manager starts with next id
    [max(ids, default 0) + 1], above every loaded id, and after any
    sequence of calls: the next id has advanced by one for every record
    added (by [add_expense] or by a row of [bulk_add_expenses]); the ids
    assigned are strictly increasing; an id assigned at some point is
    larger than every id present in the store at any earlier point, so no
    id is reused after a delete.  When the records loaded at construction
    have pairwise distinct ids, moreover, the ids in the store stay
    pairwise distinct, and the number of records equals the number loaded
    plus the number added minus the number of deletes that returned
    [True]. *)
Theorem ids_distinct_and_increasing (storage : FileStorage.t) (records : list Expense)
    (calls : list Session.call) :
  FileStorage.load_all storage = Ok records →
  ∃ self,
    SectionManager.init storage = Ok self ∧
    SectionManager.get_all self = records ∧
    SectionManager.next_id self =
      SectionManager.max_default (Expense.id <$> records) 0 + 1 ∧
    (∀ e, e ∈ records → Expense.id e < SectionManager.next_id self) ∧
    let self' := Session.run self calls in
    SectionManager.next_id self' =
      SectionManager.next_id self + Z.of_nat (length (Session.assigned self calls)) ∧
    StronglySorted Z.lt (Session.assigned self calls) ∧
    (∀ calls1 calls2, calls = calls1 ++ calls2 →
       ∀ e i, e ∈ SectionManager.get_all (Session.run self calls1) →
              i ∈ Session.assigned (Session.run self calls1) calls2 →
              Expense.id e < i) ∧
    (NoDup (Expense.id <$> records) →
     NoDup (Expense.id <$> SectionManager.get_all self') ∧
     (length (SectionManager.get_all self') + Session.deleted self calls
      = length records + length (Session.assigned self calls))%nat).
Proof.
  intros Hload.
  assert (SectionManager.init storage =
          Ok (SectionManager.Build storage records
                (SectionManager._compute_next_id records)
                (if decide ((list_to_set (Expense.category <$> records) : gset string) = ∅)
                 then SectionManager.default_categories
                 else list_to_set (Expense.category <$> records)))) as Hinit.
  { unfold SectionManager.init. by rewrite Hload. }
  eexists. split; [exact Hinit|].
  pose proof (init_ids_below _ _ Hinit) as Hbelow.
  unfold SectionManager.get_all. simpl.
  split; [done|]. split; [done|].
  split.
  { intros e He. rewrite Forall_forall in Hbelow.
    apply Hbelow. simpl. by apply list_elem_of_fmap_2. }
  destruct (run_next_id calls
              (SectionManager.Build storage records
                 (SectionManager._compute_next_id records)
                 (if decide ((list_to_set (Expense.category <$> records) : gset string) = ∅)
                  then SectionManager.default_categories
                  else list_to_set (Expense.category <$> records))))
    as (Hnext & Hseq).
  split; [done|].
  split; [rewrite Hseq; apply StronglySorted_seqZ|].
  split.
  - intros calls1 calls2 _ e i He Hi.
    pose proof (run_ids_below calls1 _ Hbelow) as Hlt1.
    destruct (run_next_id calls2 (Session.run
                (SectionManager.Build storage records
                   (SectionManager._compute_next_id records)
                   (if decide ((list_to_set (Expense.category <$> records) : gset string) = ∅)
                    then SectionManager.default_categories
                    else list_to_set (Expense.category <$> records))) calls1))
      as (_ & Hseq2).
    rewrite Hseq2 in Hi. apply elem_of_seqZ in Hi.
    rewrite Forall_forall in Hlt1.
    specialize (Hlt1 (Expense.id e) (list_elem_of_fmap_2 _ _ _ He)). lia.
  - intros Hnd.
    pose proof (init_ids_fresh _ _ Hinit Hnd) as Hfresh.
    destruct (run_ids _ calls Hfresh) as ([Hnd' _] & _ & _ & Hlen).
    by split.
Qed.

(** C1 as stated fails: a manager constructed on a store whose file
    repeats an id holds records with equal ids, and one [delete_expense]
    then removes two records; and on a store with loaded records the number
    of records is not the number of adds minus the number of deletes. *)
Lemma ids_distinct_counterexample :
  (∃ self,
     SectionManager.init two_records_same_id = Ok self ∧
     ¬ NoDup (Expense.id <$> SectionManager.get_all self) ∧
     length (SectionManager.get_all self) = 2%nat ∧
     length (SectionManager.get_all (Session.run self [Session.DeleteExpense 1]))
       = 0%nat ∧
     Session.deleted self [Session.DeleteExpense 1] = 1%nat) ∧
  (∃ self,
     SectionManager.init two_records = Ok self ∧
     NoDup (Expense.id <$> SectionManager.get_all self) ∧
     length (SectionManager.get_all (Session.run self []))
       ≠ (length (Session.assigned self []) - Session.deleted self [])%nat).
Proof.
  split.
  - eexists. split; [vm_compute; reflexivity|].
    split; [|by vm_compute].
    intros Hnd. apply NoDup_cons in Hnd as [Hnotin _]. apply Hnotin. by left.
  - eexists. split; [vm_compute; reflexivity|].
    split; [|by vm_compute].
    apply NoDup_cons. split; [|apply NoDup_singleton].
    intros Hin%list_elem_of_singleton. by vm_compute in Hin.
Qed.

Lemma ids_distinct_and_increasing_witness :
  FileStorage.load_all two_records = Ok sample_records ∧
  ∃ self,
    SectionManager.init two_records = Ok self ∧
    SectionManager.get_all self = sample_records ∧
    SectionManager.next_id self =
      SectionManager.max_default (Expense.id <$> sample_records) 0 + 1 ∧
    (∀ e, e ∈ sample_records → Expense.id e < SectionManager.next_id self) ∧
    let self' := Session.run self sample_calls in
    SectionManager.next_id self' =
      SectionManager.next_id self + Z.of_nat (length (Session.assigned self sample_calls)) ∧
    StronglySorted Z.lt (Session.assigned self sample_calls) ∧
    (∀ calls1 calls2, sample_calls = calls1 ++ calls2 →
       ∀ e i, e ∈ SectionManager.get_all (Session.run self calls1) →
              i ∈ Session.assigned (Session.run self calls1) calls2 →
              Expense.id e < i) ∧
    (NoDup (Expense.id <$> sample_records) →
     NoDup (Expense.id <$> SectionManager.get_all self') ∧
     (length (SectionManager.get_all self') + Session.deleted self sample_calls
      = length sample_records + length (Session.assigned self sample_calls))%nat).
Proof.
  split; [vm_compute; reflexivity|].
  apply (ids_distinct_and_increasing two_records sample_records sample_calls).
  vm_compute; reflexivity.
Defined.

End claim_identifiers.

(** ** The known-category set *)

Section categories.
Implicit Types (self : SectionManager.t) (c : string).

Lemma elem_of_get_categories self c :
  c ∈ SectionManager.get_categories self ↔ c ∈ SectionManager.categories self.
Proof.
  unfold SectionManager.get_categories.
  rewrite merge_sort_Permutation. apply elem_of_elements.
Qed.

Lemma get_categories_sorted self :
  StronglySorted String.le (SectionManager.get_categories self).
Proof. apply StronglySorted_merge_sort; apply _. Qed.

Lemma get_categories_NoDup self : NoDup (SectionManager.get_categories self).
Proof.
  unfold SectionManager.get_categories.
  rewrite merge_sort_Permutation. apply NoDup_elements.
Qed.

Lemma step_categories self (call : Session.call) :
  SectionManager.categories self ⊆ SectionManager.categories (Session.step self call).
Proof.
  destruct call as [d c ds a|rows|x d c ds a|x|c]; simpl.
  - set_solver.
  - destruct (bulk_add_expenses_spec self rows) as (_ & _ & -> & _). set_solver.
  - unfold SectionManager.update_expense.
    destruct (SectionManager.find_id _ _); simpl; set_solver.
  - unfold SectionManager.delete_expense. case_decide; simpl; set_solver.
  - set_solver.
Qed.

Lemma run_categories self calls :
  SectionManager.categories self ⊆ SectionManager.categories (Session.run self calls).
Proof.
  revert self. induction calls as [|call calls IH]; intros self; [done|].
  change (Session.run self (call :: calls))
    with (Session.run (Session.step self call) calls).
  etrans; [apply step_categories | apply IH].
Qed.

End categories.

Section claim_categories.
Implicit Types (self : SectionManager.t) (c : string).

(** C9.  The known-category set only grows over any sequence of calls:
    [add_expense], [update_expense] (when it finds the record) and
    [bulk_add_expenses] (for each record it appends) insert the category,
    [delete_expense] leaves the set as it is, and [get_categories] returns a
    sorted, duplicate-free list that contains every category it returned
    before. *)
Theorem categories_only_grow self (calls : list Session.call) :
  SectionManager.categories self ⊆ SectionManager.categories (Session.run self calls) ∧
  (∀ c, c ∈ SectionManager.get_categories self →
        c ∈ SectionManager.get_categories (Session.run self calls)) ∧
  StronglySorted String.le (SectionManager.get_categories (Session.run self calls)) ∧
  NoDup (SectionManager.get_categories (Session.run self calls)) ∧
  (∀ date c description amount,
     c ∈ SectionManager.get_categories
           (SectionManager.add_expense self date c description amount).1) ∧
  (∀ expense_id date c description amount,
     (SectionManager.update_expense self expense_id date c description amount).2 = true →
     c ∈ SectionManager.get_categories
           (SectionManager.update_expense self expense_id date c description amount).1) ∧
  (∀ expenses_data e,
     e ∈ drop (length (SectionManager.expenses self))
            (SectionManager.expenses
               (SectionManager.bulk_add_expenses self expenses_data).1) →
     Expense.category e ∈ SectionManager.get_categories
           (SectionManager.bulk_add_expenses self expenses_data).1) ∧
  (∀ expense_id,
     SectionManager.categories (SectionManager.delete_expense self expense_id).1
     = SectionManager.categories self).
Proof.
  split; [apply run_categories|].
  split.
  { intros c. rewrite !elem_of_get_categories. apply run_categories. }
  split; [apply get_categories_sorted|].
  split; [apply get_categories_NoDup|].
  split.
  { intros d c ds a. rewrite elem_of_get_categories. simpl. set_solver. }
  split.
  { intros x d c ds a. rewrite elem_of_get_categories.
    unfold SectionManager.update_expense.
    destruct (SectionManager.find_id _ _); simpl; [set_solver | done]. }
  split.
  { intros rows e. rewrite elem_of_get_categories.
    destruct (bulk_add_expenses_spec self rows) as (-> & _ & -> & _).
    rewrite drop_app_length. intros He.
    apply elem_of_union_l, elem_of_list_to_set. by apply list_elem_of_fmap_2. }
  intros x. unfold SectionManager.delete_expense. by case_decide.
Qed.

End claim_categories.

(** ** Bulk add *)

Section bulk_add.
Implicit Types (self : SectionManager.t) (row : gmap string Py.pyval).

Lemma bind_Ok {A B} (c : result A) (k : A → result B) (b : B) :
  c ≫= k = Ok b ↔ ∃ a, c = Ok a ∧ k a = Ok b.
Proof.
  destruct c as [a|e]; simpl.
  - split; [intros H; by exists a | by intros (a' & [= ->] & H)].
  - split; [done | by intros (a' & [=] & _)].
Qed.

Lemma getitem_Ok row k v : Py.getitem row k = Ok v ↔ row !! k = Some v.
Proof.
  unfold Py.getitem. destruct (row !! k); split; intros [=]; by subst.
Qed.

Lemma strip_of_Ok v s : Py.strip_of v = Ok s ↔ ∃ t, v = Py.PStr t ∧ s = Py.strip t.
Proof.
  destruct v; simpl; split; try (by intros [=]); try (by intros (t & [=] & _)).
  - intros [= <-]. by eexists.
  - by intros (t & [= ->] & ->).
Qed.

Lemma date_fromisoformat_of_Ok v d :
  Py.date_fromisoformat_of v = Ok d ↔ ∃ t, v = Py.PStr t ∧ Py.date_fromisoformat t = Ok d.
Proof.
  destruct v; simpl; split; try (by intros [=]); try (by intros (t & [=] & _)).
  - intros H. by eexists.
  - by intros (t & [= ->] & ->).
Qed.

Lemma coerce_Ok row date category description amount :
  SectionManager.coerce row = Ok (date, category, description, amount) ↔
  row_coerces_to row date category description amount.
Proof.
  unfold SectionManager.coerce, row_coerces_to, Py.getitem. split.
  - intros H.
    destruct (row !! "date") as [[| | | |td]|]; simpl in H; try done.
    destruct (Py.date_fromisoformat td) as [d|] eqn:Hd; simpl in H; [|done].
    destruct (row !! "category") as [[| | | |tc]|]; simpl in H; try done.
    destruct (row !! "description") as [[| | | |tds]|]; simpl in H; try done.
    destruct (row !! "amount") as [va|]; simpl in H; [|done].
    destruct (Py.float_of va) as [a|] eqn:Ha; simpl in H; [|done].
    injection H as <- <- <- <-. by exists td, tc, tds, va.
  - intros (td & tc & tds & va & -> & Hd & -> & -> & -> & -> & -> & Ha).
    simpl. rewrite Hd. simpl. by rewrite Ha.
Qed.

Lemma bulk_records_fields expenses_data next_id :
  record_fields <$> bulk_records expenses_data next_id = omap coerced expenses_data.
Proof.
  revert next_id. induction expenses_data as [|row rest IH]; intros n; [done|].
  simpl. unfold coerced at 1.
  destruct (SectionManager.coerce row) as [[[[d c] ds] a]|]; simpl; by rewrite IH.
Qed.

Lemma length_omap_coerced expenses_data :
  length (omap coerced expenses_data) =
  length (filter (λ row, is_Ok (SectionManager.coerce row) = true) expenses_data).
Proof.
  induction expenses_data as [|row rest IH]; [done|].
  simpl. rewrite filter_cons. unfold coerced at 1. cbv beta.
  destruct (SectionManager.coerce row) as [x|e]; simpl; [f_equal|]; apply IH.
Qed.

Lemma length_filter_not_Ok expenses_data :
  (length expenses_data -
   length (filter (λ row, is_Ok (SectionManager.coerce row) = true) expenses_data))%nat =
  length (filter (λ row, is_Ok (SectionManager.coerce row) = false) expenses_data).
Proof.
  induction expenses_data as [|row rest IH]; [done|].
  rewrite !filter_cons. cbv beta.
  pose proof (length_filter (λ row, is_Ok (SectionManager.coerce row) = true) rest).
  destruct (is_Ok (SectionManager.coerce row)); simpl; simpl in IH; lia.
Qed.

Lemma bulk_add_expenses_storage self expenses_data :
  let r := SectionManager.bulk_add_expenses self expenses_data in
  SectionManager.storage r.1 =
    if decide (0 < r.2.1) then
      FileStorage.save_all (SectionManager.storage self) (SectionManager.expenses r.1)
    else SectionManager.storage self.
Proof.
  unfold SectionManager.bulk_add_expenses. rewrite bulk_loop_spec. simpl.
  by case_decide.
Qed.

End bulk_add.

Section claim_bulk_add.
Implicit Types (self : SectionManager.t) (row : gmap string Py.pyval).

(** C2 (amended).  [bulk_add_expenses] treats each row on its own: the
    records held before stay as they are, and one record is appended, in
    row order and with consecutive ids from the next id on, for exactly the
    rows whose date and amount coerce and whose category and description are
    strings (stored stripped, empty or not); every other row is counted as
    skipped and the loop goes on.  The result is the pair (rows added, rows
    skipped), which add up to the number of rows.  [save_all] runs once, on
    the final list, when at least one row was added, and not at all
    otherwise. *)
Theorem bulk_add_expenses_per_row self (expenses_data : list (gmap string Py.pyval)) :
  let r := SectionManager.bulk_add_expenses self expenses_data in
  let added := drop (length (SectionManager.expenses self)) (SectionManager.expenses r.1) in
  SectionManager.expenses r.1 = SectionManager.expenses self ++ added ∧
  record_fields <$> added = omap coerced expenses_data ∧
  Expense.id <$> added = seqZ (SectionManager.next_id self) (Z.of_nat (length added)) ∧
  (∀ row date category description amount,
     coerced row = Some (date, category, description, amount) ↔
     row_coerces_to row date category description amount) ∧
  r.2 = (length (filter (λ row, is_Ok (SectionManager.coerce row) = true) expenses_data),
         length (filter (λ row, is_Ok (SectionManager.coerce row) = false) expenses_data)) ∧
  r.2.1 + r.2.2 = length expenses_data ∧
  FileStorage.writes (SectionManager.storage r.1) =
    FileStorage.writes (SectionManager.storage self) + (if decide (0 < r.2.1) then 1 else 0) ∧
  (0 < r.2.1 →
   FileStorage.contents (SectionManager.storage r.1) =
     FileStorage.Present
       (FileStorage.headers :: (Expense.to_row <$> SectionManager.expenses r.1))) ∧
  (r.2.1 = 0 → SectionManager.storage r.1 = SectionManager.storage self).
Proof.
  intros r added. subst r added.
  pose proof (bulk_add_expenses_storage self expenses_data) as Hsto.
  destruct (bulk_add_expenses_spec self expenses_data) as (Hexp & _ & _ & Hres).
  cbv zeta in Hsto. rewrite Hexp, Hres in *. rewrite drop_app_length.
  set (news := bulk_records expenses_data (SectionManager.next_id self)) in *.
  simpl in *.
  assert (length news =
          length (filter (λ row, is_Ok (SectionManager.coerce row) = true) expenses_data))
    as Hlen.
  { unfold news.
    rewrite <- length_omap_coerced,
      <- (bulk_records_fields _ (SectionManager.next_id self)).
    by rewrite length_fmap. }
  split; [done|].
  split; [apply bulk_records_fields|].
  split; [apply bulk_records_ids|].
  split.
  { intros row d c ds a. rewrite <- coerce_Ok. unfold coerced.
    destruct (SectionManager.coerce row); split; intros [=]; by subst. }
  split.
  { rewrite <- length_filter_not_Ok, <- Hlen. done. }
  split.
  { rewrite Hlen.
    pose proof (length_filter (λ row, is_Ok (SectionManager.coerce row) = true)
                  expenses_data). lia. }
  rewrite Hsto. case_decide; simpl; (split; [lia|]); (split; [done || lia|]);
    (done || lia).
Qed.

(** C2 as stated fails: a row whose category is empty and whose description
    is blank is added, not skipped. *)
Lemma bulk_add_expenses_empty_category_counterexample :
  ∃ self,
    SectionManager.init (FileStorage.init FileStorage.Absent) = Ok self ∧
    let r := SectionManager.bulk_add_expenses self [row_without_category] in
    r.2 = (1, 0) ∧
    record_fields <$> SectionManager.expenses r.1 = [(Py.Date 2024 1 1, "", "", one)].
Proof. eexists. split; [vm_compute; reflexivity|]. by vm_compute. Qed.

(** Ten rows of which three fail to coerce: seven records are added, three
    rows are skipped, and the file is written once. *)
Example bulk_add_expenses_seven_of_ten :
  ∃ self,
    SectionManager.init (FileStorage.init FileStorage.Absent) = Ok self ∧
    let r := SectionManager.bulk_add_expenses self ten_rows in
    length ten_rows = 10 ∧ r.2 = (7, 3) ∧
    FileStorage.writes (SectionManager.storage r.1) =
      S (FileStorage.writes (SectionManager.storage self)).
Proof. eexists. split; [vm_compute; reflexivity|]. by vm_compute. Qed.

End claim_bulk_add.

(** ** Validation of imported rows *)

Section validation.
Implicit Types (expense : gmap string Py.pyval) (i : nat).

Lemma row_error_None i expense :
  row_error i expense = None ↔ BulkImport.check_row i expense = Ok None.
Proof.
  unfold row_error. destruct (BulkImport.check_row i expense) as [[m|]|e];
    [| |destruct (is_ValueError e)]; split; intros [=]; done.
Qed.

Lemma check_row_passes i expense :
  BulkImport.check_row i expense = Ok None ↔ row_passes expense.
Proof.
  unfold BulkImport.check_row, row_passes, Py.getitem. split.
  - intros H.
    destruct (expense !! "date") as [[| | | |td]|]; simpl in H; try done.
    destruct (Py.date_fromisoformat td) as [d|] eqn:Hd; simpl in H; [|done].
    destruct (expense !! "amount") as [va|]; simpl in H; [|done].
    destruct (Py.float_of va) as [a|] eqn:Ha; simpl in H; [|done].
    destruct (Py.fleb a Py.fzero) eqn:Hle; simpl in H; [done|].
    destruct (expense !! "category") as [[| | | |tc]|]; simpl in H; try done.
    destruct (decide (Py.strip tc = "")) as [Hc|Hc]; simpl in H; [done|].
    destruct (expense !! "description") as [[| | | |tds]|]; simpl in H; try done.
    destruct (decide (Py.strip tds = "")) as [Hds|Hds]; simpl in H; [done|].
    exists td, tc, tds, va, a. by rewrite Hd.
  - intros (td & tc & tds & va & a & -> & Hd & -> & Ha & Hle & -> & Hc & -> & Hds).
    simpl. destruct (Py.date_fromisoformat td); [|done]. simpl.
    rewrite Ha. simpl. rewrite Hle. simpl.
    rewrite decide_False by done. simpl. by rewrite decide_False.
Qed.

Lemma check_row_label i expense msg :
  BulkImport.check_row i expense = Ok (Some msg) →
  ∃ reason, msg = BulkImport.row_label i +:+ reason.
Proof.
  unfold BulkImport.check_row, Py.getitem. intros H.
  destruct (expense !! "date") as [[| | | |td]|]; simpl in H; try done.
  destruct (Py.date_fromisoformat td) as [d|]; simpl in H; [|done].
  destruct (expense !! "amount") as [va|]; simpl in H; [|done].
  destruct (Py.float_of va) as [a|]; simpl in H; [|done].
  destruct (Py.fleb a Py.fzero); simpl in H; [injection H as <-; by eexists|].
  destruct (expense !! "category") as [[| | | |tc]|]; simpl in H; try done.
  destruct (decide (Py.strip tc = "")); simpl in H; [injection H as <-; by eexists|].
  destruct (expense !! "description") as [[| | | |tds]|]; simpl in H; try done.
  destruct (decide (Py.strip tds = "")); simpl in H; [injection H as <-; by eexists|].
  done.
Qed.

Lemma row_error_label i expense msg :
  row_error i expense = Some msg →
  ∃ reason, msg = BulkImport.row_label i +:+ reason.
Proof.
  unfold row_error.
  destruct (BulkImport.check_row i expense) as [[m|]|e] eqn:H.
  - intros [= <-]. by eapply check_row_label.
  - done.
  - destruct (is_ValueError e); intros [= <-]; by eexists.
Qed.

Lemma row_ok_check_row i expense :
  row_ok expense = true ↔ BulkImport.check_row i expense = Ok None.
Proof.
  rewrite check_row_passes. unfold row_ok.
  destruct (BulkImport.check_row 0 expense) as [[m|]|e] eqn:H.
  - split; [done|]. intros Hp%(check_row_passes 0). congruence.
  - split; [|done]. intros _. by apply (check_row_passes 0).
  - split; [done|]. intros Hp%(check_row_passes 0). congruence.
Qed.

Lemma validate_loop_spec i expenses valid_expenses errors :
  BulkImport.validate_loop i expenses valid_expenses errors =
  (valid_expenses ++ filter (λ expense, row_ok expense = true) expenses,
   errors ++ omap id (imap (λ k expense, row_error (i + k) expense) expenses)).
Proof.
  revert i valid_expenses errors.
  induction expenses as [|expense rest IH]; intros i valid_expenses errors.
  - simpl. by rewrite !app_nil_r.
  - cbn [BulkImport.validate_loop]. rewrite filter_cons, imap_cons. cbn [omap list_omap].
    replace (i + 0)%nat with i by lia.
    assert (imap ((λ k expense, row_error (i + k) expense) ∘ S) rest
            = imap (λ k expense, row_error (S i + k) expense) rest) as ->.
    { apply imap_ext. intros k x _. simpl. f_equal. lia. }
    pose proof (row_ok_check_row i expense) as Hok.
    unfold row_error at 1.
    destruct (BulkImport.check_row i expense) as [[m|]|e] eqn:H.
    + rewrite IH. destruct (row_ok expense); [by destruct Hok as [Hok _]; specialize (Hok eq_refl)|].
      rewrite decide_False by done. simpl. by rewrite <- app_assoc.
    + rewrite IH. rewrite decide_True by by apply Hok.
      simpl. by rewrite <- app_assoc.
    + destruct (row_ok expense); [by destruct Hok as [Hok _]; specialize (Hok eq_refl)|].
      rewrite decide_False by done.
      destruct (is_ValueError e); rewrite IH; simpl; by rewrite <- app_assoc.
Qed.

Lemma date_fromisoformat_raises s e :
  Py.date_fromisoformat s = Raise e → is_ValueError e = true.
Proof.
  unfold Py.date_fromisoformat, Py.date_new.
  repeat (case_match; simplify_eq/=; try done); by intros [= <-].
Qed.

Lemma omap_id_cons {A} (x : option A) (l : list (option A)) :
  omap id (x :: l) = match x with Some y => y :: omap id l | None => omap id l end.
Proof. by destruct x. Qed.

Lemma validate_counts i expenses :
  length (filter (λ expense, row_ok expense = true) expenses) +
  length (omap id (imap (λ k expense, row_error (i + k) expense) expenses))
  = length expenses.
Proof.
  revert i. induction expenses as [|expense rest IH]; intros i; [done|].
  rewrite filter_cons, imap_cons, omap_id_cons.
  replace (i + 0)%nat with i by lia.
  assert (imap ((λ k expense, row_error (i + k) expense) ∘ S) rest
          = imap (λ k expense, row_error (S i + k) expense) rest) as ->.
  { apply imap_ext. intros k x _. simpl. f_equal. lia. }
  specialize (IH (S i)).
  pose proof (row_ok_check_row i expense) as Hok.
  pose proof (row_error_None i expense) as Hnone.
  destruct (row_ok expense).
  - rewrite decide_True by done.
    destruct (row_error i expense).
    + destruct Hok as [Hok _]. specialize (Hok eq_refl).
      apply Hnone in Hok. done.
    + cbn [length]. lia.
  - rewrite decide_False by done.
    destruct (row_error i expense).
    + cbn [length]. lia.
    + destruct Hnone as [Hnone _]. specialize (Hnone eq_refl).
      apply Hok in Hnone. done.
Qed.

End validation.

Section claim_validation.
Implicit Types (expense : gmap string Py.pyval).

(** What [validate_expenses] does on every row list.  The valid rows are
    the rows that pass the checks, in their original order; every other row
    contributes exactly one message, labelled with its 1-based row number,
    and validation goes on with the next row; an unparsable date string is
    reported as an invalid date format.  The checks are those of
    [row_passes]: in particular the amount check is [not (amount <= 0)]. *)
Lemma validate_expenses_spec (expenses : list (gmap string Py.pyval)) :
  let r := BulkImport.validate_expenses expenses in
  r.1 = filter (λ expense, row_ok expense = true) expenses ∧
  r.2 = omap id (imap (λ k expense, row_error (S k) expense) expenses) ∧
  length r.1 + length r.2 = length expenses ∧
  (∀ expense, row_ok expense = true ↔ row_passes expense) ∧
  (∀ k expense, row_ok expense = false →
     ∃ reason, row_error k expense = Some (BulkImport.row_label k +:+ reason)) ∧
  (∀ k expense date_s e,
     expense !! "date" = Some (Py.PStr date_s) →
     Py.date_fromisoformat date_s = Raise e →
     row_error k expense =
       Some (BulkImport.row_label k +:+ "Invalid date format - " +:+ exn_str e)).
Proof.
  intros r. subst r. unfold BulkImport.validate_expenses.
  rewrite validate_loop_spec. simpl.
  split; [done|]. split; [done|].
  split; [apply (validate_counts 1)|].
  split.
  { intros expense. rewrite (row_ok_check_row 0). apply check_row_passes. }
  split.
  - intros k expense Hok.
    destruct (row_error k expense) as [msg|] eqn:Herr.
    + destruct (row_error_label _ _ _ Herr) as [reason ->]. by exists reason.
    + apply row_error_None, row_ok_check_row in Herr. congruence.
  - intros k expense date_s e Hdate Hraise.
    unfold row_error, BulkImport.check_row, Py.getitem.
    rewrite Hdate. simpl. rewrite Hraise. simpl.
    by rewrite (date_fromisoformat_raises _ _ Hraise).
Qed.

(** The row of the specification's example: one message for row 1 with an
    invalid-date reason, and no valid row. *)
Example validate_expenses_bad_date :
  BulkImport.validate_expenses [row_with_bad_date] =
  ([], ["Row 1: Invalid date format - month must be in 1..12"]).
Proof. by vm_compute. Qed.

(** C3, at the input where the code departs from it.  A row whose amount is
    NaN (what [parse_csv_file] produces for a blank cost cell) is not
    strictly positive, yet [validate_expenses] puts it in the valid list and
    reports no error: the test [amount <= 0] is false for NaN. *)
Theorem validate_expenses_accepts_nan_amount :
  Py.float_of (Py.PFloat S754_nan) = Ok S754_nan ∧
  Py.fltb Py.fzero S754_nan = false ∧
  BulkImport.validate_expenses [row_with_nan_amount] = ([row_with_nan_amount], []).
Proof. by vm_compute. Qed.

End claim_validation.

(** ** Parsing an import file *)

Section parsing.
Implicit Types (row : gmap string Py.pyval).

Lemma mapM_Ok {A B} (f : A → result B) (l : list A) (k : list B) :
  mapM f l = Ok k ↔ Forall2 (λ x y, f x = Ok y) l k.
Proof.
  revert k. induction l as [|x l IH]; intros k; simpl.
  - split; [intros [= <-]; constructor | by intros ->%Forall2_nil_inv_l].
  - destruct (f x) as [y|e] eqn:Hx; simpl.
    + destruct (mapM f l) as [k'|e] eqn:Hl; simpl.
      * split.
        -- intros [= <-]. constructor; [done | by apply IH].
        -- intros (y' & k'' & Hy & Hk & ->)%Forall2_cons_inv_l.
           apply IH in Hk. rewrite Hx in Hy. by simplify_eq.
      * split; [done|].
        intros (y' & k'' & Hy & Hk & ->)%Forall2_cons_inv_l.
        apply IH in Hk. done.
    + split; [done|].
      intros (y' & k'' & Hy & Hk & ->)%Forall2_cons_inv_l. by rewrite Hx in Hy.
Qed.


Lemma parse_row_Ok row d :
  BulkImport.parse_row row = Ok d ↔
  ∃ amount, Py.float_of (amount_cell row) = Ok amount ∧
    d = <[ "date" := BulkImport.get row "date" (Py.PStr "") ]>
        (<[ "category" :=
              BulkImport.get row "category" (BulkImport.get row "Category" (Py.PStr "")) ]>
        (<[ "description" :=
              BulkImport.get row "item"
                (BulkImport.get row "Item" (BulkImport.get row "description" (Py.PStr ""))) ]>
        ({[ "amount" := Py.PFloat amount ]}))).
Proof.
  unfold BulkImport.parse_row. fold (amount_cell row).
  destruct (Py.float_of (amount_cell row)) as [a|e]; simpl.
  - split; [intros [= <-]; by exists a | by intros (a' & [= <-] & ->)].
  - split; [done | by intros (a' & [=] & _)].
Qed.


End parsing.

Section claim_parsing.
Implicit Types (row : gmap string Py.pyval).



End claim_parsing.

(** ** Loading the backing file *)

Section loading.
Implicit Types (row : list string) (e : Expense).

Lemma load_rows_spec (rows : list (list string)) (expenses : list Expense) :
  FileStorage.load_rows rows expenses = expenses ++ omap well_formed rows.
Proof.
  revert expenses. induction rows as [|row rest IH]; intros expenses.
  - simpl. by rewrite app_nil_r.
  - cbn [FileStorage.load_rows omap list_omap]. unfold well_formed at 1.
    destruct (decide (length row = 5)) as [Hlen|Hlen]; [|apply IH].
    destruct (Expense.from_row row) as [e|]; [|apply IH].
    rewrite IH. by rewrite <- app_assoc.
Qed.

Lemma from_row_Ok row e :
  length row = 5 →
  Expense.from_row row = Ok e ↔
  ∃ f0 f1 f2 f3 f4,
    row = [f0; f1; f2; f3; f4] ∧
    Py.int_of_str f0 = Ok (Expense.id e) ∧
    Py.date_fromisoformat f1 = Ok (Expense.date e) ∧
    f2 = Expense.category e ∧
    f3 = Expense.description e ∧
    Py.float_of_str f4 = Ok (Expense.amount e).
Proof.
  intros Hlen.
  destruct row as [|f0 [|f1 [|f2 [|f3 [|f4 [|]]]]]]; try done.
  unfold Expense.from_row. simpl.
  destruct (Py.int_of_str f0) as [i|] eqn:Hi; simpl.
  2:{ split; [done|]. intros (? & ? & ? & ? & ? & [= <- <- <- <- <-] & ? & _). congruence. }
  destruct (Py.date_fromisoformat f1) as [d|] eqn:Hd; simpl.
  2:{ split; [done|]. intros (? & ? & ? & ? & ? & [= <- <- <- <- <-] & ? & ? & _). congruence. }
  destruct (Py.float_of_str f4) as [a|] eqn:Ha; simpl.
  2:{ split; [done|].
      intros (? & ? & ? & ? & ? & [= <- <- <- <- <-] & ? & ? & ? & ? & ?). congruence. }
  split.
  - intros [= <-]. exists f0, f1, f2, f3, f4. simpl. by rewrite Hi, Hd, Ha.
  - intros (? & ? & ? & ? & ? & [= <- <- <- <- <-] & Hi' & Hd' & -> & -> & Ha').
    destruct e; simpl in *.
    rewrite Hi in Hi'. rewrite Hd in Hd'. rewrite Ha in Ha'. by simplify_eq.
Qed.

End loading.

Section claim_loading.
Implicit Types (row : list string) (e : Expense).

(** C7 (amended).  [load_all] returns the empty list when the file is
    absent.  On a file that can be read as csv text it never raises: it
    skips the header and returns, in file order, the records of exactly the
    rows that have five fields of which the first parses as an [int], the
    second as a date and the fifth as a [float]; every other row is dropped
    without any trace in the result.  The one exception it handles is
    [FileNotFoundError]: on a file that cannot be opened, decoded or split
    into rows it raises what the reading raises, and it raises in no other
    case. *)
Theorem load_all_tolerant (storage : FileStorage.t) :
  (FileStorage.contents storage = FileStorage.Absent →
   FileStorage.load_all storage = Ok []) ∧
  (∀ rows, FileStorage.contents storage = FileStorage.Present rows →
     FileStorage.load_all storage = Ok (omap well_formed (drop 1 rows))) ∧
  (∀ err, FileStorage.contents storage = FileStorage.Unreadable err →
     FileStorage.load_all storage =
       if is_FileNotFoundError err then Ok [] else Raise err) ∧
  (∀ err, FileStorage.load_all storage = Raise err →
     FileStorage.contents storage = FileStorage.Unreadable err ∧
     is_FileNotFoundError err = false) ∧
  (∀ row e, well_formed row = Some e ↔
     ∃ f0 f1 f2 f3 f4,
       row = [f0; f1; f2; f3; f4] ∧
       Py.int_of_str f0 = Ok (Expense.id e) ∧
       Py.date_fromisoformat f1 = Ok (Expense.date e) ∧
       f2 = Expense.category e ∧
       f3 = Expense.description e ∧
       Py.float_of_str f4 = Ok (Expense.amount e)) ∧
  (∀ row, well_formed row = None ↔
     length row ≠ 5 ∨
     ∃ f0 f1 f2 f3 f4,
       row = [f0; f1; f2; f3; f4] ∧
       (is_Ok (Py.int_of_str f0) = false ∨
        is_Ok (Py.date_fromisoformat f1) = false ∨
        is_Ok (Py.float_of_str f4) = false)).
Proof.
  split; [intros H; rewrite load_all_unfold; unfold loaded; by rewrite H|].
  split.
  { intros rows H. rewrite load_all_unfold. unfold loaded. rewrite H.
    by rewrite load_rows_spec. }
  split; [intros err H; rewrite load_all_unfold; by rewrite H|].
  split.
  { intros err. rewrite load_all_unfold.
    destruct (FileStorage.contents storage) as [|rows|err']; try done.
    destruct (is_FileNotFoundError err') eqn:He; [done|]. by intros [= <-]. }
  split.
  { intros row e. unfold well_formed.
    destruct (decide (length row = 5)) as [Hlen|Hlen].
    - rewrite <- (from_row_Ok _ _ Hlen).
      destruct (Expense.from_row row); split; intros [=]; by subst.
    - split; [done|]. by intros (? & ? & ? & ? & ? & -> & _). }
  intros row. unfold well_formed.
  destruct (decide (length row = 5)) as [Hlen|Hlen]; [|split; [by left | done]].
  destruct row as [|f0 [|f1 [|f2 [|f3 [|f4 [|]]]]]]; try done.
  unfold Expense.from_row. simpl.
  destruct (Py.int_of_str f0) as [i|] eqn:Hi; simpl.
  2:{ split; [|done]. intros _. right. exists f0, f1, f2, f3, f4.
      split; [done|]. left. by rewrite Hi. }
  destruct (Py.date_fromisoformat f1) as [d|] eqn:Hd; simpl.
  2:{ split; [|done]. intros _. right. exists f0, f1, f2, f3, f4.
      split; [done|]. right; left. by rewrite Hd. }
  destruct (Py.float_of_str f4) as [a|] eqn:Ha; simpl.
  2:{ split; [|done]. intros _. right. exists f0, f1, f2, f3, f4.
      split; [done|]. right; right. by rewrite Ha. }
  split; [done|].
  intros [?|(? & ? & ? & ? & ? & [= <- <- <- <- <-] & [H|[H|H]])]; [done|..].
  - by rewrite Hi in H.
  - by rewrite Hd in H.
  - by rewrite Ha in H.
Qed.

(** C7 as stated fails: on a file that is not UTF-8 text [load_all]
    raises, and so does the construction of a manager on it. *)
Lemma load_all_unreadable_counterexample :
  ¬ (∃ expenses, FileStorage.load_all undecodable = Ok expenses) ∧
  FileStorage.load_all undecodable =
    Raise (UnicodeDecodeError
             "'utf-8' codec can't decode byte 0xff in position 0: invalid start byte") ∧
  SectionManager.init undecodable =
    Raise (UnicodeDecodeError
             "'utf-8' codec can't decode byte 0xff in position 0: invalid start byte").
Proof.
  split; [|by split].
  intros [expenses H]. by vm_compute in H.
Qed.

End claim_loading.

(** ** Decimal text of integers *)

Lemma is_digit_cases d :
  is_digit d →
  (d = 0 ∨ d = 1 ∨ d = 2 ∨ d = 3 ∨ d = 4 ∨ d = 5 ∨ d = 6 ∨ d = 7 ∨ d = 8 ∨ d = 9)%Z.
Proof. unfold is_digit. lia. Qed.

Ltac digit_cases d H :=
  apply is_digit_cases in H;
  destruct H as [->|[->|[->|[->|[->|[->|[->|[->|[->| ->]]]]]]]]].

Section decimal_text.
Local Open Scope Z_scope.

Lemma digit_of_ascii_of_digit d :
  is_digit d → Py.digit_of_ascii (Py.ascii_of_digit d) = Some d.
Proof. intros H. digit_cases d H; reflexivity. Qed.

Lemma digits_value_snoc ds d :
  Py.digits_value (ds ++ [d]) = 10 * Py.digits_value ds + d.
Proof. unfold Py.digits_value. by rewrite fold_left_app. Qed.

Lemma digits_value_app2 ds d1 d2 :
  Py.digits_value (ds ++ [d1; d2]) = 100 * Py.digits_value ds + 10 * d1 + d2.
Proof.
  change [d1; d2] with ([d1] ++ [d2]). rewrite app_assoc, !digits_value_snoc. lia.
Qed.

Lemma digits_go_spec (fuel : nat) (n : Z) (acc : list Z) :
  (0 < fuel)%nat → 0 ≤ n → n < 10 ^ Z.of_nat fuel →
  ∃ ds, Py.digits_go fuel n acc = ds ++ acc ∧ ds ≠ [] ∧
        Forall is_digit ds ∧ Py.digits_value ds = n.
Proof.
  revert n acc. induction fuel as [|fuel IH]; intros n acc Hf Hn Hlt; [lia|].
  simpl. destruct (Z.ltb_spec n 10) as [H10|H10].
  - exists [n]. split; [done|]. split; [done|]. split.
    + apply Forall_singleton. unfold is_digit. lia.
    + unfold Py.digits_value. simpl. lia.
  - assert (Hdiv : 0 ≤ n / 10 ∧ 1 ≤ n / 10) by (split; apply Z.div_le_lower_bound; lia).
    assert (Hlt' : n / 10 < 10 ^ Z.of_nat fuel).
    { apply Z.div_lt_upper_bound; [lia|].
      rewrite Nat2Z.inj_succ, Z.pow_succ_r in Hlt by lia. lia. }
    assert (0 < fuel)%nat.
    { destruct fuel; [|lia]. simpl in Hlt'. lia. }
    destruct (IH (n / 10) (n mod 10 :: acc)) as (ds & -> & Hne & Hall & Hval);
      [lia..|].
    exists (ds ++ [n mod 10]). rewrite <- app_assoc. split; [done|].
    split; [by destruct ds|].
    split.
    + apply Forall_app. split; [done|]. apply Forall_singleton.
      unfold is_digit. pose proof (Z.mod_pos_bound n 10). lia.
    + rewrite digits_value_snoc, Hval. pose proof (Z.div_mod n 10). lia.
Qed.

Lemma digits_of_spec (n : Z) :
  0 ≤ n →
  Py.digits_of n ≠ [] ∧ Forall is_digit (Py.digits_of n) ∧
  Py.digits_value (Py.digits_of n) = n.
Proof.
  intros Hn. unfold Py.digits_of.
  destruct (digits_go_spec (S (Z.to_nat (Z.log2 n))) n []) as (ds & -> & H1 & H2 & H3).
  - lia.
  - done.
  - rewrite Nat2Z.inj_succ, Z2Nat.id by apply Z.log2_nonneg.
    destruct (Z.eq_dec n 0) as [->|Hnz]; [done|].
    pose proof (Z.log2_spec n ltac:(lia)) as [_ Hup].
    eapply Z.lt_le_trans; [exact Hup|].
    apply Z.pow_le_mono_l. lia.
  - by rewrite app_nil_r.
Qed.

Lemma string_of_digits_app ds1 ds2 :
  Py.string_of_digits (ds1 ++ ds2) = Py.string_of_digits ds1 +:+ Py.string_of_digits ds2.
Proof. induction ds1 as [|d ds1 IH]; [done|]. simpl. by rewrite IH. Qed.

Lemma digit_run_stops rest : stops_run rest → Py.digit_run rest = ([], rest).
Proof. destruct rest as [|c rest]; [done|]. simpl. by intros [-> _]. Qed.

Lemma digit_run_digits ds rest :
  Forall is_digit ds → stops_run rest →
  Py.digit_run (Py.string_of_digits ds +:+ rest) = (ds, rest).
Proof.
  intros Hds Hrest. induction Hds as [|d ds Hd Hds IH].
  - simpl. by apply digit_run_stops.
  - change (Py.string_of_digits (d :: ds) +:+ rest)
      with (String (Py.ascii_of_digit d) (Py.string_of_digits ds +:+ rest)).
    cbn [Py.digit_run]. rewrite (digit_of_ascii_of_digit d Hd).
    destruct ds as [|d' ds'].
    + simpl in *. destruct rest as [|c rest'].
      * by rewrite IH.
      * destruct Hrest as [Hc Hu].
        destruct (Ascii.eqb_spec c "_"%char) as [->|Hne]; [done|].
        assert (Py.digit_run (String c rest') = ([], String c rest')) as Hrun
          by (simpl; by rewrite Hc).
        destruct c as [[] [] [] [] [] [] [] []]; try done; by rewrite Hrun.
    + inversion Hds as [|? ? Hd' _]; subst.
      change (Py.string_of_digits (d' :: ds') +:+ rest)
        with (String (Py.ascii_of_digit d') (Py.string_of_digits ds' +:+ rest)) in *.
      digit_cases d' Hd'; cbn [Py.ascii_of_digit] in *; simpl ascii_of_N in *;
        by rewrite IH.
Qed.

Lemma append_nil_r (s : string) : s +:+ "" = s.
Proof.
  induction s as [|c s IH]; [done|].
  change (String c (s +:+ "") = String c s). by rewrite IH.
Qed.

Lemma append_assoc (s1 s2 s3 : string) : (s1 +:+ s2) +:+ s3 = s1 +:+ (s2 +:+ s3).
Proof.
  induction s1 as [|c s1 IH]; [done|].
  change (String c ((s1 +:+ s2) +:+ s3) = String c (s1 +:+ (s2 +:+ s3))).
  by rewrite IH.
Qed.

Lemma rstrip_with_no_space sp s : no_space sp s → Py.rstrip_with sp s = s.
Proof.
  induction s as [|c s IH]; [done|]. intros [Hc Hs]. simpl.
  rewrite (IH Hs). destruct s; [by rewrite Hc | done].
Qed.

Lemma strip_with_no_space sp s : no_space sp s → Py.strip_with sp s = s.
Proof.
  intros Hs. unfold Py.strip_with.
  assert (Py.lstrip_with sp s = s) as ->; [|by apply rstrip_with_no_space].
  destruct s as [|c s]; [done|]. simpl. by destruct Hs as [-> _].
Qed.

Lemma no_space_app sp s1 s2 :
  no_space sp s1 → no_space sp s2 → no_space sp (s1 +:+ s2).
Proof.
  induction s1 as [|c s1 IH]; [done|]. intros [? ?] ?.
  change (no_space sp (String c (s1 +:+ s2))). simpl. auto.
Qed.

Lemma no_space_digits ds :
  Forall is_digit ds → no_space Py.is_num_space (Py.string_of_digits ds).
Proof.
  induction 1 as [|d ds Hd _ IH]; [done|]. simpl. split; [|done].
  digit_cases d Hd; reflexivity.
Qed.

Lemma read_sign_digits d ds rest :
  is_digit d →
  Py.read_sign (Py.string_of_digits (d :: ds) +:+ rest) =
  (false, Py.string_of_digits (d :: ds) +:+ rest).
Proof. intros Hd. digit_cases d Hd; reflexivity. Qed.

(** [int(str(n)) == n] *)
Lemma int_of_str_of_int (n : Z) : Py.int_of_str (Py.str_of_int n) = Ok n.
Proof.
  unfold Py.int_of_str, Py.str_of_int.
  destruct (Z.ltb_spec n 0) as [Hn|Hn].
  - destruct (digits_of_spec (- n)) as (Hne & Hds & Hval); [lia|].
    rewrite strip_with_no_space by (split; [done | by apply no_space_digits]).
    simpl Py.read_sign. cbv iota beta.
    rewrite <- (append_nil_r (Py.string_of_digits _)), digit_run_digits by done.
    destruct (Py.digits_of (- n)) as [|d ds]; [done|]. rewrite Hval. f_equal. lia.
  - destruct (digits_of_spec n) as (Hne & Hds & Hval); [lia|].
    rewrite strip_with_no_space by (by apply no_space_digits).
    destruct (Py.digits_of n) as [|d ds] eqn:Heq; [done|].
    rewrite <- (append_nil_r (Py.string_of_digits _)).
    rewrite read_sign_digits by (by inversion Hds).
    rewrite digit_run_digits by done. by rewrite Hval.
Qed.

End decimal_text.

(** ** Two-decimal text of amounts *)

Section amount_text.
Local Open Scope Z_scope.

Lemma div_rne_nonneg (n d : Z) : 0 ≤ n → 0 < d → 0 ≤ Py.div_rne n d.
Proof.
  intros Hn Hd. unfold Py.div_rne.
  pose proof (Z.div_pos n d Hn Hd).
  destruct (2 * (n mod d) ?= d); [destruct (Z.even (n / d))|..]; lia.
Qed.

Lemma hundredths_nonneg (m : positive) (e : Z) : 0 ≤ Py.hundredths m e.
Proof.
  unfold Py.hundredths. destruct (Z.leb_spec 0 e).
  - apply Z.mul_nonneg_nonneg; [lia|]. apply Z.pow_nonneg. lia.
  - apply div_rne_nonneg; [lia|]. apply Z.pow_pos_nonneg; lia.
Qed.

Lemma fraction_digits (n : Z) : Forall is_digit [n mod 100 / 10; n mod 10].
Proof.
  pose proof (Z.mod_pos_bound n 100 ltac:(lia)).
  pose proof (Z.mod_pos_bound n 10 ltac:(lia)).
  constructor; [|constructor; [|constructor]]; unfold is_digit.
  - split; [apply Z.div_pos; lia | apply Z.lt_succ_r, Z.div_lt_upper_bound; lia].
  - lia.
Qed.

Lemma not_special_digits d rest :
  is_digit d →
  let low := Py.lower_str (String (Py.ascii_of_digit d) rest) in
  (low =? "inf")%string = false ∧ (low =? "infinity")%string = false ∧
  (low =? "nan")%string = false.
Proof. intros Hd. digit_cases d Hd; done. Qed.

Lemma read_decimal_fixed2 (n : Z) :
  0 ≤ n → Py.read_decimal (Py.fixed2 n) = Some (n, -2).
Proof.
  intros Hn. unfold Py.read_decimal, Py.fixed2.
  destruct (digits_of_spec (n / 100)) as (Hne & Hds & Hval);
    [apply Z.div_pos; lia|].
  pose proof (fraction_digits n) as Hfr.
  rewrite digit_run_digits; [|done|done].
  change ("." +:+ ?s) with (String "." s).
  cbv iota beta.
  rewrite <- (append_nil_r (Py.string_of_digits [_; _])), digit_run_digits by done.
  destruct (Py.digits_of (n / 100) ++ [n mod 100 / 10; n mod 10]) as [|d ds] eqn:Heq.
  { by destruct (Py.digits_of (n / 100)). }
  rewrite <- Heq. simpl Py.read_exponent. cbv iota beta.
  rewrite digits_value_app2, Hval. f_equal. f_equal.
  pose proof (Z.div_mod n 100). pose proof (Z.div_mod (n mod 100) 10).
  assert ((n mod 100) mod 10 = n mod 10).
  { apply Z.mod_mod_divide. by exists 10. }
  lia.
Qed.

Lemma fixed2_shape (n : Z) :
  0 ≤ n →
  ∃ d ds, is_digit d ∧
    Py.fixed2 n = String (Py.ascii_of_digit d) ds ∧
    no_space Py.is_num_space (Py.fixed2 n).
Proof.
  intros Hn. unfold Py.fixed2.
  destruct (digits_of_spec (n / 100)) as (Hne & Hds & Hval);
    [apply Z.div_pos; lia|].
  pose proof (fraction_digits n) as Hfr.
  assert (no_space Py.is_num_space
            (Py.string_of_digits (Py.digits_of (n / 100)) +:+ "." +:+
             Py.string_of_digits [n mod 100 / 10; n mod 10])) as Hns.
  { apply no_space_app; [by apply no_space_digits|].
    apply (no_space_app _ "."); [done | by apply no_space_digits]. }
  destruct (Py.digits_of (n / 100)) as [|d ds]; [done|].
  exists d, (Py.string_of_digits ds +:+ "." +:+
             Py.string_of_digits [n mod 100 / 10; n mod 10]).
  split; [by inversion Hds|]. split; [done|]. done.
Qed.

(** [float(f"{a:.2f}")] is defined for every float. *)
Lemma float_of_str_format_2f (a : Py.float) :
  Py.float_of_str (Py.format_2f a) = Ok (two_decimals a).
Proof.
  destruct a as [s|s| |s m e]; try (by destruct s); [done|].
  unfold Py.format_2f, two_decimals, Py.float_of_str.
  pose proof (hundredths_nonneg m e) as Hn.
  destruct (fixed2_shape _ Hn) as (d & ds & Hd & Hshape & Hns).
  pose proof (read_decimal_fixed2 _ Hn) as Hread.
  destruct (not_special_digits d ds Hd) as (H1 & H2 & H3).
  destruct s; simpl Py.sign_str.
  - change ("-" +:+ ?x) with (String "-" x).
    rewrite strip_with_no_space by done.
    change (Py.read_sign (String "-" ?x)) with (true, x). cbv iota beta.
    rewrite Hread, Hshape, H1, H2, H3. done.
  - change ("" +:+ ?x) with x.
    rewrite strip_with_no_space by done.
    rewrite Hshape.
    assert (Py.read_sign (String (Py.ascii_of_digit d) ds)
            = (false, String (Py.ascii_of_digit d) ds)) as ->.
    { clear -Hd. digit_cases d Hd; reflexivity. }
    cbv iota beta. rewrite H1, H2, H3. rewrite <- Hshape, Hread. done.
Qed.

End amount_text.

(** ** Text of dates *)

Section date_text.
Local Open Scope Z_scope.

Lemma forallb_seqZ (f : Z → bool) (lo len : Z) :
  forallb f (seqZ lo len) = true → ∀ n, lo ≤ n < lo + len → f n = true.
Proof.
  intros H n Hn. rewrite forallb_forall in H. apply H.
  apply list_elem_of_In, elem_of_seqZ. lia.
Qed.

Lemma all_digits_Forall ds : all_digits ds = true → Forall is_digit ds.
Proof.
  unfold all_digits. rewrite forallb_forall. intros H.
  apply Forall_forall. intros d Hd%list_elem_of_In. apply H in Hd.
  unfold is_digit. lia.
Qed.

Lemma zero_pad_4 (n : Z) : 0 ≤ n ≤ 9999 → pads_to 4 (four_digits n) n = true.
Proof.
  intros Hn. apply (forallb_seqZ (λ n, pads_to 4 (four_digits n) n) 0 10000); [|lia].
  vm_compute. reflexivity.
Qed.

Lemma zero_pad_2 (n : Z) : 0 ≤ n ≤ 99 → pads_to 2 (two_digits n) n = true.
Proof.
  intros Hn. apply (forallb_seqZ (λ n, pads_to 2 (two_digits n) n) 0 100); [|lia].
  vm_compute. reflexivity.
Qed.

Lemma pads_to_spec w ds n :
  pads_to w ds n = true →
  Py.zero_pad w n = Py.string_of_digits ds ∧ Forall is_digit ds ∧ Py.digits_value ds = n.
Proof.
  unfold pads_to. intros [[H1 H2]%andb_prop H3]%andb_prop.
  split; [by apply String.eqb_eq|]. split; [by apply all_digits_Forall | lia].
Qed.

Lemma valid_date_bounds (d : Py.date) :
  Py.valid_date d = true →
  1 ≤ Py.year d ≤ 9999 ∧ 1 ≤ Py.month d ≤ 12 ∧
  1 ≤ Py.day d ≤ Py.days_in_month (Py.year d) (Py.month d).
Proof. unfold Py.valid_date. intros H. repeat (apply andb_prop in H as [H ?]). lia. Qed.

Lemma days_in_month_le y m : Py.days_in_month y m ≤ 31.
Proof.
  unfold Py.days_in_month.
  repeat (match goal with |- context [if ?b then _ else _] => destruct b end); lia.
Qed.

(** [date.fromisoformat(d.isoformat()) == d] *)
Lemma date_fromisoformat_isoformat (d : Py.date) :
  Py.valid_date d = true → Py.date_fromisoformat (Py.date_isoformat d) = Ok d.
Proof.
  intros Hv. destruct (valid_date_bounds d Hv) as (Hy & Hm & Hd).
  pose proof (days_in_month_le (Py.year d) (Py.month d)) as Hdim.
  destruct (pads_to_spec _ _ _ (zero_pad_4 (Py.year d) ltac:(lia))) as (Ey & Dy & Vy).
  destruct (pads_to_spec _ _ _ (zero_pad_2 (Py.month d) ltac:(lia))) as (Em & Dm & Vm).
  destruct (pads_to_spec _ _ _ (zero_pad_2 (Py.day d) ltac:(lia))) as (Ed & Dd & Vd).
  unfold Py.date_isoformat. rewrite Ey, Em, Ed.
  unfold four_digits, two_digits in *.
  inversion Dy as [|y1 ? Hy1 Dy1]; subst.
  inversion Dy1 as [|y2 ? Hy2 Dy2]; subst.
  inversion Dy2 as [|y3 ? Hy3 Dy3]; subst.
  inversion Dy3 as [|y4 ? Hy4 _]; subst.
  inversion Dm as [|m1 ? Hm1 Dm1]; subst. inversion Dm1 as [|m2 ? Hm2 _]; subst.
  inversion Dd as [|d1 ? Hd1 Dd1]; subst. inversion Dd1 as [|d2 ? Hd2 _]; subst.
  unfold Py.date_fromisoformat.
  cbv [String.append Py.string_of_digits fold_right].
  unfold Py.digits_opt. cbn [mapM].
  rewrite !digit_of_ascii_of_digit by done.
  cbn [mbind option_bind mret option_ret fmap option_fmap option_map].
  rewrite Vy, Vm, Vd. unfold Py.date_new.
  destruct d as [y m dd]; simpl in *.
  repeat (match goal with
          | |- context [negb (?a && ?b)] =>
              replace (a && b) with true by (symmetry; apply andb_true_intro; lia)
          end; cbn [negb]).
  done.
Qed.

End date_text.

(** ** Saving and loading again *)

Section save_load.
Implicit Types (e : Expense) (storage : FileStorage.t).

Lemma from_row_to_row e :
  Py.valid_date (Expense.date e) = true →
  Expense.from_row (Expense.to_row e) = Ok (reloaded e).
Proof.
  intros Hv. unfold Expense.from_row, Expense.to_row. simpl.
  rewrite int_of_str_of_int. simpl.
  rewrite (date_fromisoformat_isoformat _ Hv). simpl.
  by rewrite float_of_str_format_2f.
Qed.

Lemma well_formed_to_row e :
  Py.valid_date (Expense.date e) = true →
  well_formed (Expense.to_row e) = Some (reloaded e).
Proof. intros Hv. unfold well_formed. simpl. by rewrite (from_row_to_row _ Hv). Qed.

Lemma omap_cons_Some {A B} (f : A → option B) (x : A) (y : B) (l : list A) :
  f x = Some y → omap f (x :: l) = y :: omap f l.
Proof. intros H. change (omap f (x :: l)) with (from_option (λ y, y :: omap f l) (omap f l) (f x)). by rewrite H. Qed.

Lemma load_all_save_all storage (expenses : list Expense) :
  Forall (λ e, Py.valid_date (Expense.date e) = true) expenses →
  FileStorage.load_all (FileStorage.save_all storage expenses) = Ok (reloaded <$> expenses).
Proof.
  intros Hv. rewrite load_all_loaded by done. unfold loaded.
  cbn [FileStorage.contents FileStorage.save_all drop]. rewrite load_rows_spec.
  rewrite app_nil_l, drop_0. f_equal. induction Hv as [|e l He _ IH]; [done|].
  rewrite !fmap_cons, (omap_cons_Some _ _ _ _ (well_formed_to_row _ He)).
  f_equal. apply IH.
Qed.

End save_load.

(** ** Rounding to the nearest integer and to the nearest float *)

Section rounding.
Local Open Scope Z_scope.

Lemma div_rne_bounds (n d : Z) :
  0 < d → - d ≤ 2 * (n - Py.div_rne n d * d) ≤ d.
Proof.
  intros Hd. unfold Py.div_rne.
  pose proof (Z.div_mod n d ltac:(lia)) as Hdm.
  pose proof (Z.mod_pos_bound n d Hd) as Hm.
  destruct (Z.compare_spec (2 * (n mod d)) d) as [Heq|Hlt|Hgt];
    [destruct (Z.even (n / d))|..]; nia.
Qed.

Lemma div_rne_unique (n d q : Z) :
  0 < d → - d < 2 * (n - q * d) < d → Py.div_rne n d = q.
Proof.
  intros Hd Hq. unfold Py.div_rne.
  pose proof (Z.div_mod n d ltac:(lia)) as Hdm.
  pose proof (Z.mod_pos_bound n d Hd) as Hm.
  destruct (Z.compare_spec (2 * (n mod d)) d) as [Heq|Hlt|Hgt];
    [destruct (Z.even (n / d))|..]; nia.
Qed.

Lemma div_rne_exact (q d : Z) : 0 < d → Py.div_rne (q * d) d = q.
Proof. intros Hd. apply div_rne_unique; [done | lia]. Qed.

Lemma div_rne_scale (c n d : Z) :
  0 < c → 0 < d → Py.div_rne (c * n) (c * d) = Py.div_rne n d.
Proof.
  intros Hc Hd. unfold Py.div_rne.
  rewrite Z.div_mul_cancel_l by lia. rewrite Z.mul_mod_distr_l by lia.
  replace (2 * (c * (n mod d))) with (c * (2 * (n mod d))) by lia.
  assert ((c * (2 * (n mod d)) ?= c * d) = (2 * (n mod d) ?= d)) as ->; [|done].
  destruct (Z.compare_spec (2 * (n mod d)) d) as [Heq|Hlt|Hgt].
  - apply Z.compare_eq_iff. by rewrite Heq.
  - apply Z.compare_lt_iff. nia.
  - apply Z.compare_gt_iff. nia.
Qed.

Lemma pow2_pos (x : Z) : 0 ≤ x → 0 < 2 ^ x.
Proof. intros. apply Z.pow_pos_nonneg; lia. Qed.

Lemma pow2_add (x y : Z) : 0 ≤ x → 0 ≤ y → 2 ^ (x + y) = 2 ^ x * 2 ^ y.
Proof. intros. by apply Z.pow_add_r. Qed.

Lemma reaches_52_uniform (num den e K : Z) :
  0 < den → 0 ≤ K → 0 ≤ K - e →
  Py.reaches_52 num den e = true ↔ 2 ^ 52 * den * 2 ^ K ≤ num * 2 ^ (K - e).
Proof.
  intros Hden HK HKe. unfold Py.reaches_52.
  destruct (Z.leb_spec 0 e) as [He|He]; rewrite Z.leb_le.
  - replace K with (e + (K - e)) at 1 by lia. rewrite pow2_add by lia.
    pose proof (pow2_pos (K - e) HKe). pose proof (pow2_pos e He). nia.
  - replace (K - e) with (K + - e) by lia. rewrite pow2_add by lia.
    pose proof (pow2_pos K HK). pose proof (pow2_pos (- e) ltac:(lia)). nia.
Qed.

Lemma binade_uniform (num den K : Z) :
  0 < num → 0 < den → 0 ≤ K → 1 ≤ K - Py.binade_exponent num den →
  2 ^ 52 * den * 2 ^ K ≤ num * 2 ^ (K - Py.binade_exponent num den)
    < 2 ^ 53 * den * 2 ^ K.
Proof.
  intros Hnum Hden HK. unfold Py.binade_exponent.
  pose proof (Z.log2_spec num Hnum) as [HL1 HL2].
  pose proof (Z.log2_spec den Hden) as [HD1 HD2].
  pose proof (Z.log2_nonneg num) as HL. pose proof (Z.log2_nonneg den) as HD.
  set (L := Z.log2 num) in *. set (D := Z.log2 den) in *.
  set (e0 := L - D - 52).
  destruct (Py.reaches_52 num den e0) eqn:Hr; intros HKe.
  - apply (reaches_52_uniform num den e0 K) in Hr; [|lia..]. split; [done|].
    assert (2 ^ Z.succ L * 2 ^ (K - e0) = 2 ^ 53 * 2 ^ D * 2 ^ K) as Heq.
    { rewrite <- !pow2_add by lia. f_equal. lia. }
    pose proof (pow2_pos (K - e0) ltac:(lia)). pose proof (pow2_pos K HK).
    pose proof (pow2_pos D HD). nia.
  - assert (¬ 2 ^ 52 * den * 2 ^ K ≤ num * 2 ^ (K - e0)) as Hn.
    { intros H. apply (reaches_52_uniform num den e0 K) in H; [congruence|lia..]. }
    replace (K - (e0 - 1)) with (1 + (K - e0)) by lia. rewrite pow2_add by lia.
    assert (2 ^ L * (2 ^ 1 * 2 ^ (K - e0)) = 2 ^ 53 * 2 ^ D * 2 ^ K) as Heq.
    { rewrite <- !pow2_add by lia. f_equal. lia. }
    assert (2 ^ Z.succ D = 2 * 2 ^ D) as HDs by (rewrite Z.pow_succ_r; lia).
    pose proof (pow2_pos (K - e0) ltac:(lia)). pose proof (pow2_pos K HK).
    pose proof (pow2_pos D HD). change (2 ^ 1) with 2 in *. nia.
Qed.

(** The binade of [num / den], by the sign of its exponent. *)
Lemma binade_exponent_spec (num den : Z) :
  0 < num → 0 < den →
  let e := Py.binade_exponent num den in
  (0 ≤ e → 2 ^ 52 * den * 2 ^ e ≤ num < 2 ^ 53 * den * 2 ^ e) ∧
  (e < 0 → 2 ^ 52 * den ≤ num * 2 ^ (- e) < 2 ^ 53 * den).
Proof.
  intros Hnum Hden e. split; intros He.
  - pose proof (binade_uniform num den (e + 1) Hnum Hden ltac:(lia) ltac:(fold e; lia))
      as H.
    fold e in H. replace (e + 1 - e) with 1 in H by lia.
    rewrite pow2_add in H by lia. change (2 ^ 1) with 2 in H.
    pose proof (pow2_pos e He). nia.
  - pose proof (binade_uniform num den 1 Hnum Hden ltac:(lia) ltac:(fold e; lia)) as H.
    fold e in H. replace (1 - e) with (1 + - e) in H by lia.
    rewrite pow2_add in H by lia. change (2 ^ 1) with 2 in H.
    pose proof (pow2_pos (- e) ltac:(lia)). nia.
Qed.



Lemma round_ratio_unfold (s : bool) (num den : Z) :
  0 < num →
  Py.round_ratio s num den =
    let e := Z.max (Py.binade_exponent num den) (-1074) in
    let M := Py.scaled_rne num den e in
    if M =? 2 ^ 53 then
      if 971 <? e + 1 then S754_infinity s else S754_finite s (Z.to_pos (2 ^ 52)) (e + 1)
    else if M =? 0 then S754_zero s
    else if 971 <? e then S754_infinity s
    else S754_finite s (Z.to_pos M) e.
Proof.
  intros Hnum. unfold Py.round_ratio.
  destruct (Z.eqb_spec num 0) as [?|_]; [lia|]. cbv zeta.
  destruct (Py.scaled_rne _ _ _ =? 2 ^ 53); [|done].
  change (2 ^ 52 =? 0) with false. cbv iota. done.
Qed.

Lemma pow2_lt_inv (x y : Z) : 0 ≤ y → 2 ^ x < 2 ^ y → x < y.
Proof. intros Hy H. apply (Z.pow_lt_mono_r_iff 2); [lia | done | done]. Qed.


End rounding.

(** ** Stability of the two-decimal text *)

Section stability.
Local Open Scope Z_scope.






End stability.

Section claim_round_trip.
Implicit Types (e : Expense) (storage : FileStorage.t).








End claim_round_trip.

(** ** Order of floats *)

Section float_order.

Lemma fltb_irrefl (a : Py.float) : Py.fltb a a = false.
Proof.
  unfold Py.fltb, SFltb, SFcompare. destruct a as [s|s| |s m e]; try done; try by destruct s.
  rewrite Z.compare_refl, Pos.compare_cont_refl. by destruct s.
Qed.

Lemma fltb_trans (a b c : Py.float) :
  Py.fltb a b = true → Py.fltb b c = true → Py.fltb a c = true.
Proof.
  unfold Py.fltb, SFltb, SFcompare.
  destruct a as [sa|sa| |sa ma ea], b as [sb|sb| |sb mb eb], c as [sc|sc| |sc mc ec];
    try done;
    try (destruct sa, sb, sc; done).
  change (Pos.compare_cont Eq) with Pos.compare.
  destruct sa, sb, sc; try done.
  - destruct (Z.compare_spec ea eb), (Z.compare_spec eb ec), (Z.compare_spec ea ec);
      try done; try lia; subst;
      destruct (Pos.compare_spec ma mb), (Pos.compare_spec mb mc),
        (Pos.compare_spec ma mc); simpl; try done; lia.
  - destruct (Z.compare_spec ea eb), (Z.compare_spec eb ec), (Z.compare_spec ea ec);
      try done; try lia; subst;
      destruct (Pos.compare_spec ma mb), (Pos.compare_spec mb mc),
        (Pos.compare_spec ma mc); simpl; try done; lia.
Qed.

End float_order.

(** ** Monthly summary *)

Section summary.
Implicit Types (e : Expense) (d : list (string * Py.float)) (k c : string).
Local Open Scope Z_scope.

Lemma max_by_value_fold (rest seen : list (string * Py.float)) (best : string * Py.float) :
  best ∈ seen →
  (∀ it, it ∈ seen → Py.fltb best.2 it.2 = false) →
  let r := fold_left (λ best it, if Py.fltb best.2 it.2 then it else best) rest best in
  r ∈ seen ++ rest ∧ ∀ it, it ∈ seen ++ rest → Py.fltb r.2 it.2 = false.
Proof.
  revert seen best. induction rest as [|x rest IH]; intros seen best Hin Hmax.
  - simpl. rewrite app_nil_r. done.
  - cbn [fold_left]. replace (seen ++ x :: rest) with ((seen ++ [x]) ++ rest)
      by (by rewrite <- app_assoc).
    destruct (Py.fltb best.2 x.2) eqn:Hlt.
    + apply IH.
      * apply elem_of_app. right. by left.
      * intros it [Hit|Hit%list_elem_of_singleton]%elem_of_app.
        -- destruct (Py.fltb x.2 it.2) eqn:Hx; [|done].
           rewrite <- (Hmax it Hit). symmetry. by eapply fltb_trans.
        -- subst. apply fltb_irrefl.
    + apply IH.
      * apply elem_of_app. by left.
      * intros it [Hit|Hit%list_elem_of_singleton]%elem_of_app; [by apply Hmax|].
        by subst.
Qed.

Lemma max_by_value_spec (first : string * Py.float) (rest : list (string * Py.float)) :
  Analyzer.max_by_value first rest ∈ first :: rest ∧
  ∀ it, it ∈ first :: rest →
        Py.fltb (Analyzer.max_by_value first rest).2 it.2 = false.
Proof.
  apply (max_by_value_fold rest [first] first).
  - by left.
  - intros it ->%list_elem_of_singleton. apply fltb_irrefl.
Qed.

Lemma total_in_add_to d k a c :
  total_in (Analyzer.add_to d k a) c =
  if decide (c = k) then Py.fadd (total_in d k) a else total_in d c.
Proof.
  induction d as [|[k' v] d IH]; simpl.
  - destruct (decide (k = c)), (decide (c = k)); done || congruence.
  - destruct (decide (k' = k)) as [->|Hk]; simpl.
    + destruct (decide (k = c)), (decide (c = k)); done || congruence.
    + rewrite IH. destruct (decide (k' = c)), (decide (c = k)); done || congruence.
Qed.

Lemma keys_add_to d k a :
  (Analyzer.add_to d k a).*1 = if decide (k ∈ d.*1) then d.*1 else d.*1 ++ [k].
Proof.
  induction d as [|[k' v] d IH].
  - cbn [Analyzer.add_to fmap list_fmap].
    destruct (decide (k ∈ [])) as [H|_]; [by apply elem_of_nil in H | done].
  - cbn [Analyzer.add_to]. rewrite fmap_cons. cbn [fst].
    destruct (decide (k' = k)) as [->|Hk].
    + rewrite fmap_cons. cbn [fst].
      destruct (decide (k ∈ k :: d.*1)) as [_|H]; [done|]. exfalso. apply H. by left.
    + rewrite fmap_cons, IH. cbn [fst].
      destruct (decide (k ∈ d.*1)) as [Hin|Hin],
               (decide (k ∈ k' :: d.*1)) as [Hin'|Hin']; try done.
      * exfalso. apply Hin'. by right.
      * apply elem_of_cons in Hin' as [?|?]; done || congruence.
Qed.

Lemma elem_of_total_in d c v :
  NoDup d.*1 → (c, v) ∈ d ↔ c ∈ d.*1 ∧ v = total_in d c.
Proof.
  induction d as [|[k' v'] d IH]; simpl; intros Hnd.
  - split; [by intros ?%elem_of_nil | by intros [?%elem_of_nil _]].
  - apply NoDup_cons in Hnd as [Hnotin Hnd]. rewrite elem_of_cons, (IH Hnd).
    destruct (decide (k' = c)) as [->|Hk].
    + split.
      * intros [[= ->]|[Hin _]]; [split; [by left | done] | done].
      * intros [_ ->]. by left.
    + split.
      * intros [[= ? _]|[Hin ->]]; [congruence|]. split; [by right | done].
      * intros [[?|Hin]%elem_of_cons ->]; [congruence|]. by right.
Qed.

Lemma category_breakdown_snoc (expenses : list Expense) e :
  Analyzer.category_breakdown (expenses ++ [e]) =
  Analyzer.add_to (Analyzer.category_breakdown expenses)
    (Expense.category e) (Expense.amount e).
Proof. unfold Analyzer.category_breakdown. by rewrite fold_left_app. Qed.

Lemma category_total_snoc c (expenses : list Expense) e :
  category_total c (expenses ++ [e]) =
  if decide (c = Expense.category e)
  then Py.fadd (category_total c expenses) (Expense.amount e)
  else category_total c expenses.
Proof.
  unfold category_total. rewrite filter_app, fmap_app, fold_left_app.
  rewrite filter_cons, filter_nil.
  destruct (decide (Expense.category e = c)), (decide (c = Expense.category e));
    done || congruence.
Qed.

Lemma category_breakdown_spec (expenses : list Expense) :
  NoDup (Analyzer.category_breakdown expenses).*1 ∧
  (∀ c, c ∈ (Analyzer.category_breakdown expenses).*1 ↔ c ∈ Expense.category <$> expenses) ∧
  (∀ c, total_in (Analyzer.category_breakdown expenses) c = category_total c expenses).
Proof.
  induction expenses as [|e expenses IH] using rev_ind.
  - split; [constructor|]. split; [done|]. done.
  - destruct IH as (Hnd & Hkeys & Htot). rewrite category_breakdown_snoc, keys_add_to.
    split; [|split].
    + destruct (decide _) as [Hin|Hin]; [done|].
      apply NoDup_app. split; [done|]. split; [|apply NoDup_singleton].
      by intros c Hc ->%list_elem_of_singleton.
    + intros c. rewrite fmap_app, elem_of_app, <- Hkeys. simpl.
      rewrite list_elem_of_singleton.
      destruct (decide _) as [Hin|Hin].
      * split; [by left|]. intros [?| ->]; done.
      * rewrite elem_of_app, list_elem_of_singleton. done.
    + intros c. rewrite total_in_add_to, category_total_snoc, !Htot.
      destruct (decide (c = Expense.category e)) as [->|_]; done.
Qed.

Lemma size_list_to_set_dates (dates : list Py.date) :
  size (list_to_set dates : gset Py.date) = length (remove_dups dates).
Proof.
  rewrite <- (size_list_to_set (C := gset Py.date)) by apply NoDup_remove_dups.
  f_equal. apply set_eq. intros x.
  by rewrite !elem_of_list_to_set, elem_of_remove_dups.
Qed.

Lemma length_remove_dups_le {A} `{EqDecision A} (l : list A) :
  (length (remove_dups l) ≤ length l)%nat.
Proof.
  induction l as [|x l IH]; [done|]. simpl.
  destruct (decide_rel elem_of x l); simpl; lia.
Qed.

Lemma days_or_one_bounds (expenses : list Expense) :
  (1 ≤ days_or_one expenses)%nat ∧
  (days_or_one expenses ≤ Nat.max 1 (length expenses))%nat.
Proof.
  unfold days_or_one.
  pose proof (length_remove_dups_le (Expense.date <$> expenses)) as H.
  rewrite length_fmap in H.
  destruct (length (remove_dups (Expense.date <$> expenses))); lia.
Qed.

Lemma float_of_int_small (n : Z) :
  1 ≤ n < 2 ^ 63 →
  ∃ b, Py.float_of_int n = Ok b ∧ Py.is_zero b = false.
Proof.
  intros Hn. unfold Py.float_of_int.
  destruct (Z.ltb_spec n 0) as [?|_]; [lia|]. rewrite Z.abs_eq by lia.
  rewrite round_ratio_unfold by lia. cbv zeta.
  destruct (binade_exponent_spec n 1 ltac:(lia) ltac:(lia)) as [Hpos Hneg].
  set (E := Py.binade_exponent n 1) in *.
  assert (-53 < E < 11) as HE.
  { destruct (Z.lt_ge_cases E 0) as [HE|HE].
    - specialize (Hneg HE). split; [|lia].
      enough (- E < 53) by lia. apply pow2_lt_inv; [lia|].
      pose proof (pow2_pos (- E) ltac:(lia)). nia.
    - specialize (Hpos HE). split; [lia|].
      apply pow2_lt_inv; [lia|]. pose proof (pow2_pos E HE).
      change (2 ^ 11) with 2048. change (2 ^ 63) with (2 ^ 52 * 2048) in Hn. nia. }
  rewrite Z.max_l by lia.
  assert (2 ^ 52 ≤ Py.scaled_rne n 1 E) as HM.
  { unfold Py.scaled_rne. destruct (Z.leb_spec 0 E) as [HE0|HE0].
    - specialize (Hpos HE0). pose proof (pow2_pos E HE0).
      pose proof (div_rne_bounds n (1 * 2 ^ E) ltac:(lia)). nia.
    - specialize (Hneg HE0). rewrite <- (Z.mul_1_r (n * 2 ^ (- E))) at 1.
      rewrite div_rne_exact by lia. lia. }
  destruct (Py.scaled_rne n 1 E =? 2 ^ 53).
  - destruct (Z.ltb_spec 971 (E + 1)) as [?|_]; [lia|]. by eexists.
  - destruct (Z.eqb_spec (Py.scaled_rne n 1 E) 0) as [?|_]; [lia|].
    destruct (Z.ltb_spec 971 E) as [?|_]; [lia|]. by eexists.
Qed.

Lemma sum_amounts_fold (expenses : list Expense) :
  Analyzer.sum_amounts expenses = fold_left Py.fadd (Expense.amount <$> expenses) Py.fzero.
Proof.
  unfold Analyzer.sum_amounts. generalize Py.fzero.
  induction expenses as [|e l IH]; intros acc; [done|]. simpl. apply IH.
Qed.

End summary.

Section claim_summary.
Implicit Types (e : Expense) (c : string).
Local Open Scope Z_scope.

(** What [monthly_summary] returns on the lists of records whose categories
    are not empty (and of a length a Python list can have): its total is
    the sum of the amounts; its average per day is the total divided by the
    number of distinct dates, or by 1 when there is none, so the divisor is
    never zero; on a non-empty list its top category is a category of the
    list whose summed amount is reported with it and is exceeded by the
    summed amount of no category; on the empty list it returns total 0,
    average 0 and the top category ["N/A"] with amount 0. *)
Theorem monthly_summary_spec (expenses : list Expense) :
  (∀ e, e ∈ expenses → Expense.category e ≠ "") →
  Z.of_nat (length expenses) < 2 ^ 63 →
  ∃ s divisor,
    Analyzer.monthly_summary expenses = Ok s ∧
    Analyzer.total s = fold_left Py.fadd (Expense.amount <$> expenses) Py.fzero ∧
    Py.float_of_int (Z.of_nat (days_or_one expenses)) = Ok divisor ∧
    Py.is_zero divisor = false ∧
    (1 ≤ days_or_one expenses)%nat ∧
    Analyzer.avg_per_day s = Py.fdiv (Analyzer.total s) divisor ∧
    (expenses = [] → s = Analyzer.Summary Py.fzero Py.fzero Py.fzero "N/A") ∧
    (expenses ≠ [] →
       Analyzer.top_category s ∈ Expense.category <$> expenses ∧
       Analyzer.top_category_amount s =
         category_total (Analyzer.top_category s) expenses ∧
       ∀ c, c ∈ Expense.category <$> expenses →
            Py.fltb (Analyzer.top_category_amount s) (category_total c expenses) = false).
Proof.
  intros Hcat Hlen.
  destruct (days_or_one_bounds expenses) as [Hd1 Hd2].
  destruct (float_of_int_small (Z.of_nat (days_or_one expenses)) ltac:(lia))
    as (divisor & Hdiv & Hnz).
  unfold Analyzer.monthly_summary.
  rewrite size_list_to_set_dates.
  assert ((if decide (length (remove_dups (Expense.date <$> expenses)) = 0%nat)
           then 1%nat else length (remove_dups (Expense.date <$> expenses)))
          = days_or_one expenses) as ->.
  { unfold days_or_one.
    by destruct (length (remove_dups (Expense.date <$> expenses))). }
  unfold Py.truediv_int. rewrite Hdiv. simpl. rewrite Hnz. simpl.
  destruct (category_breakdown_spec expenses) as (Hnd & Hkeys & Htot).
  destruct (Analyzer.category_breakdown expenses) as [|first rest] eqn:Hcb.
  - (* no category: the list is empty *)
    assert (expenses = []) as ->.
    { destruct expenses as [|e l]; [done|]. exfalso.
      apply (not_elem_of_nil (Expense.category e)), Hkeys. by left. }
    eexists _, divisor. split; [reflexivity|]. simpl.
    split; [done|]. split; [done|]. split; [done|]. split; [done|].
    split; [done|]. split; [|done]. intros _.
    injection Hdiv as <-. done.
  - pose proof (max_by_value_spec first rest) as [Hin Hmax].
    set (best := Analyzer.max_by_value first rest) in *.
    assert (best.1 ∈ Expense.category <$> expenses ∧
            best.2 = category_total best.1 expenses) as [Hbest_in Hbest_total].
    { rewrite <- Hkeys, <- Htot. apply elem_of_total_in; [done|]. by destruct best. }
    assert (best.1 ≠ "") as Hne.
    { apply list_elem_of_fmap in Hbest_in as (e & -> & He). by apply Hcat. }
    eexists _, divisor. split; [reflexivity|]. simpl.
    rewrite decide_False by done.
    split; [apply sum_amounts_fold|]. split; [done|]. split; [done|].
    split; [done|]. split; [done|].
    split; [by intros ->|]. intros _.
    split; [done|]. split; [done|].
    intros c Hc. apply Hkeys in Hc.
    assert ((c, total_in (first :: rest) c) ∈ first :: rest) as Hcin
      by (by apply elem_of_total_in).
    rewrite <- Htot. apply (Hmax _ Hcin).
Qed.

Lemma monthly_summary_spec_witness :
  (∀ e, e ∈ sample_records → Expense.category e ≠ "") ∧
  Z.of_nat (length sample_records) < 2 ^ 63 ∧
  ∃ s divisor,
    Analyzer.monthly_summary sample_records = Ok s ∧
    Analyzer.total s = fold_left Py.fadd (Expense.amount <$> sample_records) Py.fzero ∧
    Py.float_of_int (Z.of_nat (days_or_one sample_records)) = Ok divisor ∧
    Py.is_zero divisor = false ∧
    (1 ≤ days_or_one sample_records)%nat ∧
    Analyzer.avg_per_day s = Py.fdiv (Analyzer.total s) divisor ∧
    (sample_records = [] → s = Analyzer.Summary Py.fzero Py.fzero Py.fzero "N/A") ∧
    (sample_records ≠ [] →
       Analyzer.top_category s ∈ Expense.category <$> sample_records ∧
       Analyzer.top_category_amount s =
         category_total (Analyzer.top_category s) sample_records ∧
       ∀ c, c ∈ Expense.category <$> sample_records →
            Py.fltb (Analyzer.top_category_amount s) (category_total c sample_records)
            = false).
Proof.
  assert (H1 : ∀ e, e ∈ sample_records → Expense.category e ≠ "").
  { intros e He. unfold sample_records in He.
    repeat (apply elem_of_cons in He as [->|He]; [done|]).
    by apply elem_of_nil in He. }
  assert (H2 : Z.of_nat (length sample_records) < 2 ^ 63) by (by vm_compute).
  split; [exact H1|]. split; [exact H2|].
  apply (monthly_summary_spec sample_records H1 H2).
Defined.

(** The summary of the sample records and of no record at all. *)
Example monthly_summary_sample :
  (∃ s, Analyzer.monthly_summary sample_records = Ok s ∧
        Py.format_2f (Analyzer.total s) = "812.50" ∧
        Py.format_2f (Analyzer.avg_per_day s) = "406.25" ∧
        Analyzer.top_category s = "Rent" ∧
        Py.format_2f (Analyzer.top_category_amount s) = "800.00") ∧
  Analyzer.monthly_summary [] =
    Ok (Analyzer.Summary Py.fzero Py.fzero Py.fzero "N/A").
Proof. split; [eexists; split; [vm_compute; reflexivity|] |]; by vm_compute. Qed.

(** C8.  On a record whose category is the empty string, which a manager
    loads from its file like any other, [monthly_summary] reports the top
    category ["N/A"], the value kept for the empty list, together with the
    amount of that record; and so it does whenever the category with the
    largest sum is the empty one. *)
Theorem monthly_summary_empty_category :
  FileStorage.load_all store_without_category = Ok [record_without_category] ∧
  Analyzer.category_breakdown [record_without_category] = [("", twelve_and_a_half)] ∧
  Analyzer.monthly_summary [record_without_category] =
    Ok (Analyzer.Summary twelve_and_a_half twelve_and_a_half twelve_and_a_half "N/A") ∧
  Analyzer.category_breakdown [record_without_category; record_of_food] =
    [("", twelve_and_a_half); ("Food", one)] ∧
  (∃ s, Analyzer.monthly_summary [record_without_category; record_of_food] = Ok s ∧
        Analyzer.top_category s = "N/A" ∧
        Analyzer.top_category_amount s = twelve_and_a_half) ∧
  Analyzer.monthly_summary [] =
    Ok (Analyzer.Summary Py.fzero Py.fzero Py.fzero "N/A").
Proof.
  split; [by vm_compute|]. split; [by vm_compute|]. split; [by vm_compute|].
  split; [by vm_compute|]. split; [|by vm_compute].
  eexists. split; [vm_compute; reflexivity|]. by split.
Qed.

End claim_summary.

(** ** The messages of the import validation *)

Lemma float_of_str_raise s e :
  Py.float_of_str s = Raise e →
  e = ValueError ("could not convert string to float: " +:+ Py.repr_str s).
Proof.
  unfold Py.float_of_str. repeat case_match; try discriminate. by intros [= <-].
Qed.

(** X1.  The message that [validate_expenses] gives for a row, by the first
    check that fails: a missing key is reported by its quoted name; a date
    text that does not parse as an invalid date format; an amount text that
    is not a number is reported as an invalid date format too, with the
    reason of [float()]; an amount [<= 0], a blank category and a blank
    description by their own messages; a category that is not a text (the
    float that an empty cell of the data frame gives) by the missing
    attribute [strip].  A row that passes gives no message. *)
Theorem validate_expenses_messages (i : nat) (row : gmap string Py.pyval) :
  (∀ rows,
     (BulkImport.validate_expenses rows).2 =
     omap id (imap (λ k expense, row_error (S k) expense) rows)) ∧
  (row !! "date" = None →
   row_error i row = Some (BulkImport.row_label i +:+ "'date'")) ∧
  (∀ date_s e,
     row !! "date" = Some (Py.PStr date_s) → Py.date_fromisoformat date_s = Raise e →
     row_error i row =
       Some (BulkImport.row_label i +:+ "Invalid date format - " +:+ exn_str e)) ∧
  (∀ date_s date,
     row !! "date" = Some (Py.PStr date_s) → Py.date_fromisoformat date_s = Ok date →
     (row !! "amount" = None →
      row_error i row = Some (BulkImport.row_label i +:+ "'amount'")) ∧
     (∀ amount_s e,
        row !! "amount" = Some (Py.PStr amount_s) → Py.float_of_str amount_s = Raise e →
        row_error i row =
          Some (BulkImport.row_label i +:+ "Invalid date format - " +:+
                ("could not convert string to float: " +:+ Py.repr_str amount_s))) ∧
     (∀ amount_v amount,
        row !! "amount" = Some amount_v → Py.float_of amount_v = Ok amount →
        (Py.fleb amount Py.fzero = true →
         row_error i row = Some (BulkImport.row_label i +:+ "Amount must be positive")) ∧
        (Py.fleb amount Py.fzero = false →
         (∀ v, row !! "category" = Some v → (∀ s, v ≠ Py.PStr s) →
               row_error i row =
                 Some (BulkImport.row_label i +:+
                       (Py.repr_str (Py.type_name v) +:+
                        " object has no attribute 'strip'"))) ∧
         (∀ category_s,
            row !! "category" = Some (Py.PStr category_s) →
            (Py.strip category_s = "" →
             row_error i row =
               Some (BulkImport.row_label i +:+ "Category cannot be empty")) ∧
            (Py.strip category_s ≠ "" →
             ∀ description_s,
               row !! "description" = Some (Py.PStr description_s) →
               (Py.strip description_s = "" →
                row_error i row =
                  Some (BulkImport.row_label i +:+ "Item/Description cannot be empty")) ∧
               (Py.strip description_s ≠ "" → row_error i row = None)))))).
Proof.
  split.
  { intros rows. unfold BulkImport.validate_expenses. by rewrite validate_loop_spec. }
  unfold row_error, BulkImport.check_row, Py.getitem.
  split; [by intros ->|]. split.
  { intros date_s e -> He. cbn [mbind result_bind mret result_ret Py.date_fromisoformat_of].
    rewrite He. cbn [mbind result_bind mret result_ret].
    by rewrite (date_fromisoformat_raises _ _ He). }
  intros date_s date -> Hdate.
  cbn [mbind result_bind mret result_ret Py.date_fromisoformat_of]. rewrite Hdate.
  cbn [mbind result_bind mret result_ret].
  split; [by intros ->|]. split.
  { intros amount_s e -> He. cbn [mbind result_bind mret result_ret Py.float_of].
    rewrite He. cbn [mbind result_bind mret result_ret].
    by rewrite (float_of_str_raise _ _ He). }
  intros amount_v amount -> Hamount.
  cbn [mbind result_bind mret result_ret]. rewrite Hamount.
  cbn [mbind result_bind mret result_ret].
  split; [by intros ->|]. intros ->. split.
  { intros v -> Hv. cbn [mbind result_bind mret result_ret].
    destruct v as [| | | |s]; try done. by destruct (Hv s). }
  intros category_s ->. cbn [mbind result_bind mret result_ret Py.strip_of].
  split.
  { intros Hc. by destruct (decide _). }
  intros Hc. destruct (decide _) as [|_]; [done|].
  intros description_s ->. cbn [mbind result_bind mret result_ret Py.strip_of].
  split; intros Hd; by destruct (decide _).
Qed.

(** ** The import pipeline: validation followed by the bulk add *)

Lemma row_passes_coerces row :
  row_passes row →
  ∃ date category description amount,
    row_coerces_to row date category description amount ∧
    category ≠ "" ∧ description ≠ "" ∧ Py.fleb amount Py.fzero = false.
Proof.
  intros (date_s & category_s & description_s & amount_v & amount &
          Hd & Hdate & Ha & Hamount & Hpos & Hc & Hcat & Hde & Hdesc).
  destruct (Py.date_fromisoformat date_s) as [date|] eqn:Hparse; [|done].
  exists date, (Py.strip category_s), (Py.strip description_s), amount.
  split; [|done].
  exists date_s, category_s, description_s, amount_v. by rewrite Hparse.
Qed.

Lemma bulk_records_all rows next_id :
  Forall row_passes rows →
  Forall2 (λ row e,
             row_coerces_to row (Expense.date e) (Expense.category e)
               (Expense.description e) (Expense.amount e) ∧
             Expense.category e ≠ "" ∧ Expense.description e ≠ "" ∧
             Py.fleb (Expense.amount e) Py.fzero = false)
    rows (bulk_records rows next_id).
Proof.
  intros Hrows. revert next_id.
  induction Hrows as [|row rows Hrow _ IH]; intros next_id; simpl; [constructor|].
  destruct (row_passes_coerces row Hrow)
    as (date & category & description & amount & Hco & ? & ? & ?).
  pose proof Hco as Hco'. apply coerce_Ok in Hco'. rewrite Hco'.
  constructor; [done|apply IH].
Qed.

(** X2.  Every row that [validate_expenses] returns as valid is added by
    [bulk_add_expenses]: none is skipped, the records appended correspond
    to the valid rows one by one, and each of them has a category and a
    description that are not empty and an amount that is not [<= 0]. *)
Theorem validated_rows_are_all_added self (expenses : list (gmap string Py.pyval)) :
  let valid := (BulkImport.validate_expenses expenses).1 in
  let r := SectionManager.bulk_add_expenses self valid in
  let added := drop (length (SectionManager.expenses self)) (SectionManager.expenses r.1) in
  r.2 = (length valid, 0) ∧
  SectionManager.expenses r.1 = SectionManager.expenses self ++ added ∧
  length added = length valid ∧
  Forall2 (λ row e,
             row_coerces_to row (Expense.date e) (Expense.category e)
               (Expense.description e) (Expense.amount e) ∧
             Expense.category e ≠ "" ∧ Expense.description e ≠ "" ∧
             Py.fleb (Expense.amount e) Py.fzero = false)
    valid added.
Proof.
  intros valid r added.
  assert (Hvalid : Forall row_passes valid).
  { subst valid. unfold BulkImport.validate_expenses.
    rewrite validate_loop_spec. simpl.
    apply Forall_forall. intros row Hin.
    apply list_elem_of_filter in Hin as [Hok _].
    by apply (check_row_passes 0), row_ok_check_row. }
  pose proof (bulk_records_all valid (SectionManager.next_id self) Hvalid) as Hall.
  destruct (bulk_add_expenses_spec self valid) as (Hexp & _ & _ & Hres).
  fold r in Hexp, Hres.
  assert (Hadded : added = bulk_records valid (SectionManager.next_id self)).
  { subst added. rewrite Hexp. by rewrite drop_app_length. }
  pose proof (Forall2_length _ _ _ Hall) as Hlen.
  rewrite Hadded. repeat split; try done.
  rewrite Hres. f_equal; lia.
Qed.

(** X3.  A successful [parse_csv_file] returns one dictionary per line of
    the data frame, in order, and each dictionary has exactly the keys
    [date], [category], [description] and [amount], the amount being a
    [float]. *)
Theorem parse_csv_file_rows (read_csv : result (list (gmap string Py.pyval)))
    (expenses : list (gmap string Py.pyval)) :
  BulkImport.parse_csv_file read_csv = Ok expenses →
  ∃ df, read_csv = Ok df ∧
    length expenses = length df ∧
    Forall2 (λ row expense,
               expense !! "date" = Some (BulkImport.get row "date" (Py.PStr "")) ∧
               ∃ amount, Py.float_of (amount_cell row) = Ok amount ∧
                         expense !! "amount" = Some (Py.PFloat amount))
      df expenses ∧
    Forall (λ expense,
              dom expense = ({[ "date"; "category"; "description"; "amount" ]} : gset string))
      expenses.
Proof.
  unfold BulkImport.parse_csv_file, try_except.
  destruct read_csv as [df|e]; simpl; [|done].
  destruct (mapM BulkImport.parse_row df) as [rows|e] eqn:Hmap; simpl; [|done].
  intros [= <-]. exists df. split; [done|].
  apply mapM_Ok in Hmap.
  split; [symmetry; by eapply Forall2_length|].
  split.
  - eapply Forall2_impl; [exact Hmap|].
    intros row d Hd. apply parse_row_Ok in Hd as (amount & Hamount & ->).
    split; [by rewrite lookup_insert_eq|].
    exists amount. split; [done|].
    rewrite !lookup_insert_ne by done. by rewrite lookup_singleton_eq.
  - induction Hmap as [|row d df' rows' Hd _ IH]; constructor; [|done].
    apply parse_row_Ok in Hd as (amount & _ & ->).
    rewrite !dom_insert_L, dom_singleton_L. set_solver.
Qed.

Lemma parse_csv_file_rows_witness :
  BulkImport.parse_csv_file (Ok sample_frame) = Ok sample_parsed ∧
  ∃ df, Ok sample_frame = Ok df ∧
    length sample_parsed = length df ∧
    Forall2 (λ row expense,
               expense !! "date" = Some (BulkImport.get row "date" (Py.PStr "")) ∧
               ∃ amount, Py.float_of (amount_cell row) = Ok amount ∧
                         expense !! "amount" = Some (Py.PFloat amount))
      df sample_parsed ∧
    Forall (λ expense,
              dom expense = ({[ "date"; "category"; "description"; "amount" ]} : gset string))
      sample_parsed.
Proof.
  assert (H : BulkImport.parse_csv_file (Ok sample_frame) = Ok sample_parsed).
  { vm_compute. reflexivity. }
  split; [exact H|].
  exact (parse_csv_file_rows (Ok sample_frame) sample_parsed H).
Defined.

(** ** The manager over sequences of calls: categories and the file *)

Lemma list_insert_elem {A} (l : list A) (i : nat) (x y : A) :
  y ∈ <[ i := x ]> l → y = x ∨ y ∈ l.
Proof.
  revert i. induction l as [|a l IH]; intros [|i]; simpl; intros Hin;
    try (by right).
  - apply elem_of_cons in Hin as [->|Hin]; [by left|].
    right. by apply list_elem_of_further.
  - apply elem_of_cons in Hin as [->|Hin]; [right; apply list_elem_of_here|].
    destruct (IH _ Hin) as [->|H]; [by left|].
    right. by apply list_elem_of_further.
Qed.

Lemma filter_length_eq {A} (P : A → Prop) `{!∀ x, Decision (P x)} (l : list A) :
  ¬ length (filter P l) < length l → filter P l = l.
Proof.
  induction l as [|a l IH]; [done|].
  rewrite filter_cons. destruct (decide (P a)) as [Ha|Ha]; simpl; intros Hlen.
  - f_equal. apply IH. lia.
  - pose proof (length_filter P l). lia.
Qed.

Lemma init_unfold storage :
  readable (FileStorage.contents storage) = true →
  SectionManager.init storage =
  Ok (SectionManager.Build storage (loaded storage)
        (SectionManager._compute_next_id (loaded storage))
        (if decide ((list_to_set (Expense.category <$> loaded storage) : gset string) = ∅)
         then SectionManager.default_categories
         else list_to_set (Expense.category <$> loaded storage))).
Proof. intros Hread. unfold SectionManager.init. by rewrite load_all_loaded. Qed.

Lemma init_covers storage self :
  SectionManager.init storage = Ok self →
  ∀ e, e ∈ SectionManager.expenses self →
       Expense.category e ∈ SectionManager.categories self.
Proof.
  intros [_ ->]%init_Ok e He. simpl in *.
  assert (Hin : Expense.category e ∈
            (list_to_set (Expense.category <$> loaded storage) : gset string)).
  { apply elem_of_list_to_set. by apply list_elem_of_fmap_2. }
  destruct (decide _) as [Hempty|_]; [|done].
  rewrite Hempty in Hin. set_solver.
Qed.

Lemma step_covers self c :
  (∀ e, e ∈ SectionManager.expenses self →
        Expense.category e ∈ SectionManager.categories self) →
  ∀ e, e ∈ SectionManager.expenses (Session.step self c) →
       Expense.category e ∈ SectionManager.categories (Session.step self c).
Proof.
  intros Hcov e.
  destruct c as [date category description amount | expenses_data
                | expense_id date category description amount | expense_id | category].
  - simpl. intros [He|He]%elem_of_app.
    + apply elem_of_union_r. by apply Hcov.
    + apply list_elem_of_singleton in He as ->. simpl. set_solver.
  - simpl. destruct (bulk_add_expenses_spec self expenses_data) as (-> & _ & -> & _).
    intros [He|He]%elem_of_app.
    + apply elem_of_union_r. by apply Hcov.
    + apply elem_of_union_l, elem_of_list_to_set. by apply list_elem_of_fmap_2.
  - simpl. unfold SectionManager.update_expense.
    destruct (SectionManager.find_id _ _) as [i|]; simpl; [|by apply Hcov].
    intros [->|He]%list_insert_elem; simpl; [set_solver|].
    apply elem_of_union_r. by apply Hcov.
  - simpl. rewrite delete_expense_expenses.
    intros [_ He]%list_elem_of_filter.
    unfold SectionManager.delete_expense.
    destruct (decide _); simpl; by apply Hcov.
  - simpl. intros He. apply elem_of_union_r. by apply Hcov.
Qed.

Lemma run_covers calls self :
  (∀ e, e ∈ SectionManager.expenses self →
        Expense.category e ∈ SectionManager.categories self) →
  ∀ e, e ∈ SectionManager.expenses (Session.run self calls) →
       Expense.category e ∈ SectionManager.categories (Session.run self calls).
Proof.
  revert self. induction calls as [|c calls IH]; intros self Hcov; [done|].
  change (Session.run self (c :: calls)) with (Session.run (Session.step self c) calls).
  apply IH. by apply step_covers.
Qed.

(** X4.  After the manager is created and after any sequence of calls on
    it, the category of every record it holds is among the categories that
    [get_categories] returns. *)
Theorem stored_categories_are_listed (storage : FileStorage.t) self
    (calls : list Session.call) :
  SectionManager.init storage = Ok self →
  ∀ e, e ∈ SectionManager.get_all (Session.run self calls) →
       Expense.category e ∈ SectionManager.get_categories (Session.run self calls).
Proof.
  intros Hinit e He. apply elem_of_get_categories.
  apply run_covers; [|done]. by eapply init_covers.
Qed.

Lemma stored_categories_are_listed_witness :
  SectionManager.init two_records = Ok (SectionManager.Build two_records sample_records
    3 {[ "Food"; "Rent" ]}) ∧
  ∀ e,
    e ∈ SectionManager.get_all
          (Session.run (SectionManager.Build two_records sample_records 3
                          {[ "Food"; "Rent" ]}) sample_calls) →
    Expense.category e ∈
      SectionManager.get_categories
        (Session.run (SectionManager.Build two_records sample_records 3
                        {[ "Food"; "Rent" ]}) sample_calls).
Proof.
  assert (Hinit : SectionManager.init two_records =
                  Ok (SectionManager.Build two_records sample_records 3
                        {[ "Food"; "Rent" ]})).
  { rewrite init_unfold by done. vm_compute. reflexivity. }
  split; [exact Hinit|].
  exact (stored_categories_are_listed two_records _ sample_calls Hinit).
Defined.

Lemma step_storage self c :
  (SectionManager.storage (Session.step self c) = SectionManager.storage self ∧
   SectionManager.expenses (Session.step self c) = SectionManager.expenses self) ∨
  (FileStorage.writes (SectionManager.storage (Session.step self c)) =
     S (FileStorage.writes (SectionManager.storage self)) ∧
   synced (Session.step self c)).
Proof.
  destruct c as [date category description amount | expenses_data
                | expense_id date category description amount | expense_id | category].
  - right. by split.
  - simpl. pose proof (bulk_add_expenses_storage self expenses_data) as Hst.
    destruct (bulk_add_expenses_spec self expenses_data) as (Hexp & _ & _ & Hres).
    cbv zeta in Hst. rewrite Hres in Hst. simpl in Hst.
    destruct (decide (0 < length _)) as [Hpos|Hzero].
    + right. unfold synced. rewrite Hst. by split.
    + left. split; [done|]. rewrite Hexp.
      destruct (bulk_records _ _); [by rewrite app_nil_r|simpl in Hzero; lia].
  - simpl. unfold SectionManager.update_expense.
    destruct (SectionManager.find_id _ _) as [i|]; simpl; [right|left]; by split.
  - simpl. unfold SectionManager.delete_expense.
    destruct (decide _) as [Hlt|Hge]; simpl; [right; by split|left].
    split; [done|]. by apply filter_length_eq.
  - left. by split.
Qed.

Lemma run_storage calls self :
  (SectionManager.storage (Session.run self calls) = SectionManager.storage self ∧
   SectionManager.expenses (Session.run self calls) = SectionManager.expenses self) ∨
  (FileStorage.writes (SectionManager.storage self) <
     FileStorage.writes (SectionManager.storage (Session.run self calls)) ∧
   synced (Session.run self calls)).
Proof.
  revert self. induction calls as [|c calls IH]; intros self; [by left|].
  change (Session.run self (c :: calls)) with (Session.run (Session.step self c) calls).
  destruct (IH (Session.step self c)) as [[Hst Hexp]|[Hlt Hsync]];
    destruct (step_storage self c) as [[Hst' Hexp']|[Hw Hsync']].
  - left. split; congruence.
  - right. split; [rewrite Hst; lia|].
    unfold synced in *. by rewrite Hst, Hexp.
  - right. split; [by rewrite <- Hst'|done].
  - right. split; [lia|done].
Qed.

(** X5.  Over any sequence of calls the file never lags behind the list in
    memory: either no call has written it and the list in memory is still
    the one the sequence started from, or it has been written and it holds
    exactly the header row and one row per record in memory, in order.  A
    call that changes nothing ([delete_expense] or [update_expense] of an
    unknown id, a bulk add that adds no row, [add_category]) writes
    nothing. *)
Theorem file_follows_memory self (calls : list Session.call) :
  let self' := Session.run self calls in
  ((SectionManager.storage self' = SectionManager.storage self ∧
    SectionManager.get_all self' = SectionManager.get_all self) ∨
   (FileStorage.writes (SectionManager.storage self) <
      FileStorage.writes (SectionManager.storage self') ∧
    FileStorage.contents (SectionManager.storage self') =
      FileStorage.Present
        (FileStorage.headers :: (Expense.to_row <$> SectionManager.get_all self')))) ∧
  (∀ expense_id,
     (∀ e, e ∈ SectionManager.get_all self → Expense.id e ≠ expense_id) →
     SectionManager.storage (Session.step self (Session.DeleteExpense expense_id)) =
       SectionManager.storage self ∧
     ∀ date category description amount,
       SectionManager.storage
         (Session.step self
            (Session.UpdateExpense expense_id date category description amount)) =
       SectionManager.storage self) ∧
  (∀ expenses_data,
     (SectionManager.bulk_add_expenses self expenses_data).2.1 = 0 →
     SectionManager.storage (Session.step self (Session.BulkAddExpenses expenses_data)) =
       SectionManager.storage self) ∧
  (∀ category,
     SectionManager.storage (Session.step self (Session.AddCategory category)) =
       SectionManager.storage self).
Proof.
  intros self'. split; [exact (run_storage calls self)|].
  split; [|split].
  - intros expense_id Hnone. split.
    + simpl. unfold SectionManager.delete_expense.
      destruct (decide _) as [Hlt|Hge]; simpl; [|done].
      apply filter_length_lt_iff in Hlt as (e & He & Hid).
      exfalso. apply Hid. by apply Hnone.
    + intros date category description amount. simpl.
      unfold SectionManager.update_expense.
      apply find_id_None in Hnone. unfold SectionManager.get_all in Hnone.
      by rewrite Hnone.
  - intros expenses_data Hzero. simpl.
    pose proof (bulk_add_expenses_storage self expenses_data) as Hst.
    cbv zeta in Hst. rewrite Hst, Hzero. by destruct (decide _) as [H|H]; [lia|].
  - done.
Qed.

(** ** Restarting the program on the file that the manager wrote *)

Lemma date_new_valid y m d date :
  Py.date_new y m d = Ok date → Py.valid_date date = true.
Proof.
  unfold Py.date_new, Py.valid_date.
  destruct ((1 <=? y)%Z && (y <=? 9999)%Z) eqn:Hy; simpl; [|done].
  destruct ((1 <=? m)%Z && (m <=? 12)%Z) eqn:Hm; simpl; [|done].
  destruct ((1 <=? d)%Z && (d <=? Py.days_in_month y m)%Z) eqn:Hd; simpl; [|done].
  intros [= <-]. simpl.
  apply andb_prop in Hy as [-> ->], Hm as [-> ->], Hd as [-> ->]. done.
Qed.

Lemma date_fromisoformat_valid s date :
  Py.date_fromisoformat s = Ok date → Py.valid_date date = true.
Proof.
  unfold Py.date_fromisoformat. intros H.
  repeat case_match; try discriminate. by eapply date_new_valid.
Qed.

Lemma Forall_omap {A B} (f : A → option B) (P : B → Prop) (l : list A) :
  (∀ x y, f x = Some y → P y) → Forall P (omap f l).
Proof.
  intros Hf. induction l as [|x l IH]; simpl; [constructor|].
  destruct (f x) as [y|] eqn:Hx; [constructor; eauto|done].
Qed.

Lemma loaded_valid_dates storage :
  Forall (λ e, Py.valid_date (Expense.date e) = true) (loaded storage).
Proof.
  unfold loaded.
  destruct (FileStorage.contents storage) as [|rows|e]; [constructor| |constructor].
  rewrite load_rows_spec. simpl. apply Forall_omap.
  intros row e. unfold well_formed.
  destruct (decide (length row = 5)) as [Hlen|]; [|done].
  destruct (Expense.from_row row) as [e'|] eqn:Hrow; [|done].
  intros [= ->]. apply from_row_Ok in Hrow as (f0 & f1 & f2 & f3 & f4 & _ & _ & Hd & _);
    [|done].
  by eapply date_fromisoformat_valid.
Qed.

Lemma loaded_save_all storage (expenses : list Expense) :
  Forall (λ e, Py.valid_date (Expense.date e) = true) expenses →
  loaded (FileStorage.save_all storage expenses) = reloaded <$> expenses.
Proof.
  intros Hv. pose proof (load_all_save_all storage expenses Hv) as H.
  rewrite load_all_loaded in H by done. by injection H.
Qed.

Lemma loaded_synced self :
  synced self →
  Forall (λ e, Py.valid_date (Expense.date e) = true) (SectionManager.expenses self) →
  loaded (SectionManager.storage self) = reloaded <$> SectionManager.expenses self.
Proof.
  intros Hsync Hv.
  rewrite <- (loaded_save_all (SectionManager.storage self)) by done.
  unfold loaded. by rewrite Hsync.
Qed.

Lemma ids_reloaded (expenses : list Expense) :
  Expense.id <$> (reloaded <$> expenses) = Expense.id <$> expenses.
Proof. induction expenses as [|e l IH]; simpl; [done|]. by f_equal. Qed.

Lemma categories_reloaded (expenses : list Expense) :
  Expense.category <$> (reloaded <$> expenses) = Expense.category <$> expenses.
Proof. induction expenses as [|e l IH]; simpl; [done|]. by f_equal. Qed.

Lemma list_to_set_empty_nil (l : list string) :
  (list_to_set l : gset string) = ∅ ↔ l = [].
Proof.
  split; [|by intros ->].
  destruct l as [|x l]; [done|]. simpl. intros H.
  assert (x ∈ (∅ : gset string)) by (rewrite <- H; set_solver). set_solver.
Qed.

(** X6.  When the program is started again on a file that the manager has
    written, the new manager holds the same records in the same order, each
    with its amount read back from two decimals, and the same ids.  The
    known categories are not stored: the new manager offers the categories
    of these records, or the six defaults when there is none, so a category
    added with [add_category] alone is lost.  Its next id is not above the
    one of the manager that wrote the file, when records remain. *)
Theorem restart_reloads_the_records (storage : FileStorage.t) self
    (calls : list Session.call) :
  SectionManager.init storage = Ok self →
  let self' := Session.run self calls in
  FileStorage.writes (SectionManager.storage self) <
    FileStorage.writes (SectionManager.storage self') →
  Forall (λ e, Py.valid_date (Expense.date e) = true) (SectionManager.get_all self') →
  ∃ again,
    SectionManager.init (SectionManager.storage self') = Ok again ∧
    SectionManager.get_all again = reloaded <$> SectionManager.get_all self' ∧
    Expense.id <$> SectionManager.get_all again =
      Expense.id <$> SectionManager.get_all self' ∧
    (SectionManager.get_all self' = [] →
     SectionManager.next_id again = 1%Z ∧
     SectionManager.categories again = SectionManager.default_categories) ∧
    (SectionManager.get_all self' ≠ [] →
     SectionManager.categories again =
       list_to_set (Expense.category <$> SectionManager.get_all self') ∧
     SectionManager.categories again ⊆ SectionManager.categories self' ∧
     (SectionManager.next_id again ≤ SectionManager.next_id self')%Z).
Proof.
  intros Hinit self' Hw Hv. unfold SectionManager.get_all in *.
  assert (Hsync : synced self').
  { destruct (run_storage calls self) as [[Hst _]|[_ H]]; [|done].
    fold self' in Hst. rewrite Hst in Hw. lia. }
  pose proof (loaded_synced self' Hsync Hv) as Hload.
  assert (Hread : readable (FileStorage.contents (SectionManager.storage self')) = true)
    by (by rewrite Hsync).
  eexists. split; [by apply init_unfold|]. simpl. rewrite Hload.
  split; [done|]. split; [apply ids_reloaded|].
  unfold SectionManager._compute_next_id.
  rewrite categories_reloaded, ids_reloaded. split.
  - intros ->. simpl. split; [done|]. by destruct (decide _).
  - intros Hne.
    assert (Hcat : (list_to_set (Expense.category <$> SectionManager.expenses self')
                     : gset string) ≠ ∅).
    { rewrite list_to_set_empty_nil. by destruct (SectionManager.expenses self'). }
    destruct (decide _) as [|_]; [done|]. split; [done|]. split.
    + intros c [e [-> He]]%elem_of_list_to_set%list_elem_of_fmap.
      apply run_covers; [|done]. by eapply init_covers.
    + assert (Hlt : Forall (λ i, (i < SectionManager.next_id self')%Z)
                      (Expense.id <$> SectionManager.expenses self')).
      { apply run_ids_below. by eapply init_ids_below. }
      assert (Hin : SectionManager.max_default
                      (Expense.id <$> SectionManager.expenses self') 0
                    ∈ Expense.id <$> SectionManager.expenses self').
      { apply max_default_elem. by destruct (SectionManager.expenses self'). }
      rewrite Forall_forall in Hlt. specialize (Hlt _ Hin). lia.
Qed.

Lemma restart_reloads_the_records_witness :
  ∃ self,
    SectionManager.init two_records = Ok self ∧
    let self' := Session.run self sample_calls in
    FileStorage.writes (SectionManager.storage self) <
      FileStorage.writes (SectionManager.storage self') ∧
    Forall (λ e, Py.valid_date (Expense.date e) = true) (SectionManager.get_all self') ∧
    ∃ again,
      SectionManager.init (SectionManager.storage self') = Ok again ∧
      SectionManager.get_all again = reloaded <$> SectionManager.get_all self' ∧
      Expense.id <$> SectionManager.get_all again =
        Expense.id <$> SectionManager.get_all self' ∧
      (SectionManager.get_all self' = [] →
       SectionManager.next_id again = 1%Z ∧
       SectionManager.categories again = SectionManager.default_categories) ∧
      (SectionManager.get_all self' ≠ [] →
       SectionManager.categories again =
         list_to_set (Expense.category <$> SectionManager.get_all self') ∧
       SectionManager.categories again ⊆ SectionManager.categories self' ∧
       (SectionManager.next_id again ≤ SectionManager.next_id self')%Z).
Proof.
  eexists. split; [by apply init_unfold|]. cbv zeta.
  assert (Hw : FileStorage.writes two_records <
    FileStorage.writes (SectionManager.storage (Session.run
      (SectionManager.Build two_records (loaded two_records)
        (SectionManager._compute_next_id (loaded two_records))
        (if decide ((list_to_set (Expense.category <$> loaded two_records) : gset string) = ∅)
         then SectionManager.default_categories
         else list_to_set (Expense.category <$> loaded two_records))) sample_calls))).
  { vm_compute. lia. }
  assert (Hv : Forall (λ e, Py.valid_date (Expense.date e) = true)
    (SectionManager.get_all (Session.run
      (SectionManager.Build two_records (loaded two_records)
        (SectionManager._compute_next_id (loaded two_records))
        (if decide ((list_to_set (Expense.category <$> loaded two_records) : gset string) = ∅)
         then SectionManager.default_categories
         else list_to_set (Expense.category <$> loaded two_records))) sample_calls))).
  { apply (bool_decide_unpack _). vm_compute. exact I. }
  split; [exact Hw|]. split; [exact Hv|].
  exact (restart_reloads_the_records two_records _ sample_calls
           (init_unfold two_records eq_refl) Hw Hv).
Defined.

(** X7.  Ids are not kept apart across restarts: when the record just
    added is deleted and the program is started again on the file, the next
    record added gets the id of the deleted one. *)
Theorem deleted_id_is_reused_after_restart (storage : FileStorage.t) self
    (date : Py.date) (category description : string) (amount : Py.float) :
  SectionManager.init storage = Ok self →
  let r := SectionManager.add_expense self date category description amount in
  let gone := SectionManager.delete_expense r.1 (Expense.id r.2) in
  gone.2 = true ∧
  SectionManager.get_all gone.1 = SectionManager.get_all self ∧
  ∃ again,
    SectionManager.init (SectionManager.storage gone.1) = Ok again ∧
    SectionManager.next_id again = Expense.id r.2 ∧
    ∀ date' category' description' amount',
      Expense.id (SectionManager.add_expense again date' category' description' amount').2
      = Expense.id r.2.
Proof.
  intros [_ ->]%init_Ok. cbv zeta.
  pose proof (loaded_valid_dates storage) as Hv.
  set (es := loaded storage) in *.
  set (n := SectionManager._compute_next_id es).
  set (exp := Expense.Build n date category description amount).
  set (self := SectionManager.Build storage es n _).
  assert (Hes : filter (λ e, Expense.id e ≠ n) (es ++ [exp]) = es).
  { rewrite filter_app.
    replace (filter (λ e, Expense.id e ≠ n) [exp]) with (@nil Expense).
    - rewrite app_nil_r. apply filter_length_eq. intros Hlt.
      apply filter_length_lt_iff in Hlt as (e & He & Hid).
      assert (Expense.id e ≤ SectionManager.max_default (Expense.id <$> es) 0)%Z
        by (apply max_default_ge; by apply list_elem_of_fmap_2).
      apply Hid. subst n. unfold SectionManager._compute_next_id. lia.
    - rewrite filter_cons. simpl. by destruct (decide (n ≠ n)). }
  assert (Hexp : SectionManager.expenses
            (SectionManager.delete_expense
               (SectionManager.add_expense self date category description amount).1 n).1
          = es).
  { by rewrite delete_expense_expenses. }
  assert (Hres : (SectionManager.delete_expense
                    (SectionManager.add_expense self date category description amount).1
                    n).2 = true).
  { apply delete_expense_result. simpl. fold exp. rewrite Hes, length_app. simpl. lia. }
  change (Expense.id (SectionManager.add_expense self date category description amount).2)
    with n.
  split; [exact Hres|]. split; [exact Hexp|].
  assert (Hread : readable (FileStorage.contents (SectionManager.storage
            (SectionManager.delete_expense
               (SectionManager.add_expense self date category description amount).1 n).1))
          = true).
  { revert Hres. unfold SectionManager.delete_expense.
    by destruct (decide (length _ < length _)) as [_|_]. }
  eexists. split; [by apply init_unfold|].
  assert (Hload : loaded (SectionManager.storage
            (SectionManager.delete_expense
               (SectionManager.add_expense self date category description amount).1 n).1)
          = reloaded <$> es).
  { revert Hres. unfold SectionManager.delete_expense.
    destruct (decide (length _ < length _)) as [_|_]; simpl; [|done]. intros _.
    fold exp. rewrite Hes. by apply loaded_save_all. }
  rewrite Hload. simpl. unfold SectionManager._compute_next_id.
  rewrite ids_reloaded. done.
Qed.

Lemma deleted_id_is_reused_after_restart_witness :
  ∃ self,
    SectionManager.init two_records = Ok self ∧
    let r := SectionManager.add_expense self (Py.Date 2024 1 3) "Food" "Dinner" one in
    let gone := SectionManager.delete_expense r.1 (Expense.id r.2) in
    gone.2 = true ∧
    SectionManager.get_all gone.1 = SectionManager.get_all self ∧
    ∃ again,
      SectionManager.init (SectionManager.storage gone.1) = Ok again ∧
      SectionManager.next_id again = Expense.id r.2 ∧
      ∀ date' category' description' amount',
        Expense.id
          (SectionManager.add_expense again date' category' description' amount').2
        = Expense.id r.2.
Proof.
  eexists. split; [by apply init_unfold|].
  exact (deleted_id_is_reused_after_restart two_records _ (Py.Date 2024 1 3)
           "Food" "Dinner" one (init_unfold two_records eq_refl)).
Defined.

(** ** Creation of the manager, updates and the month filter *)


(** X9.  [update_expense] never changes an id, the order of the ids or the
    next id; it succeeds exactly when the id is held, writes the file once
    in that case and leaves the manager as it was otherwise. *)
Theorem update_expense_keeps_ids self (expense_id : Z) (date : Py.date)
    (category description : string) (amount : Py.float) :
  let r := SectionManager.update_expense self expense_id date category description amount in
  Expense.id <$> SectionManager.get_all r.1 = Expense.id <$> SectionManager.get_all self ∧
  SectionManager.next_id r.1 = SectionManager.next_id self ∧
  (r.2 = true ↔ expense_id ∈ Expense.id <$> SectionManager.get_all self) ∧
  (r.2 = true →
   FileStorage.writes (SectionManager.storage r.1) =
     S (FileStorage.writes (SectionManager.storage self)) ∧
   FileStorage.contents (SectionManager.storage r.1) =
     FileStorage.Present
       (FileStorage.headers :: (Expense.to_row <$> SectionManager.get_all r.1))) ∧
  (r.2 = false → r.1 = self).
Proof.
  unfold SectionManager.update_expense, SectionManager.get_all. cbv zeta.
  destruct (SectionManager.find_id _ _) as [i|] eqn:Hfind; simpl.
  - apply find_id_Some in Hfind as [(e & Hi & Hid) _].
    split.
    { rewrite list_fmap_insert. simpl. apply list_insert_id.
      by rewrite list_lookup_fmap, Hi, <- Hid. }
    split; [done|]. split; [|by split].
    split; [intros _|done]. rewrite <- Hid.
    apply list_elem_of_fmap_2. by eapply list_elem_of_lookup_2.
  - pose proof (proj1 (find_id_None _ _) Hfind) as Hnone.
    split; [done|]. split; [done|]. split; [|by split].
    split; [done|]. intros (e & Hid & He)%list_elem_of_fmap.
    exfalso. by eapply Hnone.
Qed.

(** X10.  The month filter follows the calls: a record added appears at
    the end of the list of its own month and of no other month, a deletion
    removes from every month's list exactly the records with that id, and
    every record held is in the list of the month of its date.  The result
    keeps the order of the records, and it is empty for a month number
    outside 1..12 when the dates are dates of the calendar. *)
Theorem filter_by_month_follows_the_calls self (year month : Z) :
  (∀ date category description amount,
     let r := SectionManager.add_expense self date category description amount in
     SectionManager.filter_by_month r.1 year month =
       SectionManager.filter_by_month self year month ++
       (if decide (Py.year date = year ∧ Py.month date = month) then [r.2] else [])) ∧
  (∀ expense_id,
     SectionManager.filter_by_month
       (SectionManager.delete_expense self expense_id).1 year month =
     filter (λ e, Expense.id e ≠ expense_id)
       (SectionManager.filter_by_month self year month)) ∧
  (∀ e, e ∈ SectionManager.get_all self →
        e ∈ SectionManager.filter_by_month self
              (Py.year (Expense.date e)) (Py.month (Expense.date e))) ∧
  (∀ e, e ∈ SectionManager.filter_by_month self year month →
        e ∈ SectionManager.get_all self ∧
        Py.year (Expense.date e) = year ∧ Py.month (Expense.date e) = month) ∧
  SectionManager.filter_by_month self year month `sublist_of` SectionManager.get_all self ∧
  (Forall (λ e, Py.valid_date (Expense.date e) = true) (SectionManager.get_all self) →
   ¬ (1 ≤ month ≤ 12)%Z →
   SectionManager.filter_by_month self year month = []).
Proof.
  unfold SectionManager.filter_by_month, SectionManager.get_all.
  split; [|split; [|split; [|split; [|split]]]].
  - intros date category description amount. simpl.
    rewrite filter_app. reflexivity.
  - intros expense_id. rewrite delete_expense_expenses.
    rewrite !list_filter_filter. apply list_filter_iff. tauto.
  - intros e He. by apply list_elem_of_filter.
  - intros e [[? ?] ?]%list_elem_of_filter. done.
  - apply sublist_filter.
  - intros Hv Hm. induction Hv as [|e l He _ IH]; [done|].
    rewrite filter_cons. destruct (decide _) as [[_ Hmonth]|_]; [|exact IH].
    apply valid_date_bounds in He. lia.
Qed.

(** ** Breakdown by category and trend by day *)

Lemma first_occurrences_snoc {A} `{EqDecision A} (l : list A) (x : A) :
  first_occurrences (l ++ [x]) =
  if decide (x ∈ l) then first_occurrences l else first_occurrences l ++ [x].
Proof.
  unfold first_occurrences. rewrite reverse_snoc. cbn [remove_dups].
  destruct (decide_rel elem_of x (reverse l)) as [Hin|Hin];
    rewrite elem_of_reverse in Hin;
    destruct (decide (x ∈ l)); try done.
  by rewrite reverse_cons.
Qed.

Lemma length_first_occurrences {A} `{EqDecision A} (l : list A) :
  length (first_occurrences l) = length (remove_dups l).
Proof.
  unfold first_occurrences. rewrite length_reverse.
  apply Permutation_length, NoDup_Permutation; try apply NoDup_remove_dups.
  intros x. by rewrite !elem_of_remove_dups, elem_of_reverse.
Qed.

(** X11.  [category_breakdown] holds one entry per category that occurs,
    in the order in which the categories first occur, and the value of a
    category is the sum of the amounts of its records, added in record
    order to the float zero. *)
Theorem category_breakdown_totals (expenses : list Expense) :
  (Analyzer.category_breakdown expenses).*1 =
    first_occurrences (Expense.category <$> expenses) ∧
  NoDup (Analyzer.category_breakdown expenses).*1 ∧
  (∀ c v, (c, v) ∈ Analyzer.category_breakdown expenses ↔
          c ∈ Expense.category <$> expenses ∧ v = category_total c expenses) ∧
  (Analyzer.category_breakdown expenses = [] ↔ expenses = []) ∧
  (length (Analyzer.category_breakdown expenses) ≤ length expenses)%nat.
Proof.
  destruct (category_breakdown_spec expenses) as (Hnd & Hkeys & Htot).
  assert (Hfirst : (Analyzer.category_breakdown expenses).*1 =
                   first_occurrences (Expense.category <$> expenses)).
  { clear. induction expenses as [|e expenses IH] using rev_ind; [done|].
    rewrite category_breakdown_snoc, keys_add_to, fmap_app. simpl.
    rewrite first_occurrences_snoc, <- IH.
    destruct (category_breakdown_spec expenses) as (_ & Hkeys & _).
    destruct (decide _) as [Hin|Hin], (decide _) as [Hin'|Hin']; try done;
      exfalso; by rewrite Hkeys in Hin. }
  split; [done|]. split; [done|]. split; [|split].
  - intros c v. by rewrite elem_of_total_in, Hkeys, Htot.
  - split; [|by intros ->].
    intros Hnil. destruct expenses as [|e expenses]; [done|].
    assert (Hin : Expense.category e ∈ (Analyzer.category_breakdown (e :: expenses)).*1)
      by (apply Hkeys; left).
    rewrite Hnil in Hin. by apply elem_of_nil in Hin.
  - rewrite <- (length_fmap fst), Hfirst, length_first_occurrences.
    etrans; [apply length_remove_dups_le|]. by rewrite length_fmap.
Qed.

Section by_day.
Implicit Types (e : Expense) (d : list (Py.date * Py.float)) (k c : Py.date).

Lemma total_on_add_to_day d k a c :
  total_on (Analyzer.add_to_day d k a) c =
  if decide (c = k) then Py.fadd (total_on d k) a else total_on d c.
Proof.
  induction d as [|[k' v] d IH]; simpl.
  - destruct (decide (k = c)), (decide (c = k)); done || congruence.
  - destruct (decide (k' = k)) as [->|Hk]; simpl.
    + destruct (decide (k = c)), (decide (c = k)); done || congruence.
    + rewrite IH. destruct (decide (k' = c)), (decide (c = k)); done || congruence.
Qed.

Lemma keys_add_to_day d k a :
  (Analyzer.add_to_day d k a).*1 = if decide (k ∈ d.*1) then d.*1 else d.*1 ++ [k].
Proof.
  induction d as [|[k' v] d IH].
  - cbn [Analyzer.add_to_day fmap list_fmap].
    destruct (decide (k ∈ [])) as [H|_]; [by apply elem_of_nil in H | done].
  - cbn [Analyzer.add_to_day]. rewrite fmap_cons. cbn [fst].
    destruct (decide (k' = k)) as [->|Hk].
    + rewrite fmap_cons. cbn [fst].
      destruct (decide (k ∈ k :: d.*1)) as [_|H]; [done|]. exfalso. apply H. by left.
    + rewrite fmap_cons, IH. cbn [fst].
      destruct (decide (k ∈ d.*1)) as [Hin|Hin],
               (decide (k ∈ k' :: d.*1)) as [Hin'|Hin']; try done.
      * exfalso. apply Hin'. by right.
      * apply elem_of_cons in Hin' as [?|?]; done || congruence.
Qed.

Lemma elem_of_total_on d c v :
  NoDup d.*1 → (c, v) ∈ d ↔ c ∈ d.*1 ∧ v = total_on d c.
Proof.
  induction d as [|[k' v'] d IH]; simpl; intros Hnd.
  - split; [by intros ?%elem_of_nil | by intros [?%elem_of_nil _]].
  - apply NoDup_cons in Hnd as [Hnotin Hnd]. rewrite elem_of_cons, (IH Hnd).
    destruct (decide (k' = c)) as [->|Hk].
    + split.
      * intros [[= ->]|[Hin _]]; [split; [by left | done] | done].
      * intros [_ ->]. by left.
    + split.
      * intros [[= ? _]|[Hin ->]]; [congruence|]. split; [by right | done].
      * intros [[?|Hin]%elem_of_cons ->]; [congruence|]. by right.
Qed.

Lemma by_day_snoc (expenses : list Expense) e :
  Analyzer.by_day (expenses ++ [e]) =
  Analyzer.add_to_day (Analyzer.by_day expenses) (Expense.date e) (Expense.amount e).
Proof. unfold Analyzer.by_day. by rewrite fold_left_app. Qed.

Lemma day_total_snoc c (expenses : list Expense) e :
  day_total c (expenses ++ [e]) =
  if decide (c = Expense.date e)
  then Py.fadd (day_total c expenses) (Expense.amount e)
  else day_total c expenses.
Proof.
  unfold day_total. rewrite filter_app, fmap_app, fold_left_app.
  rewrite filter_cons, filter_nil.
  destruct (decide (Expense.date e = c)), (decide (c = Expense.date e));
    done || congruence.
Qed.

Lemma by_day_spec (expenses : list Expense) :
  NoDup (Analyzer.by_day expenses).*1 ∧
  (Analyzer.by_day expenses).*1 = first_occurrences (Expense.date <$> expenses) ∧
  (∀ c, c ∈ (Analyzer.by_day expenses).*1 ↔ c ∈ Expense.date <$> expenses) ∧
  (∀ c, total_on (Analyzer.by_day expenses) c = day_total c expenses).
Proof.
  induction expenses as [|e expenses IH] using rev_ind.
  - split; [constructor|]. done.
  - destruct IH as (Hnd & Hfirst & Hkeys & Htot). rewrite by_day_snoc, keys_add_to_day.
    split; [|split; [|split]].
    + destruct (decide _) as [Hin|Hin]; [done|].
      apply NoDup_app. split; [done|]. split; [|apply NoDup_singleton].
      by intros c Hc ->%list_elem_of_singleton.
    + rewrite fmap_app. simpl. rewrite first_occurrences_snoc, <- Hfirst.
      destruct (decide _) as [Hin|Hin], (decide _) as [Hin'|Hin']; try done;
        exfalso; by rewrite Hkeys in Hin.
    + intros c. rewrite fmap_app, elem_of_app, <- Hkeys. simpl.
      rewrite list_elem_of_singleton.
      destruct (decide _) as [Hin|Hin].
      * split; [by left|]. intros [?| ->]; done.
      * rewrite elem_of_app, list_elem_of_singleton. done.
    + intros c. rewrite total_on_add_to_day, day_total_snoc, !Htot.
      destruct (decide (c = Expense.date e)) as [->|_]; done.
Qed.

End by_day.

Lemma date_le_key_trans :
  Transitive (λ x y : Py.date * Py.float, Py.date_le x.1 y.1).
Proof.
  intros [[y1 m1 d1] ?] [[y2 m2 d2] ?] [[y3 m3 d3] ?].
  unfold Py.date_le. simpl. lia.
Qed.

Lemma date_le_key_total :
  Total (λ x y : Py.date * Py.float, Py.date_le x.1 y.1).
Proof.
  intros [[y1 m1 d1] ?] [[y2 m2 d2] ?]. unfold Py.date_le. simpl. lia.
Qed.

Lemma date_le_lt (a b : Py.date) : Py.date_le a b → a ≠ b → Py.date_lt a b.
Proof.
  destruct a as [y1 m1 d1], b as [y2 m2 d2]. unfold Py.date_le, Py.date_lt. simpl.
  intros Hle Hne.
  assert (¬ (y1 = y2 ∧ m1 = m2 ∧ d1 = d2)) by (intros (-> & -> & ->); done).
  lia.
Qed.

Lemma sorted_keys_strict (l : list (Py.date * Py.float)) :
  StronglySorted (λ x y, Py.date_le x.1 y.1) l → NoDup l.*1 →
  StronglySorted Py.date_lt l.*1.
Proof.
  induction 1 as [|x l Hs IH Hall]; simpl; intros Hnd; [constructor|].
  apply NoDup_cons in Hnd as [Hnotin Hnd]. constructor; [by apply IH|].
  apply Forall_fmap, Forall_forall. intros y Hy. simpl.
  rewrite Forall_forall in Hall. apply date_le_lt; [by apply Hall|].
  intros Heq. apply Hnotin. rewrite Heq. by apply list_elem_of_fmap_2.
Qed.

(** X12.  [daily_trend] returns one pair per date that occurs, in strictly
    increasing order of the dates, and the value of a date is the sum of
    the amounts of its records, added in record order to the float zero. *)
Theorem daily_trend_sorted_totals (expenses : list Expense) :
  StronglySorted Py.date_lt (Analyzer.daily_trend expenses).*1 ∧
  (∀ d v, (d, v) ∈ Analyzer.daily_trend expenses ↔
          d ∈ Expense.date <$> expenses ∧ v = day_total d expenses) ∧
  length (Analyzer.daily_trend expenses) = length (remove_dups (Expense.date <$> expenses)) ∧
  Analyzer.daily_trend expenses ≡ₚ Analyzer.by_day expenses ∧
  (Analyzer.by_day expenses).*1 = first_occurrences (Expense.date <$> expenses).
Proof.
  destruct (by_day_spec expenses) as (Hnd & Hfirst & Hkeys & Htot).
  assert (Hperm : Analyzer.daily_trend expenses ≡ₚ Analyzer.by_day expenses)
    by apply merge_sort_Permutation.
  split; [|split; [|split; [|split]]]; try done.
  - apply sorted_keys_strict.
    + apply StronglySorted_merge_sort; [apply date_le_key_trans|apply date_le_key_total].
    + by rewrite Hperm.
  - intros d v. rewrite Hperm. by rewrite elem_of_total_on, Hkeys, Htot.
  - rewrite Hperm, <- (length_fmap fst), Hfirst. apply length_first_occurrences.
Qed.

(** ** The files of a user *)

Lemma string_app_length (s t : string) :
  String.length (s +:+ t) = String.length s + String.length t.
Proof. induction s as [|c s IH]; [done|]. cbn [String.app String.length]. simpl. by rewrite IH. Qed.

Lemma string_app_inj_r (s1 s2 t : string) : s1 +:+ t = s2 +:+ t → s1 = s2.
Proof.
  revert s2. induction s1 as [|c s1 IH]; intros [|c' s2] H.
  - done.
  - apply (f_equal String.length) in H.
    rewrite !string_app_length in H. simpl in H. lia.
  - apply (f_equal String.length) in H.
    rewrite !string_app_length in H. simpl in H. lia.
  - injection H as -> H. f_equal. by apply IH.
Qed.

Lemma sections_get_Some section info :
  MultiFileStorage.get MultiFileStorage.SECTIONS section = Some info →
  (section = "personal" ∧ MultiFileStorage.filename info = "personal_expenses") ∨
  (section = "family" ∧ MultiFileStorage.filename info = "family_expenses") ∨
  (section = "business" ∧ MultiFileStorage.filename info = "business_expenses").
Proof.
  unfold MultiFileStorage.SECTIONS. simpl.
  repeat (destruct (decide _) as [<-|_]; [intros [= <-]; auto|]). done.
Qed.

Lemma filepath_inj (self1 self2 : MultiFileStorage.t) section1 section2 info1 info2 :
  MultiFileStorage.get MultiFileStorage.SECTIONS section1 = Some info1 →
  MultiFileStorage.get MultiFileStorage.SECTIONS section2 = Some info2 →
  MultiFileStorage._get_user_filepath self1 (MultiFileStorage.filename info1) =
  MultiFileStorage._get_user_filepath self2 (MultiFileStorage.filename info2) →
  section1 = section2 ∧ MultiFileStorage.username self1 = MultiFileStorage.username self2.
Proof.
  intros H1 H2. unfold MultiFileStorage._get_user_filepath.
  apply sections_get_Some in H1 as [[-> ->]|[[-> ->]|[-> ->]]],
                              H2 as [[-> ->]|[[-> ->]|[-> ->]]];
    intros H; try discriminate H; split; try done.
  all: do 2 apply String.app_inj in H.
  all: by apply string_app_inj_r in H.
Qed.

Lemma create_if_missing_lookup (fs : gmap string (list (list string))) (p q : string) :
  MultiFileStorage.create_if_missing fs p !! q =
  match fs !! q with
  | Some rows => Some rows
  | None => if decide (q = p) then Some [FileStorage.headers] else None
  end.
Proof.
  unfold MultiFileStorage.create_if_missing.
  destruct (fs !! p) as [rows|] eqn:Hp.
  - destruct (fs !! q) as [rows'|] eqn:Hq; [done|].
    destruct (decide (q = p)) as [->|_]; [congruence|done].
  - destruct (decide (q = p)) as [->|Hne].
    + by rewrite lookup_insert_eq, Hp.
    + rewrite lookup_insert_ne by done. by destruct (fs !! q).
Qed.

Lemma init_files_lookup (username : string) (fs : gmap string (list (list string)))
    (q : string) :
  (MultiFileStorage.init username fs).2 !! q =
  match fs !! q with
  | Some rows => Some rows
  | None => if decide (q ∈ user_paths username) then Some [FileStorage.headers] else None
  end.
Proof.
  unfold MultiFileStorage.init, MultiFileStorage._init_all_files, user_paths,
    MultiFileStorage.SECTIONS.
  cbn [fold_left fmap list_fmap snd MultiFileStorage.filename].
  rewrite !create_if_missing_lookup.
  destruct (fs !! q) as [rows|]; [done|].
  repeat match goal with
         | |- context [decide (q = ?p)] => destruct (decide (q = p)) as [->|?]
         end;
    destruct (decide (_ ∈ _)) as [Hin|Hin]; try done;
    try (exfalso; apply Hin; set_solver).
  repeat (apply elem_of_cons in Hin as [?|Hin]; [done|]).
  by apply elem_of_nil in Hin.
Qed.

Lemma user_paths_spec (username path : string) :
  path ∈ user_paths username ↔
  ∃ section info,
    MultiFileStorage.get MultiFileStorage.SECTIONS section = Some info ∧
    path = MultiFileStorage._get_user_filepath (MultiFileStorage.Build username ∅)
             (MultiFileStorage.filename info).
Proof.
  unfold user_paths. rewrite list_elem_of_fmap. split.
  - intros ([section info] & -> & Hin). exists section, info. split; [|done].
    unfold MultiFileStorage.SECTIONS in *.
    repeat (apply elem_of_cons in Hin as [[= -> ->]|Hin]; [done|]).
    by apply elem_of_nil in Hin.
  - intros (section & info & Hget & ->). exists (section, info). split; [done|].
    unfold MultiFileStorage.SECTIONS in *. simpl in Hget.
    repeat (destruct (decide _) as [<-|_]; [injection Hget as <-; set_solver|]).
    done.
Qed.

Lemma get_storage_new (username section : string)
    (fs : gmap string (list (list string))) :
  MultiFileStorage.get_storage (MultiFileStorage.init username fs).1 section
    (MultiFileStorage.init username fs).2 =
  match MultiFileStorage.get MultiFileStorage.SECTIONS section with
  | Some info =>
      let filepath :=
        MultiFileStorage._get_user_filepath (MultiFileStorage.Build username ∅)
          (MultiFileStorage.filename info) in
      Ok (MultiFileStorage.Build username (<[ section := filepath ]> ∅),
          (MultiFileStorage.init username fs).2, filepath)
  | None => Raise (KeyError (Py.repr_str section))
  end.
Proof.
  unfold MultiFileStorage.get_storage, MultiFileStorage.getitem.
  change (MultiFileStorage.storages (MultiFileStorage.init username fs).1) with
    (∅ : gmap string string).
  rewrite lookup_empty.
  destruct (MultiFileStorage.get MultiFileStorage.SECTIONS section) as [info|] eqn:Hget;
    [|done].
  cbn [mbind result_bind mret result_ret]. cbv zeta.
  change (MultiFileStorage.init username fs).1 with (MultiFileStorage.Build username ∅).
  cbn [MultiFileStorage.username MultiFileStorage.storages].
  do 2 f_equal. f_equal.
  unfold MultiFileStorage.create_if_missing.
  rewrite init_files_lookup.
  destruct (fs !! _) as [rows|]; [done|].
  destruct (decide _) as [_|Hnotin]; [done|].
  exfalso. apply Hnotin. apply user_paths_spec. by exists section, info.
Qed.

(** X13.  No two users share a file, and no user has one file for two
    sections: when [get_storage] gives the same path for two new
    [MultiFileStorage] objects, they are for the same user and the same
    section. *)
Theorem user_files_are_disjoint (username1 username2 section1 section2 : string)
    (fs1 fs2 : gmap string (list (list string)))
    (r1 r2 : MultiFileStorage.t * gmap string (list (list string)) * string) :
  MultiFileStorage.get_storage (MultiFileStorage.init username1 fs1).1 section1
    (MultiFileStorage.init username1 fs1).2 = Ok r1 →
  MultiFileStorage.get_storage (MultiFileStorage.init username2 fs2).1 section2
    (MultiFileStorage.init username2 fs2).2 = Ok r2 →
  r1.2 = r2.2 →
  section1 = section2 ∧ username1 = username2.
Proof.
  rewrite !get_storage_new.
  destruct (MultiFileStorage.get MultiFileStorage.SECTIONS section1)
    as [info1|] eqn:H1; [|done].
  destruct (MultiFileStorage.get MultiFileStorage.SECTIONS section2)
    as [info2|] eqn:H2; [|done].
  cbv zeta. intros [= <-] [= <-]. cbn [snd]. intros Hpath.
  by destruct (filepath_inj _ _ _ _ _ _ H1 H2 Hpath).
Qed.

Lemma user_files_are_disjoint_witness :
  MultiFileStorage.get_storage (MultiFileStorage.init "asha" ∅).1 "family"
    (MultiFileStorage.init "asha" ∅).2 =
    Ok (MultiFileStorage.Build "asha" {[ "family" := "family_expenses_asha.csv" ]},
        (MultiFileStorage.init "asha" ∅).2, "family_expenses_asha.csv") ∧
  "family" = "family" ∧ "asha" = "asha".
Proof.
  assert (H : MultiFileStorage.get_storage (MultiFileStorage.init "asha" ∅).1 "family"
                (MultiFileStorage.init "asha" ∅).2 =
              Ok (MultiFileStorage.Build "asha" {[ "family" := "family_expenses_asha.csv" ]},
                  (MultiFileStorage.init "asha" ∅).2, "family_expenses_asha.csv")).
  { vm_compute. reflexivity. }
  split; [exact H|].
  exact (user_files_are_disjoint "asha" "asha" "family" "family" ∅ ∅ _ _ H H eq_refl).
Defined.

(** X14.  Creating a [MultiFileStorage] never changes a file that exists:
    it creates the three files of the user that are missing, each with the
    header row alone, and touches no other path, so the files of the other
    users are left as they are. *)
Theorem init_creates_missing_files_only (username : string)
    (fs : gmap string (list (list string))) :
  let fs' := (MultiFileStorage.init username fs).2 in
  (∀ path rows, fs !! path = Some rows → fs' !! path = Some rows) ∧
  (∀ path, path ∈ user_paths username → fs !! path = None →
           fs' !! path = Some [FileStorage.headers]) ∧
  (∀ path, path ∉ user_paths username → fs' !! path = fs !! path) ∧
  (∀ other path, other ≠ username → path ∈ user_paths other →
                 fs' !! path = fs !! path) ∧
  length (user_paths username) = 3 ∧ NoDup (user_paths username).
Proof.
  intros fs'. subst fs'.
  assert (Hother : ∀ other path, other ≠ username → path ∈ user_paths other →
                                 path ∉ user_paths username).
  { intros other path Hne (s1 & i1 & H1 & ->)%user_paths_spec
      (s2 & i2 & H2 & Heq)%user_paths_spec.
    by destruct (filepath_inj _ _ _ _ _ _ H1 H2 Heq). }
  split; [|split; [|split; [|split; [|split]]]].
  - intros path rows H. by rewrite init_files_lookup, H.
  - intros path Hin H. rewrite init_files_lookup, H. by destruct (decide _).
  - intros path Hnotin. rewrite init_files_lookup.
    destruct (fs !! path); [done|]. by destruct (decide _).
  - intros other path Hne Hin. rewrite init_files_lookup.
    destruct (fs !! path); [done|]. destruct (decide _) as [Hin'|_]; [|done].
    by destruct (Hother other path Hne Hin).
  - done.
  - unfold user_paths, MultiFileStorage.SECTIONS. simpl.
    repeat (apply NoDup_cons; split; [|]); try apply NoDup_nil_2.
    all: rewrite ?not_elem_of_cons; repeat split; try apply not_elem_of_nil.
    all: unfold MultiFileStorage._get_user_filepath; simpl; discriminate.
Qed.

(** X15.  A manager created for a known section of a new
    [MultiFileStorage] reads the file of that user and section and writes
    nothing: when the user had no such file it holds no record, its next id
    is 1 and it offers the six default categories; when the file was there
    it holds the records of its well-formed rows after the first.  The
    section is cached under its path, and asking for it again returns that
    path whatever the directory holds. *)
Theorem section_manager_opens_the_users_file (username section : string)
    (fs : gmap string (list (list string))) (info : MultiFileStorage.section_info) :
  MultiFileStorage.get MultiFileStorage.SECTIONS section = Some info →
  let m := MultiFileStorage.init username fs in
  let filepath := MultiFileStorage.filename info +:+ "_" +:+ username +:+ ".csv" in
  ∃ self' manager,
    MultiFileStorage.section_manager m.1 section m.2 = Ok (self', m.2, info, manager) ∧
    MultiFileStorage.storages self' !! section = Some filepath ∧
    (∀ fs', MultiFileStorage.get_storage self' section fs' = Ok (self', fs', filepath)) ∧
    SectionManager.storage manager =
      FileStorage.Build (MultiFileStorage.file_at m.2 filepath) 0 ∧
    (fs !! filepath = None →
     MultiFileStorage.file_at m.2 filepath = FileStorage.Present [FileStorage.headers] ∧
     SectionManager.get_all manager = [] ∧
     SectionManager.next_id manager = 1%Z ∧
     SectionManager.categories manager = SectionManager.default_categories) ∧
    (∀ rows, fs !! filepath = Some rows →
       MultiFileStorage.file_at m.2 filepath = FileStorage.Present rows ∧
       SectionManager.get_all manager = omap well_formed (drop 1 rows)).
Proof.
  intros Hget m filepath.
  unfold MultiFileStorage.section_manager. subst m. rewrite get_storage_new, Hget.
  cbv zeta. cbn [mbind result_bind mret result_ret].
  change (MultiFileStorage._get_user_filepath (MultiFileStorage.Build username ∅)
            (MultiFileStorage.filename info)) with filepath.
  assert (Hinfo : MultiFileStorage.get_section_info section = Ok info).
  { unfold MultiFileStorage.get_section_info. by rewrite Hget. }
  rewrite Hinfo. cbn [mbind result_bind mret result_ret].
  rewrite init_unfold
    by (cbn [FileStorage.contents]; unfold MultiFileStorage.file_at;
        by destruct (_ !! _)).
  cbn [mbind result_bind mret result_ret].
  eexists _, _. split; [reflexivity|].
  split; [cbn [MultiFileStorage.storages]; by rewrite lookup_insert_eq|].
  split.
  { intros fs'. unfold MultiFileStorage.get_storage.
    cbn [MultiFileStorage.storages]. by rewrite lookup_insert_eq. }
  split; [done|].
  assert (Hin : filepath ∈ user_paths username).
  { apply user_paths_spec. by exists section, info. }
  unfold MultiFileStorage.file_at, SectionManager.get_all, loaded.
  cbn [SectionManager.expenses SectionManager.next_id SectionManager.categories
       FileStorage.contents].
  rewrite init_files_lookup. split.
  - intros ->. destruct (decide _) as [_|]; [|done]. simpl. done.
  - intros rows ->. split; [done|]. by rewrite load_rows_spec.
Qed.

Lemma section_manager_opens_the_users_file_witness :
  MultiFileStorage.get MultiFileStorage.SECTIONS "family" =
    Some (MultiFileStorage.SectionInfo "family_expenses" "👨‍👩‍👧" "#3498db" "Family") ∧
  let m := MultiFileStorage.init "asha" ∅ in
  let filepath := "family_expenses" +:+ "_" +:+ "asha" +:+ ".csv" in
  ∃ self' manager,
    MultiFileStorage.section_manager m.1 "family" m.2 =
      Ok (self', m.2,
          MultiFileStorage.SectionInfo "family_expenses" "👨‍👩‍👧" "#3498db" "Family",
          manager) ∧
    MultiFileStorage.storages self' !! "family" = Some filepath ∧
    (∀ fs', MultiFileStorage.get_storage self' "family" fs' = Ok (self', fs', filepath)) ∧
    SectionManager.storage manager =
      FileStorage.Build (MultiFileStorage.file_at m.2 filepath) 0 ∧
    ((∅ : gmap string (list (list string))) !! filepath = None →
     MultiFileStorage.file_at m.2 filepath = FileStorage.Present [FileStorage.headers] ∧
     SectionManager.get_all manager = [] ∧
     SectionManager.next_id manager = 1%Z ∧
     SectionManager.categories manager = SectionManager.default_categories) ∧
    (∀ rows, (∅ : gmap string (list (list string))) !! filepath = Some rows →
       MultiFileStorage.file_at m.2 filepath = FileStorage.Present rows ∧
       SectionManager.get_all manager = omap well_formed (drop 1 rows)).
Proof.
  split; [reflexivity|].
  exact (section_manager_opens_the_users_file "asha" "family" ∅
           (MultiFileStorage.SectionInfo "family_expenses" "👨‍👩‍👧" "#3498db" "Family")
           eq_refl).
Defined.

(** X16.  For a section that is not one of the three known ones,
    [get_section_info] falls back on the personal section while
    [get_storage] raises [KeyError], so no manager can be created for it
    and no file is created. *)
Theorem unknown_section_raises (self : MultiFileStorage.t) (section : string)
    (fs : gmap string (list (list string))) :
  section ∉ ["personal"; "family"; "business"] →
  MultiFileStorage.storages self !! section = None →
  MultiFileStorage.get_section_info section =
    MultiFileStorage.get_section_info "personal" ∧
  MultiFileStorage.get_section_info section =
    Ok (MultiFileStorage.SectionInfo "personal_expenses" "👤" "#e74c3c" "Personal") ∧
  MultiFileStorage.get_storage self section fs = Raise (KeyError (Py.repr_str section)) ∧
  MultiFileStorage.section_manager self section fs =
    Raise (KeyError (Py.repr_str section)).
Proof.
  intros Hsec Hcache.
  assert (Hget : MultiFileStorage.get MultiFileStorage.SECTIONS section = None).
  { destruct (MultiFileStorage.get MultiFileStorage.SECTIONS section) as [info|] eqn:H;
      [|done].
    exfalso. apply Hsec.
    apply sections_get_Some in H as [[-> _]|[[-> _]|[-> _]]]; set_solver. }
  assert (Hst : MultiFileStorage.get_storage self section fs =
                Raise (KeyError (Py.repr_str section))).
  { unfold MultiFileStorage.get_storage, MultiFileStorage.getitem.
    by rewrite Hcache, Hget. }
  split; [|split; [|split]].
  - unfold MultiFileStorage.get_section_info. by rewrite Hget.
  - unfold MultiFileStorage.get_section_info. by rewrite Hget.
  - done.
  - unfold MultiFileStorage.section_manager. by rewrite Hst.
Qed.

Lemma unknown_section_raises_witness :
  MultiFileStorage.get_section_info "travel" =
    MultiFileStorage.get_section_info "personal" ∧
  MultiFileStorage.get_section_info "travel" =
    Ok (MultiFileStorage.SectionInfo "personal_expenses" "👤" "#e74c3c" "Personal") ∧
  MultiFileStorage.get_storage (MultiFileStorage.Build "asha" ∅) "travel" ∅ =
    Raise (KeyError "'travel'") ∧
  MultiFileStorage.section_manager (MultiFileStorage.Build "asha" ∅) "travel" ∅ =
    Raise (KeyError "'travel'").
Proof.
  apply (unknown_section_raises (MultiFileStorage.Build "asha" ∅) "travel" ∅).
  - apply (bool_decide_unpack _). vm_compute. exact I.
  - reflexivity.
Defined.

(** ** Accounts *)

Section accounts.
Variable sha256_hexdigest : string → string.
Implicit Types (self : AuthManager.t) (users : gmap (option string) AuthManager.user).
Implicit Types (rows : list (list string)).

Lemma load_loop_row (a b c d : string) rows users :
  AuthManager.load_loop AuthManager.users_header ([a; b; c; d] :: rows) users =
  AuthManager.load_loop AuthManager.users_header rows
    (<[ Some a := AuthManager.User (Some b) (Some c) (Some d) ]> users).
Proof.
  cbn [AuthManager.load_loop]. destruct (decide _) as [|_]; [done|].
  unfold AuthManager.dict_row, AuthManager.users_header, AuthManager.getitem.
  cbn [zip zip_with fold_left length drop fst snd].
  rewrite !lookup_insert_ne by done. rewrite !lookup_insert_eq.
  done.
Qed.

Lemma four_cells (row : list string) :
  length row = 4 → ∃ a b c d, row = [a; b; c; d].
Proof.
  destruct row as [|a [|b [|c [|d [|]]]]]; try done. intros _. by exists a, b, c, d.
Qed.

Lemma load_loop_snoc rows (a b c d : string) users :
  Forall (λ row, length row = 4) rows →
  ∃ users',
    AuthManager.load_loop AuthManager.users_header rows users = Ok users' ∧
    AuthManager.load_loop AuthManager.users_header (rows ++ [[a; b; c; d]]) users =
      Ok (<[ Some a := AuthManager.User (Some b) (Some c) (Some d) ]> users') ∧
    (∀ name, is_Some (users' !! Some name) ↔
             is_Some (users !! Some name) ∨ ∃ row, row ∈ rows ∧ row !! 0 = Some name).
Proof.
  intros Hrows. revert users.
  induction Hrows as [|row rows Hrow _ IH]; intros users.
  - exists users. split; [done|]. split; [cbn [app]; by rewrite load_loop_row|].
    intros name. split; [by left|]. intros [H|(row & []%elem_of_nil & _)]. done.
  - destruct (four_cells row Hrow) as (a' & b' & c' & d' & ->).
    cbn [app]. rewrite !load_loop_row.
    destruct (IH (<[ Some a' := AuthManager.User (Some b') (Some c') (Some d') ]> users))
      as (users' & H1 & H2 & H3).
    exists users'. split; [done|]. split; [done|].
    intros name. rewrite H3. split.
    + intros [Hin|(row & Hin & Hname)].
      * destruct (decide (a' = name)) as [->|Hne].
        -- right. exists [name; b'; c'; d']. split; [by left|done].
        -- left. rewrite lookup_insert_ne in Hin; [done|congruence].
      * right. exists row. split; [by right|done].
    + intros [Hin|(row & [->|Hin]%elem_of_cons & Hname)].
      * left. destruct (decide (a' = name)) as [->|Hne].
        -- rewrite lookup_insert_eq. by eexists.
        -- rewrite lookup_insert_ne; [done|congruence].
      * left. injection Hname as ->. rewrite lookup_insert_eq. by eexists.
      * right. by exists row.
Qed.

Lemma load_users_file rows self :
  AuthManager.users_file self = FileStorage.Present (AuthManager.users_header :: rows) →
  AuthManager._load_users self =
  AuthManager.load_loop AuthManager.users_header rows ∅.
Proof. unfold AuthManager._load_users. by intros ->. Qed.

(** What a successful registration tells. *)
Lemma register_user_true self self' (username password full_name now msg : string) :
  AuthManager.register_user sha256_hexdigest self username password full_name now =
    Ok (self', (true, msg)) →
  username ≠ "" ∧ password ≠ "" ∧ full_name ≠ "" ∧
  3 ≤ String.length username ∧ 6 ≤ String.length password ∧
  (∃ users, AuthManager._load_users self = Ok users ∧ users !! Some username = None) ∧
  self' = AuthManager.Build
            (AuthManager.append_row (AuthManager.users_file self)
               [username; sha256_hexdigest password; full_name; now])
            (AuthManager.current_user self) (AuthManager.session_file self) ∧
  msg = "Registration successful".
Proof.
  unfold AuthManager.register_user.
  destruct (decide (username = "" ∨ password = "" ∨ full_name = "")) as [|Hne]; [done|].
  destruct (decide (String.length username < 3)) as [|Hu]; [done|].
  destruct (decide (String.length password < 6)) as [|Hp]; [done|].
  destruct (AuthManager._load_users self) as [users|e] eqn:Hload; [|done].
  cbn [mbind result_bind mret result_ret].
  destruct (decide (is_Some (users !! Some username))) as [|Hnone]; [done|].
  intros [= <- <-].
  repeat split; try tauto; try lia.
  exists users. split; [done|]. by apply eq_None_not_Some.
Qed.

Lemma register_user_file self self' (username password full_name now msg : string) rows :
  AuthManager.users_file self = FileStorage.Present (AuthManager.users_header :: rows) →
  Forall (λ row, length row = 4) rows →
  AuthManager.register_user sha256_hexdigest self username password full_name now =
    Ok (self', (true, msg)) →
  AuthManager.users_file self' =
    FileStorage.Present
      (AuthManager.users_header ::
       rows ++ [[username; sha256_hexdigest password; full_name; now]]) ∧
  ∃ users,
    AuthManager._load_users self = Ok users ∧ users !! Some username = None ∧
    AuthManager._load_users self' =
      Ok (<[ Some username :=
               AuthManager.User (Some (sha256_hexdigest password)) (Some full_name)
                 (Some now) ]> users).
Proof.
  intros Hfile Hrows Hreg.
  apply register_user_true in Hreg
    as (_ & _ & _ & _ & _ & (users & Hload & Hnone) & -> & _).
  rewrite Hfile. split; [done|].
  exists users. split; [done|]. split; [done|].
  rewrite (load_users_file rows) in Hload by done.
  destruct (load_loop_snoc rows username (sha256_hexdigest password) full_name now ∅ Hrows)
    as (users' & H1 & H2 & _).
  rewrite H1 in Hload. injection Hload as ->.
  by rewrite (load_users_file (rows ++ [[username; sha256_hexdigest password; full_name; now]])).
Qed.

(** X17.  On a users file that has the standard header and rows of four
    cells, a user who has just been registered can log in with the
    password given, and with another password exactly when it has the same
    digest; the login sets the current user to the name and full name
    registered. *)
Theorem registered_user_can_log_in self self'
    (username password full_name now : string) :
  users_file_ok (AuthManager.users_file self) →
  AuthManager.register_user sha256_hexdigest self username password full_name now =
    Ok (self', (true, "Registration successful")) →
  users_file_ok (AuthManager.users_file self') ∧
  AuthManager.authenticate sha256_hexdigest self' username password =
    Ok (AuthManager.Build (AuthManager.users_file self')
          (Some (username, Some full_name)) (Some (username, Some full_name)),
        (true, "Login successful")) ∧
  (∀ password',
     outcome (AuthManager.authenticate sha256_hexdigest self' username password') =
       Some (true, "Login successful") ↔
     password' ≠ "" ∧ sha256_hexdigest password' = sha256_hexdigest password) ∧
  (∀ password',
     password' ≠ "" → sha256_hexdigest password' ≠ sha256_hexdigest password →
     AuthManager.authenticate sha256_hexdigest self' username password' =
       Ok (self', (false, "Invalid username or password"))).
Proof.
  intros (rows & Hfile & Hrows) Hreg.
  pose proof (register_user_true _ _ _ _ _ _ _ Hreg) as (Hu & Hp & _).
  destruct (register_user_file _ _ _ _ _ _ _ rows Hfile Hrows Hreg)
    as (Hfile' & users & _ & _ & Hload').
  split.
  { exists (rows ++ [[username; sha256_hexdigest password; full_name; now]]).
    split; [done|]. apply Forall_app. split; [done|]. by repeat constructor. }
  assert (Hauth : ∀ password', password' ≠ "" →
    AuthManager.authenticate sha256_hexdigest self' username password' =
    if decide (Some (sha256_hexdigest password) ≠
               Some (AuthManager._hash_password sha256_hexdigest password'))
    then Ok (self', (false, "Invalid username or password"))
    else Ok (AuthManager.Build (AuthManager.users_file self')
               (Some (username, Some full_name)) (Some (username, Some full_name)),
             (true, "Login successful"))).
  { intros password' Hp'. unfold AuthManager.authenticate.
    destruct (decide (username = "" ∨ password' = "")) as [[?|?]|_]; [done|done|].
    rewrite Hload'. cbn [mbind result_bind mret result_ret].
    rewrite lookup_insert_eq. cbv zeta. cbn [AuthManager.password_hash AuthManager.full_name].
    done. }
  split; [|split].
  - rewrite (Hauth password Hp). unfold AuthManager._hash_password.
    by destruct (decide _).
  - intros password'. destruct (decide (password' = "")) as [->|Hp'].
    + unfold AuthManager.authenticate.
      destruct (decide (username = "" ∨ "" = "")) as [_|Hno]; [|exfalso; auto].
      simpl. split; [done|]. by intros [? _].
    + rewrite (Hauth password' Hp'). unfold AuthManager._hash_password.
      destruct (decide _) as [Hne|Heq]; simpl.
      * split; [done|]. intros [_ Heq]. exfalso. apply Hne. by rewrite Heq.
      * split; [|done]. intros _. split; [done|].
        apply dec_stable in Heq. by injection Heq.
  - intros password' Hp' Hne. rewrite (Hauth password' Hp').
    unfold AuthManager._hash_password.
    destruct (decide _) as [_|Heq]; [done|].
    apply dec_stable in Heq. injection Heq as Heq. by rewrite Heq in Hne.
Qed.

(** X18.  On a users file that has the standard header and rows of four
    cells, a user name is registered once: after a successful registration
    every further registration of the same name fails and leaves the users
    file and the manager as they are, with the message that the name exists
    as soon as the other checks pass. *)
Theorem username_is_registered_once self self'
    (username password full_name now password2 full_name2 now2 : string) :
  users_file_ok (AuthManager.users_file self) →
  AuthManager.register_user sha256_hexdigest self username password full_name now =
    Ok (self', (true, "Registration successful")) →
  ∃ msg,
    AuthManager.register_user sha256_hexdigest self' username password2 full_name2 now2 =
      Ok (self', (false, msg)) ∧
    (password2 ≠ "" → full_name2 ≠ "" → 6 ≤ String.length password2 →
     msg = "Username already exists").
Proof.
  intros (rows & Hfile & Hrows) Hreg.
  destruct (register_user_file _ _ _ _ _ _ _ rows Hfile Hrows Hreg)
    as (_ & users & _ & _ & Hload').
  apply register_user_true in Hreg as (Hu & _ & _ & Hlen & _).
  unfold AuthManager.register_user.
  destruct (decide (username = "" ∨ password2 = "" ∨ full_name2 = "")) as [Hempty|_].
  { eexists. split; [done|]. intros ? ? _. exfalso. tauto. }
  destruct (decide (String.length username < 3)) as [?|_]; [lia|].
  destruct (decide (String.length password2 < 6)) as [Hshort|_].
  { eexists. split; [done|]. intros _ _ ?. lia. }
  rewrite Hload'. cbn [mbind result_bind mret result_ret].
  rewrite lookup_insert_eq.
  destruct (decide (is_Some _)) as [_|Hno]; [|exfalso; apply Hno; by eexists].
  by eexists.
Qed.

(** X19.  On a users file that has the standard header and rows of four
    cells, registering a user changes nothing for the others: for every
    other user name and every password, logging in after the registration
    gives the same answer and the same current user as before it. *)
Theorem registration_keeps_other_accounts self self'
    (username password full_name now username' password' : string)
    (out : bool * string) :
  users_file_ok (AuthManager.users_file self) →
  AuthManager.register_user sha256_hexdigest self username password full_name now =
    Ok (self', out) →
  username' ≠ username →
  ∃ after before answer,
    AuthManager.authenticate sha256_hexdigest self' username' password' =
      Ok (after, answer) ∧
    AuthManager.authenticate sha256_hexdigest self username' password' =
      Ok (before, answer) ∧
    AuthManager.get_current_user after = AuthManager.get_current_user before.
Proof.
  intros (rows & Hfile & Hrows) Hreg Hne.
  destruct (load_loop_snoc rows "" "" "" "" ∅ Hrows) as (users & Hload & _ & _).
  rewrite <- (load_users_file rows self Hfile) in Hload.
  assert (Hsame : ∃ before answer,
    AuthManager.authenticate sha256_hexdigest self username' password' =
      Ok (before, answer) ∧
    (answer.1 = false → before = self)).
  { unfold AuthManager.authenticate.
    destruct (decide _); [by eexists _, _|].
    rewrite Hload. cbn [mbind result_bind mret result_ret].
    destruct (users !! Some username') as [u|]; [|by eexists _, _].
    cbv zeta. destruct (decide _); by eexists _, _. }
  destruct out as [[|] msg].
  - destruct (register_user_file _ _ _ _ _ _ _ rows Hfile Hrows Hreg)
      as (_ & users0 & Hload0 & _ & Hload').
    rewrite Hload in Hload0. injection Hload0 as <-.
    apply register_user_true in Hreg as (_ & _ & _ & _ & _ & _ & -> & _).
    unfold AuthManager.authenticate in *.
    destruct (decide _); [by eexists _, _, _|].
    rewrite Hload, Hload'. cbn [mbind result_bind mret result_ret].
    rewrite lookup_insert_ne by congruence.
    destruct (users !! Some username') as [u|]; [|by eexists _, _, _].
    cbv zeta. destruct (decide _); by eexists _, _, _.
  - assert (self' = self) as ->.
    { revert Hreg. unfold AuthManager.register_user.
      repeat (destruct (decide _); [by intros [= <-]|]).
      rewrite Hload. cbn [mbind result_bind mret result_ret].
      destruct (decide _); by intros [= <-]. }
    destruct Hsame as (before & answer & Hauth & _).
    by exists before, before, answer.
Qed.
End accounts.

Lemma registered_user_can_log_in_witness :
  users_file_ok (AuthManager.users_file sample_accounts) ∧
  AuthManager.register_user sample_digest sample_accounts "asha" "secret1" "Asha"
    "2024-01-02T10:00:00" = Ok (sample_registered, (true, "Registration successful")) ∧
  users_file_ok (AuthManager.users_file sample_registered) ∧
  AuthManager.authenticate sample_digest sample_registered "asha" "secret1" =
    Ok (AuthManager.Build (AuthManager.users_file sample_registered)
          (Some ("asha", Some "Asha")) (Some ("asha", Some "Asha")),
        (true, "Login successful")) ∧
  (∀ password',
     outcome (AuthManager.authenticate sample_digest sample_registered "asha" password') =
       Some (true, "Login successful") ↔
     password' ≠ "" ∧ sample_digest password' = sample_digest "secret1") ∧
  (∀ password',
     password' ≠ "" → sample_digest password' ≠ sample_digest "secret1" →
     AuthManager.authenticate sample_digest sample_registered "asha" password' =
       Ok (sample_registered, (false, "Invalid username or password"))).
Proof.
  assert (Hok : users_file_ok (AuthManager.users_file sample_accounts)).
  { eexists. split; [reflexivity|]. by repeat constructor. }
  assert (Hreg : AuthManager.register_user sample_digest sample_accounts "asha" "secret1"
                   "Asha" "2024-01-02T10:00:00" =
                 Ok (sample_registered, (true, "Registration successful"))).
  { vm_compute. reflexivity. }
  split; [exact Hok|]. split; [exact Hreg|].
  exact (registered_user_can_log_in sample_digest sample_accounts sample_registered
           "asha" "secret1" "Asha" "2024-01-02T10:00:00" Hok Hreg).
Defined.

Lemma username_is_registered_once_witness :
  users_file_ok (AuthManager.users_file sample_accounts) ∧
  AuthManager.register_user sample_digest sample_accounts "asha" "secret1" "Asha"
    "2024-01-02T10:00:00" = Ok (sample_registered, (true, "Registration successful")) ∧
  ∃ msg,
    AuthManager.register_user sample_digest sample_registered "asha" "another1" "Asha B"
      "2024-01-03T10:00:00" = Ok (sample_registered, (false, msg)) ∧
    ("another1" ≠ "" → "Asha B" ≠ "" → 6 ≤ String.length "another1" →
     msg = "Username already exists").
Proof.
  assert (Hok : users_file_ok (AuthManager.users_file sample_accounts)).
  { eexists. split; [reflexivity|]. by repeat constructor. }
  assert (Hreg : AuthManager.register_user sample_digest sample_accounts "asha" "secret1"
                   "Asha" "2024-01-02T10:00:00" =
                 Ok (sample_registered, (true, "Registration successful"))).
  { vm_compute. reflexivity. }
  split; [exact Hok|]. split; [exact Hreg|].
  exact (username_is_registered_once sample_digest sample_accounts sample_registered
           "asha" "secret1" "Asha" "2024-01-02T10:00:00" "another1" "Asha B"
           "2024-01-03T10:00:00" Hok Hreg).
Defined.

Lemma registration_keeps_other_accounts_witness :
  users_file_ok (AuthManager.users_file sample_accounts) ∧
  AuthManager.register_user sample_digest sample_accounts "asha" "secret1" "Asha"
    "2024-01-02T10:00:00" = Ok (sample_registered, (true, "Registration successful")) ∧
  "admin" ≠ "asha" ∧
  ∃ after before answer,
    AuthManager.authenticate sample_digest sample_registered "admin" "admin123" =
      Ok (after, answer) ∧
    AuthManager.authenticate sample_digest sample_accounts "admin" "admin123" =
      Ok (before, answer) ∧
    AuthManager.get_current_user after = AuthManager.get_current_user before.
Proof.
  assert (Hok : users_file_ok (AuthManager.users_file sample_accounts)).
  { eexists. split; [reflexivity|]. by repeat constructor. }
  assert (Hreg : AuthManager.register_user sample_digest sample_accounts "asha" "secret1"
                   "Asha" "2024-01-02T10:00:00" =
                 Ok (sample_registered, (true, "Registration successful"))).
  { vm_compute. reflexivity. }
  assert (Hne : "admin" ≠ "asha") by done.
  split; [exact Hok|]. split; [exact Hreg|]. split; [exact Hne|].
  exact (registration_keeps_other_accounts sample_digest sample_accounts sample_registered
           "asha" "secret1" "Asha" "2024-01-02T10:00:00" "admin" "admin123" _
           Hok Hreg Hne).
Defined.

Section accounts_file.
Variable sha256_hexdigest : string → string.

(** X20.  [register_user] checks, in this order and on any users file,
    that no field is empty, that the user name has at least 3 characters
    and that the password has at least 6; then, on a users file that has
    the standard header and rows of four cells, that no row has the user
    name in its first cell.  The first check that fails gives the message
    and nothing is written.  When all pass, one row is appended to the
    file: the name, the digest of the password, the full name and the
    time. *)
Theorem register_user_checks (self : AuthManager.t)
    (username password full_name now : string) :
  let r := AuthManager.register_user sha256_hexdigest self username password full_name now in
  (username = "" ∨ password = "" ∨ full_name = "" →
   r = Ok (self, (false, "All fields are required"))) ∧
  (username ≠ "" → password ≠ "" → full_name ≠ "" →
   (String.length username < 3 →
    r = Ok (self, (false, "Username must be at least 3 characters"))) ∧
   (3 ≤ String.length username →
    (String.length password < 6 →
     r = Ok (self, (false, "Password must be at least 6 characters"))) ∧
    (6 ≤ String.length password →
     ∀ rows : list (list string),
       AuthManager.users_file self =
         FileStorage.Present (AuthManager.users_header :: rows) →
       Forall (λ row, length row = 4) rows →
       ((∃ row, row ∈ rows ∧ row !! 0 = Some username) →
        r = Ok (self, (false, "Username already exists"))) ∧
       ((∀ row, row ∈ rows → row !! 0 ≠ Some username) →
        r = Ok (AuthManager.Build
                  (FileStorage.Present
                     (AuthManager.users_header ::
                      rows ++ [[username; sha256_hexdigest password; full_name; now]]))
                  (AuthManager.current_user self) (AuthManager.session_file self),
                (true, "Registration successful")))))).
Proof.
  intros r. subst r. unfold AuthManager.register_user.
  split.
  { intros Hempty. by destruct (decide _). }
  intros Hu Hp Hn.
  destruct (decide (username = "" ∨ password = "" ∨ full_name = "")) as [?|_]; [tauto|].
  split.
  { intros Hshort. by destruct (decide _). }
  intros Hlen. destruct (decide (String.length username < 3)) as [?|_]; [lia|].
  split.
  { intros Hshort. by destruct (decide _). }
  intros Hlen'. destruct (decide (String.length password < 6)) as [?|_]; [lia|].
  intros rows Hfile Hrows.
  destruct (load_loop_snoc rows "" "" "" "" ∅ Hrows) as (users & Hload & _ & Hkeys).
  rewrite (load_users_file rows self Hfile), Hload.
  cbn [mbind result_bind mret result_ret].
  split.
  - intros Htaken. destruct (decide _) as [_|Hno]; [done|].
    exfalso. apply Hno, Hkeys. by right.
  - intros Hfree. destruct (decide _) as [Hyes|_].
    + apply Hkeys in Hyes as [Hin|(row & Hin & Hrow)].
      * rewrite lookup_empty in Hin. by destruct Hin.
      * exfalso. by eapply Hfree.
    + unfold AuthManager._hash_password. by rewrite Hfile.
Qed.

(** X21.  The users file when it is missing.  At start it is created with
    the header row and the account [admin], which can log in with the
    password [admin123]; a file that exists is never replaced.  When it
    is missing at the time of a registration, the registration succeeds
    and creates a file whose only row is the new one, which is then taken
    for the header: the user just registered cannot log in. *)
Theorem missing_users_file (now : string) :
  let fresh := AuthManager.init sha256_hexdigest FileStorage.Absent now in
  users_file_ok (AuthManager.users_file fresh) ∧
  AuthManager.authenticate sha256_hexdigest fresh "admin" "admin123" =
    Ok (AuthManager.Build (AuthManager.users_file fresh)
          (Some ("admin", Some "Administrator")) (Some ("admin", Some "Administrator")),
        (true, "Login successful")) ∧
  (∀ rows,
     AuthManager.users_file
       (AuthManager.init sha256_hexdigest (FileStorage.Present rows) now) =
     FileStorage.Present rows) ∧
  (∀ self username password full_name now',
     AuthManager.users_file self = FileStorage.Absent →
     username ≠ "" → full_name ≠ "" →
     3 ≤ String.length username → 6 ≤ String.length password →
     let self' :=
       AuthManager.Build
         (FileStorage.Present [[username; sha256_hexdigest password; full_name; now']])
         (AuthManager.current_user self) (AuthManager.session_file self) in
     AuthManager.register_user sha256_hexdigest self username password full_name now' =
       Ok (self', (true, "Registration successful")) ∧
     AuthManager.authenticate sha256_hexdigest self' username password =
       Ok (self', (false, "Invalid username or password"))).
Proof.
  intros fresh. split; [|split; [|split]].
  - eexists. split; [reflexivity|]. by repeat constructor.
  - unfold AuthManager.authenticate.
    destruct (decide _) as [[?|?]|_]; [done|done|].
    rewrite (load_users_file
               [["admin"; AuthManager._hash_password sha256_hexdigest "admin123";
                 "Administrator"; now]] fresh eq_refl).
    rewrite load_loop_row. cbn [AuthManager.load_loop mbind result_bind mret result_ret].
    rewrite lookup_insert_eq. cbv zeta.
    cbn [AuthManager.password_hash AuthManager.full_name].
    by destruct (decide _).
  - done.
  - intros self username password full_name now' Hfile Hu Hn Hlen Hlen' self'.
    assert (Hp : password ≠ "") by (intros ->; simpl in Hlen'; lia).
    split.
    + unfold AuthManager.register_user.
      destruct (decide (username = "" ∨ password = "" ∨ full_name = "")) as [?|_]; [tauto|].
      destruct (decide (String.length username < 3)) as [?|_]; [lia|].
      destruct (decide (String.length password < 6)) as [?|_]; [lia|].
      unfold AuthManager._load_users. rewrite Hfile.
      cbn [mbind result_bind mret result_ret]. rewrite lookup_empty.
      destruct (decide _) as [[? ?]|_]; [done|]. done.
    + unfold AuthManager.authenticate.
      destruct (decide _) as [[?|?]|_]; [done|done|]. done.
Qed.

End accounts_file.

(** ** The entry form against the import validation *)

Lemma float_of_str_raises s e :
  Py.float_of_str s = Raise e → is_ValueError e = true.
Proof.
  unfold Py.float_of_str. repeat case_match; try discriminate. by intros [= <-].
Qed.

Lemma sample_row_lookup (date category description amount : Py.pyval) :
  let row := sample_row date category description amount in
  row !! "date" = Some date ∧ row !! "category" = Some category ∧
  row !! "description" = Some description ∧ row !! "amount" = Some amount.
Proof.
  unfold sample_row. cbv zeta.
  rewrite lookup_insert_eq.
  rewrite !(lookup_insert_ne _ "date") by done.
  rewrite lookup_insert_eq.
  rewrite !(lookup_insert_ne _ "category") by done.
  rewrite lookup_insert_eq.
  rewrite !(lookup_insert_ne _ "description") by done.
  by rewrite lookup_singleton_eq.
Qed.

(** X22.  The entry form never raises, and it accepts four texts exactly
    when the import validation accepts the row made of them, the date and
    the amount stripped; the payload is then what the bulk add reads from
    that row: a date of the calendar, the category and the description
    stripped and not empty, and an amount that is not [<= 0].  As in the
    import, the amount [nan] is accepted. *)
Theorem form_accepts_what_validation_accepts
    (date_var category_var desc_var amount_var : string) :
  let row := sample_row (Py.PStr (Py.strip date_var)) (Py.PStr category_var)
               (Py.PStr desc_var) (Py.PStr (Py.strip amount_var)) in
  (∃ r, ExpenseApp._validate_form date_var category_var desc_var amount_var = Ok r) ∧
  (∀ date category description amount,
     ExpenseApp._validate_form date_var category_var desc_var amount_var =
       Ok (inl (date, category, description, amount)) ↔
     row_passes row ∧
     SectionManager.coerce row = Ok (date, category, description, amount)) ∧
  (∀ date category description amount,
     ExpenseApp._validate_form date_var category_var desc_var amount_var =
       Ok (inl (date, category, description, amount)) →
     Py.valid_date date = true ∧
     category = Py.strip category_var ∧ category ≠ "" ∧
     description = Py.strip desc_var ∧ description ≠ "" ∧
     Py.fleb amount Py.fzero = false) ∧
  (∀ date,
     Py.date_fromisoformat (Py.strip date_var) = Ok date →
     Py.strip category_var ≠ "" → Py.strip desc_var ≠ "" →
     ExpenseApp._validate_form date_var category_var desc_var "nan" =
       Ok (inl (date, Py.strip category_var, Py.strip desc_var, S754_nan))).
Proof.
  intros row.
  destruct (sample_row_lookup (Py.PStr (Py.strip date_var)) (Py.PStr category_var)
              (Py.PStr desc_var) (Py.PStr (Py.strip amount_var)))
    as (Hd & Hc & Hde & Ha).
  fold row in Hd, Hc, Hde, Ha.
  assert (Hform : ExpenseApp._validate_form date_var category_var desc_var amount_var =
    match Py.date_fromisoformat (Py.strip date_var) with
    | Raise _ => Ok (inr ("❌ Invalid Date", "Use YYYY-MM-DD format."))
    | Ok date =>
        if decide (Py.strip category_var = "") then
          Ok (inr ("❌ Empty Category", "Category cannot be empty."))
        else if decide (Py.strip desc_var = "") then
          Ok (inr ("❌ Empty Description", "Description cannot be empty."))
        else
          match Py.float_of_str (Py.strip amount_var) with
          | Raise _ => Ok (inr ("❌ Invalid Amount", "Amount must be positive number."))
          | Ok amount =>
              if Py.fleb amount Py.fzero then
                Ok (inr ("❌ Invalid Amount", "Amount must be positive number."))
              else Ok (inl (date, Py.strip category_var, Py.strip desc_var, amount))
          end
    end).
  { unfold ExpenseApp._validate_form, try_except.
    destruct (Py.date_fromisoformat (Py.strip date_var)) as [date|e] eqn:Hdate;
      cbn [mbind result_bind mret result_ret].
    - destruct (decide _); [done|]. destruct (decide _); [done|].
      destruct (Py.float_of_str (Py.strip amount_var)) as [amount|e] eqn:Hamount;
        cbn [mbind result_bind mret result_ret].
      + by destruct (Py.fleb amount Py.fzero).
      + by rewrite (float_of_str_raises _ _ Hamount).
    - by rewrite (date_fromisoformat_raises _ _ Hdate). }
  assert (Hiff : ∀ date category description amount,
     ExpenseApp._validate_form date_var category_var desc_var amount_var =
       Ok (inl (date, category, description, amount)) ↔
     Py.date_fromisoformat (Py.strip date_var) = Ok date ∧
     category = Py.strip category_var ∧ category ≠ "" ∧
     description = Py.strip desc_var ∧ description ≠ "" ∧
     Py.float_of_str (Py.strip amount_var) = Ok amount ∧
     Py.fleb amount Py.fzero = false).
  { intros date category description amount. rewrite Hform.
    destruct (Py.date_fromisoformat (Py.strip date_var)) as [date'|e].
    2:{ split; [done|]. by intros [? _]. }
    destruct (decide (Py.strip category_var = "")) as [Hc0|Hc0].
    { split; [done|]. intros (_ & -> & ? & _). done. }
    destruct (decide (Py.strip desc_var = "")) as [Hd0|Hd0].
    { split; [done|]. intros (_ & _ & _ & -> & ? & _). done. }
    destruct (Py.float_of_str (Py.strip amount_var)) as [amount'|e].
    2:{ split; [done|]. by intros (_ & _ & _ & _ & _ & ? & _). }
    destruct (Py.fleb amount' Py.fzero) eqn:Hle.
    { split; [done|]. intros (_ & _ & _ & _ & _ & [= <-] & ?). congruence. }
    split.
    - intros [= <- <- <- <-]. done.
    - intros ([= <-] & -> & _ & -> & _ & [= <-] & _). done. }
  split; [|split; [|split]].
  - rewrite Hform. repeat case_match; by eexists.
  - intros date category description amount. rewrite Hiff, coerce_Ok. split.
    + intros (Hdate & -> & Hcne & -> & Hdne & Hamount & Hle). split.
      * exists (Py.strip date_var), category_var, desc_var,
          (Py.PStr (Py.strip amount_var)), amount.
        by rewrite Hdate.
      * by exists (Py.strip date_var), category_var, desc_var,
          (Py.PStr (Py.strip amount_var)).
    + intros [(d1 & c1 & de1 & a1 & amount1 & Hd1 & _ & Ha1 & Hf1 & Hle & Hc1 & Hcne &
                 Hde1 & Hdne)
              (d2 & c2 & de2 & a2 & Hd2 & Hdate & Hc2 & -> & Hde2 & -> & Ha2 & Hf2)].
      rewrite Hd in Hd2. rewrite Hc in Hc1, Hc2. rewrite Hde in Hde1, Hde2.
      rewrite Ha in Ha1, Ha2.
      injection Hd2 as <-. injection Hc1 as <-. injection Hc2 as <-.
      injection Hde1 as <-. injection Hde2 as <-.
      injection Ha1 as <-. injection Ha2 as <-.
      simpl in Hf1, Hf2. rewrite Hf1 in Hf2. injection Hf2 as <-.
      done.
  - intros date category description amount
      (Hdate & -> & ? & -> & ? & _ & ?)%Hiff.
    repeat split; try done. by eapply date_fromisoformat_valid.
  - intros date Hdate Hc0 Hd0.
    unfold ExpenseApp._validate_form, try_except. rewrite Hdate.
    cbn [mbind result_bind mret result_ret].
    destruct (decide _); [done|]. destruct (decide _); [done|].
    done.
Qed.
